(** * Agente Telefonico Contatori: appointment scheduling backend

    A shallow embedding of the request handlers of the meter-replacement
    appointment service (search, confirm, reschedule, date validation,
    operator phone resolution, the appointment list, general information
    and the test insertion) and the properties of its specification.

    Conventions of the embedding:
    - a string is the sequence of its UTF-8 bytes;
    - a JavaScript [Date] is its time value, milliseconds since the epoch, in [Z];
    - a calendar date (the SQL [DATE] column [data_appuntamento], the
      [YYYY-MM-DD] strings [new_date] and [proposed_date], the result of
      [toISOString().split('T')[0]]) is its day number since 1970-01-01;
    - the host's local time zone is an offset east of UTC, in minutes, the
      same over the days a request looks at, and its rendering of a date
      for the locale it-IT is part of the host, since it comes with the
      locale data of the runtime and not with the program;
    - SQL tables are lists of rows, in storage order, and the database
      carries the [lower()] of its locale;
    - [pool.query] runs in a state-and-exception monad over the database,
      a schedule of store faults, the log of issued statements and the
      outbox of the SMS gateway. *)

From Stdlib Require Import ZArith List String Ascii Bool Lia DecimalString.
From Stdlib Require Import Sorted.
Import ListNotations.

Local Open Scope string_scope.
Local Open Scope Z_scope.

(** ** JavaScript values *)

Module JS.

(** Truthiness of a possibly missing string: [undefined], [null] and the
    empty string are falsy. *)
Definition truthy (v : option string) : bool :=
  match v with
  | Some s => negb (s =? "")%string
  | None => false
  end.

(** [v || d] on a possibly missing string. *)
Definition or_else (v : option string) (d : string) : string :=
  match v with
  | Some s => if (s =? "")%string then d else s
  | None => d
  end.

(** A string from the values of its bytes. *)
Definition bytes (l : list Z) : string :=
  string_of_list_ascii (map (fun n => ascii_of_nat (Z.to_nat n)) l).

Definition reverse (s : string) : string :=
  string_of_list_ascii (rev (list_ascii_of_string s)).

(** The white space and line terminators that [String.prototype.trim]
    strips, in UTF-8: TAB, LF, VT, FF, CR, SP, U+00A0, U+1680, U+2000 to
    U+200A, U+2028, U+2029, U+202F, U+205F, U+3000 and U+FEFF. *)
Definition whiteSpace : list string :=
  map bytes
    [ [9]; [10]; [11]; [12]; [13]; [32]; [194; 160]; [225; 154; 128];
      [226; 128; 128]; [226; 128; 129]; [226; 128; 130]; [226; 128; 131];
      [226; 128; 132]; [226; 128; 133]; [226; 128; 134]; [226; 128; 135];
      [226; 128; 136]; [226; 128; 137]; [226; 128; 138];
      [226; 128; 168]; [226; 128; 169]; [226; 128; 175]; [226; 129; 159];
      [227; 128; 128]; [239; 187; 191] ].

(** [s] without its prefix [pre], when it has it. *)
Fixpoint stripPrefix (pre s : string) : option string :=
  match pre, s with
  | EmptyString, _ => Some s
  | String a pre', String b s' =>
      if Ascii.eqb a b then stripPrefix pre' s' else None
  | String _ _, EmptyString => None
  end.

(** [s] without the first of the [marks] it starts with. *)
Fixpoint stripAny (marks : list string) (s : string) : option string :=
  match marks with
  | [] => None
  | mark :: marks' =>
      match stripPrefix mark s with
      | Some rest => Some rest
      | None => stripAny marks' s
      end
  end.

(** Strips leading [marks], at most [fuel] times. *)
Fixpoint stripLeading (marks : list string) (fuel : nat) (s : string) : string :=
  match fuel with
  | O => s
  | S fuel' =>
      match stripAny marks s with
      | Some rest => stripLeading marks fuel' rest
      | None => s
      end
  end.

Definition trimStart (s : string) : string :=
  stripLeading whiteSpace (String.length s) s.

Definition trimEnd (s : string) : string :=
  reverse (stripLeading (map reverse whiteSpace) (String.length s) (reverse s)).

Definition trim (s : string) : string := trimEnd (trimStart s).

(** [s.split(sep)] for a one-character separator: never empty, and the
    empty string splits into one empty token. *)
Fixpoint split (sep : ascii) (s : string) : list string :=
  match s with
  | EmptyString => [EmptyString]
  | String c s' =>
      if Ascii.eqb c sep then EmptyString :: split sep s'
      else match split sep s' with
           | t :: ts => String c t :: ts
           | [] => [String c EmptyString]
           end
  end.

(** [a.join(sep)]. *)
Definition join (sep : string) (a : list string) : string := String.concat sep a.

(** [a.slice(k)] for [k >= 0]. *)
Definition slice_from {A} (k : nat) (a : list A) : list A := skipn k a.

(** [a.slice(0, k)]. *)
Definition slice_to {A} (k : nat) (a : list A) : list A := firstn k a.

End JS.

(** ** Dates *)

Module Date.

Definition msPerDay : Z := 86400000.
Definition msPerMinute : Z := 60000.

(** The host: its clock at the time of the request, its time zone and
    the short date of its locale data for it-IT. *)
Record Host := {
  now : Z;         (* [new Date()], milliseconds since the epoch *)
  tzOffset : Z;    (* minutes east of UTC of local time *)
  it_IT : Z -> Z -> Z -> string
                   (* day, month and year as [toLocaleDateString('it-IT')]
                      prints them *)
}.

(** [new Date('YYYY-MM-DD')]: a date-only string is midnight UTC. *)
Definition parse (d : Z) : Z := d * msPerDay.

(** The [Date] the driver builds for a [DATE] column: local midnight. *)
Definition ofColumn (h : Host) (d : Z) : Z := d * msPerDay - tzOffset h * msPerMinute.

(** [toISOString().split('T')[0]]: the UTC calendar date. *)
Definition isoDate (t : Z) : Z := t / msPerDay.

(** The local calendar date of a time value. *)
Definition localDate (h : Host) (t : Z) : Z := (t + tzOffset h * msPerMinute) / msPerDay.

(** Day of the week of a calendar date, 0 = Sunday (1970-01-01 was a Thursday). *)
Definition weekday (d : Z) : Z := (d + 4) mod 7.

(** [getDay()]: the day of the week in local time. *)
Definition getDay (h : Host) (t : Z) : Z := weekday (localDate h t).

(** [date.setDate(date.getDate() + i)]: the same local wall-clock time
    [i] calendar days later, which is [i] times 24 hours later while the
    offset of the zone stays the same. *)
Definition addDays (t i : Z) : Z := t + i * msPerDay.

(** Year, month and day of a calendar date (proleptic Gregorian). *)
Definition civil (d : Z) : Z * Z * Z :=
  let z := d + 719468 in
  let era := z / 146097 in
  let doe := z - era * 146097 in
  let yoe := (doe - doe / 1460 + doe / 36524 - doe / 146096) / 365 in
  let doy := doe - (365 * yoe + yoe / 4 - yoe / 100) in
  let mp := (5 * doy + 2) / 153 in
  let dd := doy - (153 * mp + 2) / 5 + 1 in
  let mm := if mp <? 10 then mp + 3 else mp - 9 in
  let yy := yoe + era * 400 in
  (if mm <=? 2 then yy + 1 else yy, mm, dd).

Definition decimal (n : Z) : string :=
  NilZero.string_of_uint (N.to_uint (Z.to_N n)).

(** [toLocaleDateString('it-IT')]: the local date, as the host prints it. *)
Definition toLocaleDateString (h : Host) (t : Z) : string :=
  let '(y, m, d) := civil (localDate h t) in
  it_IT h d m y.

(** [toLocaleDateString('it-IT', { weekday: 'long' })]. *)
Definition weekdayName (h : Host) (t : Z) : string :=
  match getDay h t with
  | 0 => "domenica"
  | 1 => "lunedì"
  | 2 => "martedì"
  | 3 => "mercoledì"
  | 4 => "giovedì"
  | 5 => "venerdì"
  | _ => "sabato"
  end.

(** The [YYYY-MM-DD] string of a calendar date. *)
Definition pad2 (n : Z) : string :=
  if n <? 10 then "0" ++ decimal n else decimal n.

(** The two short dates that locale data give for it-IT: [d/M/y], as in
    24/7/2024, and [dd/MM/y], as in 24/07/2024. *)
Definition d_M_y (d m y : Z) : string :=
  decimal d ++ "/" ++ decimal m ++ "/" ++ decimal y.

Definition dd_MM_y (d m y : Z) : string :=
  pad2 d ++ "/" ++ pad2 m ++ "/" ++ decimal y.

Definition isoString (d : Z) : string :=
  let '(y, m, dd) := civil d in
  decimal y ++ "-" ++ pad2 m ++ "-" ++ pad2 dd.

End Date.

Import Date.

(** ** The database *)

(** A row of [pianificazioni], the appointments. *)
Record Pianificazione := {
  p_id : Z;
  nome_utente : string;
  indirizzo : string;
  comune : string;
  matricola : string;
  pdr_pdp : string;
  data_appuntamento : Z;
  fascia_oraria : string;
  telefono : string;
  commessa_id : option Z;
  operatore_id : option Z;
  stato : string;     (* never NULL: added with DEFAULT 'programmato' *)
  note_riprogrammazione : option string;
  data_conferma : option Z;
  data_modifica : option Z
}.

(** A row of [commesse], the work orders. *)
Record Commessa := {
  c_id : Z;
  tipo_attivita : string;
  committente : string
}.

(** A row of [operatori]. *)
Record Operatore := {
  o_id : Z;
  o_nome : string;
  o_cognome : string;
  o_telefono : option string
}.

(** A row of [call_logs], the audit trail. *)
Record CallLog := {
  l_matricola : option string;
  action_taken : string;
  details : string;
  timestamp : Z
}.

Record Store := {
  pianificazioni : list Pianificazione;
  commesse : list Commessa;
  operatori : list Operatore;
  call_logs : list CallLog;
  lower : string -> string
    (* [LOWER(text)], which folds the letters its locale knows *)
}.

(** The statements the handlers send to [pool.query]. *)
Inductive Stmt :=
| SelectSearch (m : string)
| SelectTarget (id : option Z) (m : option string)
| AlterAddStato
| AlterAddNote
| UpdateConfirm (id : option Z) (m : option string)
| SelectAvailability (d : Z) (f : string)
| UpdateReschedule (d : Z) (f note : string) (id : option Z) (m : option string)
| InsertCallLog (m : option string) (action det : string)
| SelectOperatore (nome cognome : string)
| InsertTestAppointment.

(** A text message handed to the SMS gateway. *)
Record Sms := { msisdn : string; text : string }.

(** What a request runs against: the database, the faults the store will
    raise ([true] makes the next statement throw), the statements issued
    so far and the messages handed to the gateway (both most recent first). *)
Record World := {
  store : Store;
  faults : list bool;
  issued : list Stmt;
  outbox : list Sms
}.

(** ** The monad of a request *)

Inductive Outcome (A : Type) :=
| Ret (a : A)
| Throw (e : string).
Arguments Ret {A} a.
Arguments Throw {A} e.

Definition M (A : Type) : Type := World -> Outcome A * World.

Definition ret {A} (a : A) : M A := fun w => (Ret a, w).

Definition bind {A B} (m : M A) (k : A -> M B) : M B :=
  fun w =>
    match m w with
    | (Ret a, w') => k a w'
    | (Throw e, w') => (Throw e, w')
    end.

(** [try { m } catch (error) { k error }] and [m.catch(k)]. *)
Definition try_catch {A} (m : M A) (k : string -> M A) : M A :=
  fun w =>
    match m w with
    | (Ret a, w') => (Ret a, w')
    | (Throw e, w') => k e w'
    end.

Notation "x <- m ;; k" := (bind m (fun x => k))
  (at level 61, m at next level, right associativity).
Notation "m ;;; k" := (bind m (fun _ => k))
  (at level 61, right associativity).

(** [.catch(() => {})] and the empty [catch (alterError) {}]. *)
Definition ignore_errors {A} (m : M A) : M unit :=
  try_catch (_ <- m ;; ret tt) (fun _ => ret tt).

(** [await pool.query(q, params)]: the statement is logged, then either
    the store throws or the statement runs on the database. *)
Definition pool_query {A} (q : Stmt) (run : Store -> A * Store) : M A :=
  fun w =>
    match faults w with
    | true :: fs =>
        (Throw "store unavailable",
         {| store := store w; faults := fs;
            issued := q :: issued w; outbox := outbox w |})
    | fs =>
        let (a, s') := run (store w) in
        (Ret a,
         {| store := s'; faults := tl fs;
            issued := q :: issued w; outbox := outbox w |})
    end.

(** ** SQL *)

Module SQL.

(** [col = $k] with a parameter that may be [undefined] (SQL [NULL]):
    a comparison with [NULL] selects nothing. *)
Definition eq_id (col : Z) (param : option Z) : bool :=
  match param with
  | Some v => col =? v
  | None => false
  end.

Definition eq_text (col : string) (param : option string) : bool :=
  match param with
  | Some v => (col =? v)%string
  | None => false
  end.

(** [WHERE id = $1 OR matricola = $2]. *)
Definition targets (id : option Z) (m : option string) (p : Pianificazione) : bool :=
  eq_id (p_id p) id || eq_text (matricola p) m.

(** [LEFT JOIN t ON key = t.id]: every matching row of [t], or one [NULL]
    row when there is none. *)
Definition left_join {A B} (on : A -> B -> bool) (l : list A) (t : list B)
  : list (A * option B) :=
  flat_map (fun a =>
              match filter (on a) t with
              | [] => [(a, None)]
              | bs => map (fun b => (a, Some b)) bs
              end) l.

Definition on_operatore (p : Pianificazione) (o : Operatore) : bool :=
  match operatore_id p with
  | Some k => k =? o_id o
  | None => false
  end.

Definition on_commessa (p : Pianificazione) (c : Commessa) : bool :=
  match commessa_id p with
  | Some k => k =? c_id c
  | None => false
  end.

(** [ORDER BY key DESC], as a stable insertion sort. *)
Fixpoint insert_desc {A} (key : A -> Z) (a : A) (l : list A) : list A :=
  match l with
  | [] => [a]
  | b :: l' => if key b <? key a then a :: l else b :: insert_desc key a l'
  end.

Fixpoint order_by_desc {A} (key : A -> Z) (l : list A) : list A :=
  match l with
  | [] => []
  | a :: l' => insert_desc key a (order_by_desc key l')
  end.

(** Two instances of [LOWER(s)].  In the C locale it folds the letters
    A to Z and leaves every other byte. *)
Definition lower_ascii (c : ascii) : ascii :=
  let n := nat_of_ascii c in
  if (Nat.leb 65 n && Nat.leb n 90)%bool then ascii_of_nat (n + 32) else c.

Fixpoint LOWER (s : string) : string :=
  match s with
  | EmptyString => EmptyString
  | String c s' => String (lower_ascii c) (LOWER s')
  end.

(** In a UTF-8 locale it folds accented capitals too; here on the letters
    of Latin-1, U+00C0 to U+00DE without the sign U+00D7, which UTF-8
    writes as the byte 195 and a byte from 128 to 158. *)
Definition lower_latin1 (c : ascii) : ascii :=
  let n := nat_of_ascii c in
  if (Nat.leb 128 n && Nat.leb n 158 && negb (Nat.eqb n 151))%bool
  then ascii_of_nat (n + 32) else c.

Fixpoint LOWER_utf8 (s : string) : string :=
  match s with
  | EmptyString => EmptyString
  | String c s' =>
      if Nat.eqb (nat_of_ascii c) 195 then
        match s' with
        | String c' s'' => String c (String (lower_latin1 c') (LOWER_utf8 s''))
        | EmptyString => String c EmptyString
        end
      else String (lower_ascii c) (LOWER_utf8 s')
  end.

End SQL.

(** ** Queries *)

Definition with_pianificazioni (s : Store) (rows : list Pianificazione) : Store :=
  {| pianificazioni := rows; commesse := commesse s;
     operatori := operatori s; call_logs := call_logs s;
     lower := lower s |}.

Definition with_call_logs (s : Store) (rows : list CallLog) : Store :=
  {| pianificazioni := pianificazioni s; commesse := commesse s;
     operatori := operatori s; call_logs := rows;
     lower := lower s |}.

(** A statement that only reads. *)
Definition reading {A} (f : Store -> A) : Store -> A * Store :=
  fun s => (f s, s).

(** A row of the search query: the appointment with the columns of its
    work order and its operator. *)
Record SearchRow := {
  s_row : Pianificazione;
  s_commessa : option Commessa;
  s_operatore : option Operatore
}.

Definition s_tipo_attivita (r : SearchRow) : option string :=
  option_map tipo_attivita (s_commessa r).
Definition s_committente (r : SearchRow) : option string :=
  option_map committente (s_commessa r).
Definition operatore_nome (r : SearchRow) : option string :=
  option_map o_nome (s_operatore r).
Definition operatore_cognome (r : SearchRow) : option string :=
  option_map o_cognome (s_operatore r).

(** [FROM pianificazioni p LEFT JOIN commesse c ... LEFT JOIN operatori o ...
    WHERE p.matricola = $1 ORDER BY p.data_appuntamento DESC LIMIT 1]. *)
Definition search_rows (m : string) (s : Store) : list SearchRow :=
  let pc := SQL.left_join SQL.on_commessa (pianificazioni s) (commesse s) in
  let pco := SQL.left_join (fun x o => SQL.on_operatore (fst x) o) pc (operatori s) in
  let rows := map (fun x => {| s_row := fst (fst x); s_commessa := snd (fst x);
                               s_operatore := snd x |}) pco in
  filter (fun r => (matricola (s_row r) =? m)%string) rows.

Definition select_search (m : string) (s : Store) : list SearchRow :=
  firstn 1 (SQL.order_by_desc (fun r => data_appuntamento (s_row r)) (search_rows m s)).

(** A row of [appointmentQuery]: [p.*] with the operator joined in. *)
Record TargetRow := {
  t_row : Pianificazione;
  t_operatore : option Operatore
}.

(** [o.telefono as operatore_telefono]. *)
Definition operatore_telefono (r : TargetRow) : option string :=
  match t_operatore r with
  | Some o => o_telefono o
  | None => None
  end.

(** [SELECT p.*, o.nome, o.cognome, o.telefono as operatore_telefono
    FROM pianificazioni p LEFT JOIN operatori o ON p.operatore_id = o.id
    WHERE p.id = $1 OR p.matricola = $2]. *)
Definition select_target (id : option Z) (m : option string) (s : Store)
  : list TargetRow :=
  map (fun x => {| t_row := fst x; t_operatore := snd x |})
      (filter (fun x => SQL.targets id m (fst x))
              (SQL.left_join SQL.on_operatore (pianificazioni s) (operatori s))).

(** [UPDATE pianificazioni SET ... WHERE cond RETURNING *]. *)
Definition update_where (cond : Pianificazione -> bool)
    (set : Pianificazione -> Pianificazione) (s : Store)
  : list Pianificazione * Store :=
  (map set (filter cond (pianificazioni s)),
   with_pianificazioni s
     (map (fun p => if cond p then set p else p) (pianificazioni s))).

(** [SET stato = 'confermato', data_conferma = CURRENT_TIMESTAMP]. *)
Definition set_confermato (ts : Z) (p : Pianificazione) : Pianificazione :=
  {| p_id := p_id p; nome_utente := nome_utente p; indirizzo := indirizzo p;
     comune := comune p; matricola := matricola p; pdr_pdp := pdr_pdp p;
     data_appuntamento := data_appuntamento p; fascia_oraria := fascia_oraria p;
     telefono := telefono p; commessa_id := commessa_id p;
     operatore_id := operatore_id p;
     stato := "confermato";
     note_riprogrammazione := note_riprogrammazione p;
     data_conferma := Some ts;
     data_modifica := data_modifica p |}.

(** [SET data_appuntamento = $1, fascia_oraria = $2, stato = 'riprogrammato',
    note_riprogrammazione = $3, data_modifica = CURRENT_TIMESTAMP]. *)
Definition set_riprogrammato (ts d : Z) (f note : string) (p : Pianificazione)
  : Pianificazione :=
  {| p_id := p_id p; nome_utente := nome_utente p; indirizzo := indirizzo p;
     comune := comune p; matricola := matricola p; pdr_pdp := pdr_pdp p;
     data_appuntamento := d; fascia_oraria := f;
     telefono := telefono p; commessa_id := commessa_id p;
     operatore_id := operatore_id p;
     stato := "riprogrammato";
     note_riprogrammazione := Some note;
     data_conferma := data_conferma p;
     data_modifica := Some ts |}.

Definition update_confirm (ts : Z) (id : option Z) (m : option string) :=
  update_where (SQL.targets id m) (set_confermato ts).

Definition update_reschedule (ts d : Z) (f note : string)
    (id : option Z) (m : option string) :=
  update_where (SQL.targets id m) (set_riprogrammato ts d f note).

(** [WHERE data_appuntamento = $1 AND fascia_oraria = $2 AND stato != 'cancellato']. *)
Definition occupies (d : Z) (f : string) (p : Pianificazione) : bool :=
  (data_appuntamento p =? d) && (fascia_oraria p =? f)%string
  && negb (stato p =? "cancellato")%string.

(** [SELECT COUNT( * ) as count FROM pianificazioni WHERE ...]. *)
Definition select_availability (d : Z) (f : string) (s : Store) : Z :=
  Z.of_nat (List.length (filter (occupies d f) (pianificazioni s))).

(** [INSERT INTO call_logs (matricola, action_taken, details, timestamp)
    VALUES ($1, action, details, CURRENT_TIMESTAMP)]. *)
Definition insert_call_log (ts : Z) (m : option string) (action det : string)
    (s : Store) : unit * Store :=
  (tt, with_call_logs s
         (call_logs s ++ [{| l_matricola := m; action_taken := action;
                             details := det; timestamp := ts |}])).

(** The next value of the sequence behind [pianificazioni.id]: past every
    id in use. *)
Definition next_id (rows : list Pianificazione) : Z :=
  1 + fold_right (fun p acc => Z.max (p_id p) acc) 0 rows.

(** [INSERT INTO pianificazioni (nome_utente, indirizzo, comune, matricola,
    pdr_pdp, data_appuntamento, fascia_oraria, telefono) VALUES (...)
    RETURNING *]: the other columns take their defaults. *)
Definition insert_appointment (nome ind com m pdr : string) (d : Z)
    (f tel : string) (s : Store) : list Pianificazione * Store :=
  let p := {| p_id := next_id (pianificazioni s); nome_utente := nome;
              indirizzo := ind; comune := com; matricola := m; pdr_pdp := pdr;
              data_appuntamento := d; fascia_oraria := f; telefono := tel;
              commessa_id := None; operatore_id := None;
              stato := "programmato"; note_riprogrammazione := None;
              data_conferma := None; data_modifica := None |} in
  ([p], with_pianificazioni s (pianificazioni s ++ [p])).

(** [ALTER TABLE pianificazioni ADD COLUMN IF NOT EXISTS ...].  A store
    holds the rows of the tables, and a row of [Pianificazione] carries
    these columns already, with the value a column that is added gives
    to the rows that are there: the statement may add a column, and it
    changes no row. *)
Definition alter_table (s : Store) : unit * Store := (tt, s).

(** [SELECT telefono, nome, cognome FROM operatori
    WHERE LOWER(nome) = LOWER($1) AND LOWER(cognome) = LOWER($2) LIMIT 1]. *)
Definition select_operatore (nome cognome : string) (s : Store) : list Operatore :=
  firstn 1
    (filter (fun o => (lower s (o_nome o) =? lower s nome)%string
                      && (lower s (o_cognome o) =? lower s cognome)%string)
            (operatori s)).

(** ** Responses *)

(** The [appointment] object of a successful search. *)
Record AppointmentView := {
  v_id : Z;
  v_nome : string;
  v_indirizzo : string;
  v_comune : string;
  v_matricola : string;
  v_data : string;
  v_fascia_oraria : string;
  v_tipo_attivita : option string;
  v_committente : option string;
  v_operatore : string;
  v_telefono : string
}.

(** An entry of [alternatives]: [{ date, time }]. *)
Record Alternative := { alt_date : Z; alt_time : string }.

(** An entry of [suggested_dates] and of [available_dates]. *)
Record SuggestedDate := {
  sd_date : Z;            (* [date], the ISO calendar date *)
  formatted : string;
  day_name : string       (* [dayName] in [available_dates] *)
}.

(** The JSON bodies the handlers send. *)
Inductive Body :=
| Failure (error : string)
    (* [{ success: false, error }] *)
| FailureDetails (error det : string)
    (* [{ success: false, error, details }] *)
| NotFound (message : string)
    (* [{ success: false, found: false, message }] *)
| Found (appointment : AppointmentView) (message : string)
    (* [{ success: true, found: true, appointment, message }] *)
| Success (message : string)
    (* [{ success: true, message }] *)
| CapacityExceeded (error : string) (alternatives : list Alternative)
    (* [{ success: false, error, alternatives }] *)
| Invalid (reason message : string) (suggested_dates : list SuggestedDate)
    (* [{ success: false, is_valid: false, reason, message, suggested_dates }] *)
| Valid (message : string) (available_time_slots : list string)
    (* [{ success: true, is_valid: true, message, available_time_slots }] *)
| CurrentDate (current_date : Z) (current_date_formatted message : string)
    (available_dates : list SuggestedDate) (time_slots : list string)
    (* [{ success: true, current_date, current_date_formatted, message,
          available_dates, time_slots }] *)
| Created (message : string) (row : Pianificazione)
    (* [{ success: true, message, appointment }] *).

Record Response := { status : Z; body : Body }.

Definition json (b : Body) : Response := {| status := 200; body := b |}.
Definition status_json (code : Z) (b : Body) : Response :=
  {| status := code; body := b |}.

(** The [success] field of a body. *)
Definition success (r : Response) : bool :=
  match body r with
  | Found _ _ | Success _ | Valid _ _ | CurrentDate _ _ _ _ _
  | Created _ _ => true
  | _ => false
  end.

(** [`${v}`] of a column that may be [NULL]. *)
Definition interpolate (v : option string) : string :=
  match v with
  | Some s => s
  | None => "null"
  end.

Definition nl : string := String (ascii_of_nat 10) EmptyString.

Definition not_found_404 : Response :=
  status_json 404 (Failure "Appuntamento non trovato").

(** The body of a refused reschedule. *)
Definition slot_full (new_date : Z) : Response :=
  json (CapacityExceeded
          "La fascia oraria richiesta è già piena. Le propongo alternative disponibili."
          [ {| alt_date := new_date; alt_time := "08:00-12:00" |};
            {| alt_date := new_date; alt_time := "13:00-17:00" |} ]).

(** ** The operator notifier *)

(** The SMS gateway: the parsed JSON answer to a message, or [None] when
    [fetch] or [response.json()] throws. *)
Definition Gateway : Type := Sms -> option string.

(** [sendSMSToOperator(operatorPhone, message)]: the gateway's answer, or
    [null] when the call throws. *)
Definition sendSMSToOperator (gateway : Gateway) (operatorPhone message : string)
  : M (option string) :=
  fun w =>
    let sms := {| msisdn := operatorPhone; text := message |} in
    (Ret (gateway sms),
     {| store := store w; faults := faults w;
        issued := issued w; outbox := sms :: outbox w |}).

(** [getOperatorPhone(operatorFullName)]: the phone of the operator whose
    display name is given, or [null]. *)
Definition getOperatorPhone (operatorFullName : option string) : M (option string) :=
  try_catch
    (if negb (JS.truthy operatorFullName) then ret None
     else
       let nameParts := JS.split " " (JS.trim (JS.or_else operatorFullName "")) in
       if (List.length nameParts <? 2)%nat then ret None
       else
         let nome := hd "" nameParts in
         let cognome := JS.join " " (JS.slice_from 1 nameParts) in
         result <- pool_query (SelectOperatore nome cognome)
                              (reading (select_operatore nome cognome)) ;;
         match result with
         | operator :: _ => ret (o_telefono operator)
         | [] => ret None
         end)
    (fun _ => ret None).

(** ** Date and slot policy *)

Definition suggested (h : Host) (date : Z) : SuggestedDate :=
  {| sd_date := isoDate date;
     formatted := toLocaleDateString h date;
     day_name := weekdayName h date |}.

(** The loop [for (let i = ...; ...; i++)] of [getSuggestedDates] and of
    [/api/get-current-date], with [n] iterations left: each day that is not
    a Sunday is pushed. *)
Fixpoint availableDatesLoop (h : Host) (today i : Z) (n : nat)
    (acc : list SuggestedDate) : list SuggestedDate :=
  match n with
  | O => acc
  | S n' =>
      let date := addDays today i in
      let acc' := if negb (getDay h date =? 0) then (acc ++ [suggested h date])%list
                  else acc in
      availableDatesLoop h today (i + 1) n' acc'
  end.

(** [getSuggestedDates()]: the first 5 offerable days of the next 7. *)
Definition getSuggestedDates (h : Host) : list SuggestedDate :=
  let today := now h in
  JS.slice_to 5 (availableDatesLoop h today 1 7 []).

(** [POST /api/validate-appointment-date]. *)
Definition validate_appointment_date (h : Host)
    (proposed_date : option Z) (time_slot : option string) : Response :=
  match proposed_date with
  | None => status_json 400 (Failure "Data proposta richiesta")
  | Some d =>
      let today := now h in
      let proposedDate := parse d in
      if proposedDate <=? today then
        json (Invalid "past_date"
                ("Mi dispiace, non posso fissare appuntamenti nel passato. Oggi è "
                 ++ toLocaleDateString h today
                 ++ ". Le posso proporre una data da domani in poi.")
                (getSuggestedDates h))
      else
        let dayOfWeek := getDay h proposedDate in
        if dayOfWeek =? 0 then
          json (Invalid "sunday"
                  "Non effettuiamo interventi di domenica. Le posso proporre il lunedì successivo o un altro giorno."
                  (getSuggestedDates h))
        else
          json (Valid ("Perfetto! La data " ++ toLocaleDateString h proposedDate
                       ++ " è disponibile.")
                      ["08:00-12:00"; "09:00-12:00"; "13:00-17:00";
                       "14:00-17:00"; "14:00-18:00"])
  end.

(** [POST /api/get-current-date]. *)
Definition get_current_date (h : Host) : Response :=
  let today := now h in
  let todayFormatted := toLocaleDateString h today in
  let availableDates := availableDatesLoop h today 1 30 [] in
  json (CurrentDate (isoDate today) todayFormatted
          ("Oggi è " ++ todayFormatted
           ++ ". Gli appuntamenti possono essere fissati da domani in poi (esclusa la domenica).")
          (JS.slice_to 10 availableDates)
          ["08:00-12:00"; "09:00-12:00"; "13:00-17:00";
           "14:00-17:00"; "14:00-18:00"]).

(** ** Search *)

(** The [appointment] object and the message built from the row found. *)
Definition appointment_view (h : Host) (appointment : SearchRow) : AppointmentView :=
  let p := s_row appointment in
  let dataFormatted := toLocaleDateString h (ofColumn h (data_appuntamento p)) in
  {| v_id := p_id p;
     v_nome := nome_utente p;
     v_indirizzo := indirizzo p;
     v_comune := comune p;
     v_matricola := matricola p;
     v_data := dataFormatted;
     v_fascia_oraria := fascia_oraria p;
     v_tipo_attivita := s_tipo_attivita appointment;
     v_committente := s_committente appointment;
     v_operatore :=
       if JS.truthy (operatore_nome appointment)
       then interpolate (operatore_nome appointment) ++ " "
            ++ interpolate (operatore_cognome appointment)
       else "Da assegnare";
     v_telefono := telefono p |}.

Definition found_message (h : Host) (appointment : SearchRow) : string :=
  let p := s_row appointment in
  let dataFormatted := toLocaleDateString h (ofColumn h (data_appuntamento p)) in
  "Perfetto! Ho trovato il suo appuntamento per "
  ++ interpolate (s_tipo_attivita appointment) ++ " presso "
  ++ indirizzo p ++ ", " ++ comune p
  ++ ". L'appuntamento è programmato per " ++ dataFormatted
  ++ " nella fascia oraria " ++ fascia_oraria p ++ ".".

Definition not_found_message (m : string) : string :=
  "Non ho trovato alcun appuntamento per la matricola " ++ m
  ++ ". Può verificare che sia corretta? La matricola si trova nella comunicazione che le abbiamo inviato.".

(** [POST /api/search-appointment]. *)
Definition search_appointment (h : Host) (req_matricola : option string)
  : M Response :=
  try_catch
    (if negb (JS.truthy req_matricola) then
       ret (status_json 400 (Failure "Matricola richiesta"))
     else
       let m := JS.or_else req_matricola "" in
       result <- pool_query (SelectSearch m) (reading (select_search m)) ;;
       match result with
       | [] => ret (json (NotFound (not_found_message m)))
       | appointment :: _ =>
           ret (json (Found (appointment_view h appointment)
                            (found_message h appointment)))
       end)
    (fun e => ret (status_json 500
       (FailureDetails "Errore interno del sistema. Riprovi tra poco." e))).

(** ** Confirm and reschedule, with operator notification *)

(** The text sent to the operator on a confirmation. *)
Definition confirm_sms (h : Host) (appointment : TargetRow) : string :=
  let p := t_row appointment in
  let dataFormatted := toLocaleDateString h (ofColumn h (data_appuntamento p)) in
  "✅ APPUNTAMENTO CONFERMATO" ++ nl
  ++ "Cliente: " ++ nome_utente p ++ nl
  ++ "Indirizzo: " ++ indirizzo p ++ ", " ++ comune p ++ nl
  ++ "Matricola: " ++ matricola p ++ nl
  ++ "Data: " ++ dataFormatted ++ " ore " ++ fascia_oraria p ++ nl
  ++ "Il cliente ha confermato telefonicamente.".

(** The text sent to the operator on a reschedule. *)
Definition reschedule_sms (h : Host) (appointment : TargetRow)
    (new_date : Z) (new_time_slot : string) (reason : option string) : string :=
  let p := t_row appointment in
  let newDateFormatted := toLocaleDateString h (parse new_date) in
  "🔄 APPUNTAMENTO MODIFICATO" ++ nl
  ++ "Cliente: " ++ nome_utente p ++ nl
  ++ "Indirizzo: " ++ indirizzo p ++ ", " ++ comune p ++ nl
  ++ "Matricola: " ++ matricola p ++ nl
  ++ "NUOVO APPUNTAMENTO: " ++ newDateFormatted ++ " ore " ++ new_time_slot ++ nl
  ++ "Motivo: " ++ JS.or_else reason "Richiesta cliente".

(** The message of a confirmation, from the date and slot of one row. *)
Definition confirm_message (h : Host) (d : Z) (f : string) : string :=
  "Perfetto! Il suo appuntamento per "
  ++ toLocaleDateString h (ofColumn h d)
  ++ " nella fascia oraria " ++ f
  ++ " è stato confermato. Il nostro operatore è stato notificato e si presenterà nell'orario concordato. Ha altre domande?".

(** The message of a reschedule, from the new date and slot. *)
Definition reschedule_message (h : Host) (new_date : Z) (new_time_slot : string)
  : string :=
  "Perfetto! Ho spostato il suo appuntamento al "
  ++ toLocaleDateString h (parse new_date)
  ++ " nella fascia oraria " ++ new_time_slot
  ++ ". Riceverà una nuova comunicazione con i dettagli aggiornati e il nostro operatore è stato notificato della modifica. Desidera altro?".

(** [if (appointment.operatore_telefono) { await sendSMSToOperator(...) }]. *)
Definition notify_operator (gateway : Gateway) (appointment : TargetRow)
    (message : string) : M unit :=
  if JS.truthy (operatore_telefono appointment) then
    _ <- sendSMSToOperator gateway
           (JS.or_else (operatore_telefono appointment) "") message ;;
    ret tt
  else ret tt.

(** [POST /api/confirm-appointment]. *)
Definition confirm_appointment (h : Host) (gateway : Gateway)
    (appointment_id : option Z) (req_matricola : option string) : M Response :=
  try_catch
    (appointmentResult <-
       pool_query (SelectTarget appointment_id req_matricola)
                  (reading (select_target appointment_id req_matricola)) ;;
     match appointmentResult with
     | [] => ret not_found_404
     | appointment :: _ =>
         ignore_errors (pool_query AlterAddStato alter_table) ;;;
         result <-
           pool_query (UpdateConfirm appointment_id req_matricola)
                      (update_confirm (now h) appointment_id req_matricola) ;;
         match result with
         | [] => ret not_found_404
         | _ :: _ =>
             notify_operator gateway appointment (confirm_sms h appointment) ;;;
             ignore_errors
               (pool_query
                  (InsertCallLog req_matricola "conferma"
                     "Appuntamento confermato telefonicamente - SMS inviato")
                  (insert_call_log (now h) req_matricola "conferma"
                     "Appuntamento confermato telefonicamente - SMS inviato")) ;;;
             let p := t_row appointment in
             ret (json (Success
                    (confirm_message h (data_appuntamento p) (fascia_oraria p))))
         end
     end)
    (fun _ => ret (status_json 500
       (Failure "Errore durante la conferma. Riprovi tra poco."))).

(** [POST /api/reschedule-appointment]. *)
Definition reschedule_appointment (h : Host) (gateway : Gateway)
    (appointment_id : option Z) (req_matricola : option string)
    (new_date : Z) (new_time_slot : string) (reason : option string)
  : M Response :=
  try_catch
    (appointmentResult <-
       pool_query (SelectTarget appointment_id req_matricola)
                  (reading (select_target appointment_id req_matricola)) ;;
     match appointmentResult with
     | [] => ret not_found_404
     | appointment :: _ =>
         availability <-
           pool_query (SelectAvailability new_date new_time_slot)
                      (reading (select_availability new_date new_time_slot)) ;;
         if availability >=? 5 then ret (slot_full new_date)
         else
           let note := JS.or_else reason "Riprogrammato su richiesta cliente" in
           ignore_errors (pool_query AlterAddNote alter_table) ;;;
           result <-
             pool_query
               (UpdateReschedule new_date new_time_slot note
                                 appointment_id req_matricola)
               (update_reschedule (now h) new_date new_time_slot note
                                  appointment_id req_matricola) ;;
           match result with
           | [] => ret not_found_404
           | _ :: _ =>
               notify_operator gateway appointment
                 (reschedule_sms h appointment new_date new_time_slot reason) ;;;
               let det := "Spostato a " ++ isoString new_date ++ " "
                          ++ new_time_slot ++ " - SMS inviato" in
               ignore_errors
                 (pool_query
                    (InsertCallLog req_matricola "riprogrammazione" det)
                    (insert_call_log (now h) req_matricola
                                     "riprogrammazione" det)) ;;;
               ret (json (Success
                      (reschedule_message h new_date new_time_slot)))
           end
     end)
    (fun _ => ret (status_json 500
       (Failure "Errore durante la riprogrammazione. Riprovi tra poco."))).

(** ** Test appointments *)

(** [POST /api/test-appointment]: one more appointment for 25 July 2024,
    09:00-12:00. *)
Definition test_appointment : M Response :=
  try_catch
    (result <-
       pool_query InsertTestAppointment
         (insert_appointment "Mario Rossi Test" "Via Roma 123" "Milano"
            "TEST123456" "PDR123456" 19929 "09:00-12:00" "3331234567") ;;
     match result with
     | row :: _ => ret (json (Created "Appuntamento di test creato" row))
     | [] => ret (json (Success "Appuntamento di test creato"))
     end)
    (fun e => ret (status_json 500 (Failure e))).

(** ** The handlers of complete_solution_code.js

    The same endpoints without the operator lookup: the capacity check
    comes first, the response is built from the first row the update
    returns, and no text message is sent. *)

Module CompleteSolution.

Definition confirm_message (h : Host) (d : Z) (f : string) : string :=
  "Perfetto! Il suo appuntamento per "
  ++ toLocaleDateString h (ofColumn h d)
  ++ " nella fascia oraria " ++ f
  ++ " è stato confermato. Riceverà un SMS di conferma. I nostri tecnici si presenteranno nell'orario concordato. Ha altre domande?".

Definition reschedule_message (h : Host) (new_date : Z) (new_time_slot : string)
  : string :=
  "Perfetto! Ho spostato il suo appuntamento al "
  ++ toLocaleDateString h (parse new_date)
  ++ " nella fascia oraria " ++ new_time_slot
  ++ ". Riceverà una nuova comunicazione con i dettagli aggiornati. L'appuntamento precedente è stato cancellato. Desidera altro?".

(** [POST /api/confirm-appointment]. *)
Definition confirm_appointment (h : Host)
    (appointment_id : option Z) (req_matricola : option string) : M Response :=
  try_catch
    (ignore_errors (pool_query AlterAddStato alter_table) ;;;
     result <-
       pool_query (UpdateConfirm appointment_id req_matricola)
                  (update_confirm (now h) appointment_id req_matricola) ;;
     match result with
     | [] => ret not_found_404
     | appointment :: _ =>
         ignore_errors
           (pool_query
              (InsertCallLog req_matricola "conferma"
                 "Appuntamento confermato telefonicamente")
              (insert_call_log (now h) req_matricola "conferma"
                 "Appuntamento confermato telefonicamente")) ;;;
         ret (json (Success
                (confirm_message h (data_appuntamento appointment)
                                 (fascia_oraria appointment))))
     end)
    (fun _ => ret (status_json 500
       (Failure "Errore durante la conferma. Riprovi tra poco."))).

(** [POST /api/reschedule-appointment]. *)
Definition reschedule_appointment (h : Host)
    (appointment_id : option Z) (req_matricola : option string)
    (new_date : Z) (new_time_slot : string) (reason : option string)
  : M Response :=
  try_catch
    (availability <-
       pool_query (SelectAvailability new_date new_time_slot)
                  (reading (select_availability new_date new_time_slot)) ;;
     if availability >=? 5 then ret (slot_full new_date)
     else
       let note := JS.or_else reason "Riprogrammato su richiesta cliente" in
       ignore_errors (pool_query AlterAddNote alter_table) ;;;
       result <-
         pool_query
           (UpdateReschedule new_date new_time_slot note
                             appointment_id req_matricola)
           (update_reschedule (now h) new_date new_time_slot note
                              appointment_id req_matricola) ;;
       match result with
       | [] => ret not_found_404
       | _ :: _ =>
           let det := "Spostato a " ++ isoString new_date ++ " "
                      ++ new_time_slot in
           ignore_errors
             (pool_query
                (InsertCallLog req_matricola "riprogrammazione" det)
                (insert_call_log (now h) req_matricola
                                 "riprogrammazione" det)) ;;;
           ret (json (Success (reschedule_message h new_date new_time_slot)))
       end)
    (fun _ => ret (status_json 500
       (Failure "Errore durante la riprogrammazione. Riprovi tra poco."))).

End CompleteSolution.

(** ** The other endpoints *)

(** [await pool.query(q)] for a statement that only reads and that [Stmt]
    has no name for: the store throws or answers, and the fault schedule
    advances. *)
Definition pool_query_reading {A} (f : Store -> A) : M A :=
  fun w =>
    match faults w with
    | true :: fs =>
        (Throw "store unavailable",
         {| store := store w; faults := fs;
            issued := issued w; outbox := outbox w |})
    | fs =>
        (Ret (f (store w)),
         {| store := store w; faults := tl fs;
            issued := issued w; outbox := outbox w |})
    end.

(** A row of the appointment list: [p.*, c.tipo_attivita, c.committente]. *)
Record ListedRow := {
  a_row : Pianificazione;
  a_commessa : option Commessa
}.

(** [SELECT p.*, c.tipo_attivita, c.committente FROM pianificazioni p
    LEFT JOIN commesse c ON p.commessa_id = c.id
    ORDER BY p.data_appuntamento DESC LIMIT 50]. *)
Definition select_appointments (s : Store) : list ListedRow :=
  firstn 50
    (SQL.order_by_desc (fun r => data_appuntamento (a_row r))
       (map (fun x => {| a_row := fst x; a_commessa := snd x |})
            (SQL.left_join SQL.on_commessa (pianificazioni s) (commesse s)))).

(** The bodies of [GET /api/appointments]. *)
Inductive ListBody :=
| Listed (appointments : list ListedRow) (count : Z)
    (* [{ success: true, appointments, count }] *)
| ListFailure (error : string)
    (* [{ success: false, error }] *).

Record ListResponse := { list_status : Z; list_body : ListBody }.

(** [GET /api/appointments]. *)
Definition list_appointments : M ListResponse :=
  try_catch
    (result <- pool_query_reading select_appointments ;;
     ret {| list_status := 200;
            list_body := Listed result (Z.of_nat (List.length result)) |})
    (fun e => ret {| list_status := 500; list_body := ListFailure e |}).

(** What a property read off an object literal can be: one of its own
    texts, or a member inherited from [Object.prototype] (a function, or
    the prototype itself under [__proto__]), which is truthy and which
    [JSON.stringify] does not render as a text. *)
Inductive PropertyValue :=
| Text (s : string)
| Inherited (name : string).

(** The property names every object literal inherits. *)
Definition object_prototype : list string :=
  [ "constructor"; "__defineGetter__"; "__defineSetter__"; "hasOwnProperty";
    "__lookupGetter__"; "__lookupSetter__"; "isPrototypeOf";
    "propertyIsEnumerable"; "toString"; "valueOf"; "__proto__";
    "toLocaleString" ].

(** [o[key]] on an object literal with the given own texts: [None] is
    [undefined]. *)
Fixpoint own_property (o : list (string * string)) (key : string) : option string :=
  match o with
  | [] => None
  | (k, v) :: o' => if (k =? key)%string then Some v else own_property o' key
  end.

Definition get_property (o : list (string * string)) (key : string)
  : option PropertyValue :=
  match own_property o key with
  | Some v => Some (Text v)
  | None =>
      if existsb (String.eqb key) object_prototype then Some (Inherited key)
      else None
  end.

(** [v || d] on a property value. *)
Definition property_or (v : option PropertyValue) (d : string) : PropertyValue :=
  match v with
  | Some (Text s) => if (s =? "")%string then Text d else Text s
  | Some (Inherited name) => Inherited name
  | None => Text d
  end.

(** The [info] object of [/api/get-info]. *)
Definition info : list (string * string) :=
  [ ("durata_intervento",
     "L'intervento di sostituzione contatore richiede normalmente 30-45 minuti con una breve interruzione del servizio di circa 15-20 minuti.");
    ("cosa_portare",
     "È necessario che lei sia presente durante l'intervento e che l'area del contatore sia facilmente accessibile. I tecnici potrebbero richiederle un documento d'identità.");
    ("costi",
     "L'intervento di sostituzione programmato è completamente gratuito e obbligatorio secondo normativa.");
    ("sicurezza",
     "I nostri tecnici seguono tutti i protocolli di sicurezza e sono dotati di dispositivi di protezione. L'intervento è completamente sicuro.");
    ("dopo_intervento",
     "Dopo la sostituzione riceverà un certificato di conformità e il servizio sarà immediatamente ripristinato.");
    ("contatti",
     "Per emergenze può contattare il nostro numero verde 800-123456 attivo 24 ore su 24.") ].

(** The body of [/api/get-info]: [{ success: true, info, message }]. *)
Record InfoResponse := {
  info_status : Z;
  info_success : bool;
  info_info : PropertyValue;
  info_message : PropertyValue
}.

(** [POST /api/get-info]: a missing topic is the key [undefined]. *)
Definition get_info (topic : option string) : InfoResponse :=
  let key := match topic with Some t => t | None => "undefined" end in
  {| info_status := 200;
     info_success := true;
     info_info :=
       property_or (get_property info key)
         "Informazione non disponibile. Può contattare il nostro ufficio per maggiori dettagli.";
     info_message :=
       property_or (get_property info key)
         "Per questa informazione specifica la invito a contattare direttamente il nostro ufficio tecnico." |}.

(** ** The reschedule handler before the capacity check

    The revision of part_000 that introduces the operator notification:
    the lookup, the update and the side channels of the handler above,
    and no count of the requested slot. *)

Module Uncapped.

Definition reschedule_message (h : Host) (new_date : Z) (new_time_slot : string)
  : string :=
  "Perfetto! Ho spostato il suo appuntamento al "
  ++ toLocaleDateString h (parse new_date)
  ++ " nella fascia oraria " ++ new_time_slot
  ++ ". Al nostro operatore è stato notificato della modifica. Desidera altro?".

(** [POST /api/reschedule-appointment]. *)
Definition reschedule_appointment (h : Host) (gateway : Gateway)
    (appointment_id : option Z) (req_matricola : option string)
    (new_date : Z) (new_time_slot : string) (reason : option string)
  : M Response :=
  try_catch
    (appointmentResult <-
       pool_query (SelectTarget appointment_id req_matricola)
                  (reading (select_target appointment_id req_matricola)) ;;
     match appointmentResult with
     | [] => ret not_found_404
     | appointment :: _ =>
         let note := JS.or_else reason "Riprogrammato su richiesta cliente" in
         ignore_errors (pool_query AlterAddNote alter_table) ;;;
         result <-
           pool_query
             (UpdateReschedule new_date new_time_slot note
                               appointment_id req_matricola)
             (update_reschedule (now h) new_date new_time_slot note
                                appointment_id req_matricola) ;;
         match result with
         | [] => ret not_found_404
         | _ :: _ =>
             notify_operator gateway appointment
               (reschedule_sms h appointment new_date new_time_slot reason) ;;;
             let det := "Spostato a " ++ isoString new_date ++ " "
                        ++ new_time_slot ++ " - SMS inviato" in
             ignore_errors
               (pool_query
                  (InsertCallLog req_matricola "riprogrammazione" det)
                  (insert_call_log (now h) req_matricola
                                   "riprogrammazione" det)) ;;;
             ret (json (Success
                    (reschedule_message h new_date new_time_slot)))
         end
     end)
    (fun _ => ret (status_json 500
       (Failure "Errore durante la riprogrammazione. Riprovi tra poco."))).

End Uncapped.

(** ** Vocabulary of the statements *)

(** A world whose store raises no fault. *)
Definition healthy (w : World) : Prop := faults w = [].

(** The world in which a request starts. *)
Definition request_world (s : Store) (fs : list bool) : World :=
  {| store := s; faults := fs; issued := []; outbox := [] |}.

(** Equality of two texts up to the case folding of the database. *)
Definition same_text (s : Store) (a b : string) : Prop :=
  lower s a = lower s b.

(** The match of the operator lookup: first and last name, each up to
    the case folding of the database. *)
Definition same_name (s : Store) (nome cognome : string) (o : Operatore) : bool :=
  (lower s (o_nome o) =? lower s nome)%string
  && (lower s (o_cognome o) =? lower s cognome)%string.

(** The stored rows a confirm or reschedule request matches. *)
Definition matched (id : option Z) (m : option string) (s : Store)
  : list Pianificazione :=
  filter (SQL.targets id m) (pianificazioni s).

(** The appointments after an update of the matched rows. *)
Definition updated (id : option Z) (m : option string)
    (set : Pianificazione -> Pianificazione) (rows : list Pianificazione)
  : list Pianificazione :=
  map (fun p => if SQL.targets id m p then set p else p) rows.

(** At most 5 appointments that are not cancelled on every date and slot. *)
Definition slot_bound (s : Store) : Prop :=
  forall d f, select_availability d f s <= 5.

(** The first row of a descending order carries the greatest key. *)
Definition head_is_max {A} (key : A -> Z) (l : list A) : Prop :=
  match l with
  | [] => True
  | r :: t => forall x, In x t -> key x <= key r
  end.

(** The number of appointments of a table that hold a date and slot and
    are not cancelled. *)
Definition occupancy (d : Z) (f : string) (rows : list Pianificazione) : Z :=
  Z.of_nat (List.length (filter (occupies d f) rows)).

(** A Hoare triple on the database of a request: from a database
    satisfying [P], the computation either returns [a] in a database
    satisfying [Q a] or throws in a database satisfying [E]. *)
Definition hoare {A} (P : Store -> Prop) (m : M A)
    (Q : A -> Store -> Prop) (E : Store -> Prop) : Prop :=
  forall w, P (store w) ->
    match m w with
    | (Ret a, w') => Q a (store w')
    | (Throw _, w') => E (store w')
    end.

(** The appointments after a reschedule request: as they were, or, the
    slot having room, with every matched row moved onto it. *)
Definition rescheduled (h : Host) (id : option Z) (m : option string)
    (d : Z) (f : string) (reason : option string)
    (rows rows' : list Pianificazione) : Prop :=
  rows' = rows \/
  (occupancy d f rows < 5 /\
   rows' = updated id m
             (set_riprogrammato (now h) d f
                (JS.or_else reason "Riprogrammato su richiesta cliente"))
             rows).

(** The appointments after a confirm request. *)
Definition confirmed (h : Host) (id : option Z) (m : option string)
    (rows rows' : list Pianificazione) : Prop :=
  rows' = rows \/ rows' = updated id m (set_confermato (now h)) rows.

(** Descending order of the key, with ties. *)
Definition descending {A} (key : A -> Z) : A -> A -> Prop :=
  fun a b => key b <= key a.

(** The integers [i], [i + 1], ..., [n] of them. *)
Fixpoint zseq (i : Z) (n : nat) : list Z :=
  match n with
  | O => []
  | S n' => i :: zseq (i + 1) n'
  end.

(** The days [i] to [i + n - 1] after a day of the week [r] that are not
    a Sunday. *)
Definition offered (r i : Z) (n : nat) : list Z :=
  filter (fun k => negb ((r + k) mod 7 =? 0)) (zseq i n).

(** Where an appointment is: its id, its date and its slot. *)
Definition placement (p : Pianificazione) : Z * Z * string :=
  (p_id p, data_appuntamento p, fascia_oraria p).




(** The Italian name of a day of the week, 0 being Sunday. *)
Definition giorno (n : Z) : string :=
  match n with
  | 0 => "domenica"
  | 1 => "lunedì"
  | 2 => "martedì"
  | 3 => "mercoledì"
  | 4 => "giovedì"
  | 5 => "venerdì"
  | _ => "sabato"
  end.

(** Two stores hold the same rows in every table. *)
Definition same_rows (s s' : Store) : Prop :=
  pianificazioni s' = pianificazioni s /\ commesse s' = commesse s /\
  operatori s' = operatori s /\ call_logs s' = call_logs s.

(** A calendar date as the host prints it for it-IT. *)
Definition italian_date (h : Host) (d : Z) : string :=
  let '(y, m, dd) := civil d in
  it_IT h dd m y.

(** The row that [/api/test-appointment] inserts under a given id. *)
Definition test_row (i : Z) : Pianificazione :=
  {| p_id := i; nome_utente := "Mario Rossi Test"; indirizzo := "Via Roma 123";
     comune := "Milano"; matricola := "TEST123456"; pdr_pdp := "PDR123456";
     data_appuntamento := 19929; fascia_oraria := "09:00-12:00";
     telefono := "3331234567"; commessa_id := None; operatore_id := None;
     stato := "programmato"; note_riprogrammazione := None;
     data_conferma := None; data_modifica := None |}.

(** ** Sample data *)

Module Sample.

(** The row that [/api/test-appointment] inserts, with a given identity,
    date, slot, status and operator. *)
Definition row (i : Z) (m : string) (d : Z) (f st : string) (op : option Z)
  : Pianificazione :=
  {| p_id := i; nome_utente := "Mario Rossi Test"; indirizzo := "Via Roma 123";
     comune := "Milano"; matricola := m; pdr_pdp := "PDR123456";
     data_appuntamento := d; fascia_oraria := f; telefono := "3331234567";
     commessa_id := None; operatore_id := op; stato := st;
     note_riprogrammazione := None; data_conferma := None;
     data_modifica := None |}.

Definition luca : Operatore :=
  {| o_id := 7; o_nome := "Luca"; o_cognome := "De Santis";
     o_telefono := Some "393331112222" |}.

Definition db (rows : list Pianificazione) : Store :=
  {| pianificazioni := rows; commesse := []; operatori := [luca];
     call_logs := []; lower := SQL.LOWER_utf8 |}.

(** 2024-07-25, a Thursday, and the days around it. *)
Definition d_2024_07_25 : Z := 19929.
Definition d_2024_08_01 : Z := 19936.

(** An appointment already confirmed. *)
Definition confirmed_row : Pianificazione :=
  row 2 "TEST123456" d_2024_08_01 "09:00-12:00" "confermato" None.

(** Two appointments of the same meter and one cancelled appointment. *)
Definition seeded : Store :=
  db [ row 1 "TEST123456" d_2024_07_25 "09:00-12:00" "programmato" (Some 7);
       confirmed_row;
       row 3 "OTHER" d_2024_07_25 "08:00-12:00" "cancellato" None ].

(** 23 July 2024, 22:30 UTC. *)
Definition late_evening_utc : Z := 1721773800000.

Definition utc_host : Host :=
  {| now := late_evening_utc; tzOffset := 0; it_IT := d_M_y |}.
(** The same instant on a host in Central European Summer Time: 00:30 of
    24 July, local time. *)
Definition rome_host : Host :=
  {| now := late_evening_utc; tzOffset := 120; it_IT := d_M_y |}.
(** The same instant on a host in Eastern Daylight Time: 18:30 of
    23 July in New York. *)
Definition new_york_host : Host :=
  {| now := late_evening_utc; tzOffset := -240; it_IT := d_M_y |}.

(** The same clock in Rome, on a runtime whose locale data print
    [dd/MM/y]. *)
Definition rome_host_dd_MM : Host :=
  {| now := late_evening_utc; tzOffset := 120; it_IT := dd_MM_y |}.

(** A second operator, with an accented capital, and the staff table. *)
Definition elia : Operatore :=
  {| o_id := 8; o_nome := "Èlia"; o_cognome := "Rossi";
     o_telefono := Some "39000" |}.

Definition staff : Store :=
  {| pianificazioni := []; commesse := []; operatori := [luca; elia];
     call_logs := []; lower := SQL.LOWER_utf8 |}.

(** A gateway that is down, and one that answers. *)
Definition gateway_down : Gateway := fun _ => None.
Definition gateway_up : Gateway := fun _ => Some "{}".

(** Five appointments on 1 August 2024, 09:00-12:00, and one of another
    meter on 25 July. *)
Definition full_slot : Store :=
  db [ row 1 "M1" d_2024_08_01 "09:00-12:00" "programmato" None;
       row 2 "M2" d_2024_08_01 "09:00-12:00" "confermato" None;
       row 3 "M3" d_2024_08_01 "09:00-12:00" "programmato" None;
       row 4 "M4" d_2024_08_01 "09:00-12:00" "riprogrammato" None;
       row 5 "M5" d_2024_08_01 "09:00-12:00" "programmato" None;
       row 6 "TEST123456" d_2024_07_25 "09:00-12:00" "programmato" (Some 7) ].

(** Four appointments on 1 August 2024, 09:00-12:00, and two appointments
    of one meter on 25 July. *)
Definition crowded : Store :=
  db [ row 1 "M1" d_2024_08_01 "09:00-12:00" "programmato" None;
       row 2 "M2" d_2024_08_01 "09:00-12:00" "confermato" None;
       row 3 "M3" d_2024_08_01 "09:00-12:00" "programmato" None;
       row 4 "M4" d_2024_08_01 "09:00-12:00" "riprogrammato" None;
       row 5 "TEST123456" d_2024_07_25 "09:00-12:00" "programmato" (Some 7);
       row 6 "TEST123456" d_2024_07_25 "09:00-12:00" "programmato" None ].

(** Five appointments on 1 August 2024, 09:00-12:00, and a cancelled
    one on the same date and slot. *)
Definition full_with_cancelled : Store :=
  db [ row 1 "M1" d_2024_08_01 "09:00-12:00" "programmato" None;
       row 2 "M2" d_2024_08_01 "09:00-12:00" "confermato" None;
       row 3 "M3" d_2024_08_01 "09:00-12:00" "programmato" None;
       row 4 "M4" d_2024_08_01 "09:00-12:00" "riprogrammato" None;
       row 5 "M5" d_2024_08_01 "09:00-12:00" "programmato" None;
       row 6 "M6" d_2024_08_01 "09:00-12:00" "cancellato" None ].

(** The empty database, and the world after six test appointments. *)
Definition empty : Store :=
  {| pianificazioni := []; commesse := []; operatori := []; call_logs := [];
     lower := SQL.LOWER_utf8 |}.

Definition after_six_test_appointments : World :=
  let again := fun w => snd (test_appointment w) in
  again (again (again (again (again (again (request_world empty [])))))).

End Sample.

(** * Properties *)

(** ** Running a request *)

Lemma pool_query_ok {A} (q : Stmt) (run : Store -> A * Store) (w : World) :
  hd false (faults w) = false ->
  pool_query q run w =
  (Ret (fst (run (store w))),
   {| store := snd (run (store w)); faults := tl (faults w);
      issued := q :: issued w; outbox := outbox w |}).
Proof.
  unfold pool_query. intros Hf.
  destruct (faults w) as [|[|] fs]; simpl in *; try discriminate;
    destruct (run (store w)); reflexivity.
Qed.

(** A swallowed schema statement leaves the rows of the database as they
    were, whether it throws or not. *)
Lemma ignore_errors_alter (q : Stmt) (w : World) :
  ignore_errors (pool_query q alter_table) w =
  (Ret tt, {| store := store w; faults := tl (faults w);
              issued := q :: issued w; outbox := outbox w |}).
Proof.
  unfold ignore_errors, try_catch, bind, pool_query, alter_table, ret.
  destruct (faults w) as [|[|] fs]; reflexivity.
Qed.

(** ** Operator phone resolution *)

Lemma firstn_1_filter_find {A} (f : A -> bool) (l : list A) :
  firstn 1 (filter f l) = match find f l with Some a => [a] | None => [] end.
Proof.
  induction l as [|a l IH]; simpl; [reflexivity|].
  destruct (f a); simpl; [reflexivity|exact IH].
Qed.

Lemma find_first {A} (f : A -> bool) (before after : list A) (a : A) :
  (forall x, In x before -> f x = false) -> f a = true ->
  find f (before ++ a :: after) = Some a.
Proof.
  induction before as [|b before IH]; intros Hbefore Ha; simpl.
  - rewrite Ha. reflexivity.
  - rewrite (Hbefore b (or_introl eq_refl)).
    apply IH; [|exact Ha]. intros x Hx. apply Hbefore. right. exact Hx.
Qed.

Lemma find_nowhere {A} (f : A -> bool) (l : list A) :
  (forall x, In x l -> f x = false) -> find f l = None.
Proof.
  induction l as [|a l IH]; intros Hl; simpl; [reflexivity|].
  rewrite (Hl a (or_introl eq_refl)). apply IH.
  intros x Hx. apply Hl. right. exact Hx.
Qed.

Lemma same_name_spec (s : Store) (nome cognome : string) (o : Operatore) :
  same_name s nome cognome o = true <->
  same_text s (o_nome o) nome /\ same_text s (o_cognome o) cognome.
Proof.
  unfold same_name, same_text. rewrite andb_true_iff, !String.eqb_eq. tauto.
Qed.

Lemma same_name_false (s : Store) (nome cognome : string) (o : Operatore) :
  ~ (same_text s (o_nome o) nome /\ same_text s (o_cognome o) cognome) ->
  same_name s nome cognome o = false.
Proof.
  intros Hno. destruct (same_name s nome cognome o) eqn:Hsame; [|reflexivity].
  apply same_name_spec in Hsame. destruct (Hno Hsame).
Qed.

(** The lookup that a display name of two tokens or more leads to. *)
Lemma getOperatorPhone_lookup (name nome : string) (rest : list string)
    (w : World) :
  name <> "" ->
  JS.split " " (JS.trim name) = nome :: rest -> rest <> [] ->
  getOperatorPhone (Some name) w
  = try_catch
      (result <- pool_query (SelectOperatore nome (JS.join " " rest))
                   (reading (select_operatore nome (JS.join " " rest))) ;;
       match result with
       | operator :: _ => ret (o_telefono operator)
       | [] => ret None
       end)
      (fun _ => ret None) w.
Proof.
  intros Hne Hparts Hrest.
  assert (Hname : (name =? "")%string = false)
    by (apply String.eqb_neq; exact Hne).
  unfold getOperatorPhone, try_catch, JS.truthy, JS.or_else.
  rewrite Hname. cbn [negb]. rewrite Hparts.
  destruct rest as [|r rest']; [destruct (Hrest eq_refl)|].
  reflexivity.
Qed.

(** What the lookup does: one statement, no write, and, when the store
    answers, the phone of the first operator that matches. *)
Lemma getOperatorPhone_runs (name nome : string) (rest : list string)
    (w : World) :
  name <> "" ->
  JS.split " " (JS.trim name) = nome :: rest -> rest <> [] ->
  issued (snd (getOperatorPhone (Some name) w))
    = SelectOperatore nome (JS.join " " rest) :: issued w /\
  store (snd (getOperatorPhone (Some name) w)) = store w /\
  (hd false (faults w) = true ->
   fst (getOperatorPhone (Some name) w) = Ret None) /\
  (hd false (faults w) = false ->
   fst (getOperatorPhone (Some name) w)
   = Ret (match find (same_name (store w) nome (JS.join " " rest))
                     (operatori (store w)) with
          | Some o => o_telefono o
          | None => None
          end)).
Proof.
  intros Hne Hparts Hrest.
  rewrite (getOperatorPhone_lookup name nome rest w Hne Hparts Hrest).
  unfold try_catch, bind, pool_query, reading, ret.
  destruct (faults w) as [|[|] fs]; cbn [fst snd issued store hd].
  - split; [destruct (select_operatore _ _ _); reflexivity|].
    split; [destruct (select_operatore _ _ _); reflexivity|].
    split; [discriminate|]. intros _.
    unfold select_operatore. rewrite firstn_1_filter_find.
    unfold same_name.
    destruct (find _ (operatori (store w))); reflexivity.
  - repeat split; try reflexivity. discriminate.
  - split; [destruct (select_operatore _ _ _); reflexivity|].
    split; [destruct (select_operatore _ _ _); reflexivity|].
    split; [discriminate|]. intros _.
    unfold select_operatore. rewrite firstn_1_filter_find.
    unfold same_name.
    destruct (find _ (operatori (store w))); reflexivity.
Qed.

(** C9. A display name with fewer than two space-separated tokens after
    trimming resolves to [null] and issues no statement at all: the world
    is returned as it was.  With two tokens or more exactly one statement
    is issued, the operator lookup whose first name is the first token and
    whose last name is the remaining tokens joined by spaces; it changes
    no table.  When the store answers, the phone returned is that of the
    first operator, in the order of the table, whose first name equals
    the first token and whose last name equals the joined rest, each up
    to the case folding [LOWER] of the database, and it is [null] when
    there is no such operator; so two display names whose tokens differ
    only in what [LOWER] folds resolve to the same phone. *)
Theorem getOperatorPhone_tokens (name : string) (w : World) :
  let nameParts := JS.split " " (JS.trim name) in
  ((List.length nameParts < 2)%nat ->
   getOperatorPhone (Some name) w = (Ret None, w)) /\
  ((2 <= List.length nameParts)%nat ->
   exists nome rest,
     nameParts = nome :: rest /\
     issued (snd (getOperatorPhone (Some name) w))
       = SelectOperatore nome (JS.join " " rest) :: issued w /\
     store (snd (getOperatorPhone (Some name) w)) = store w /\
     (hd false (faults w) = false ->
      let matches o :=
        lower (store w) (o_nome o) = lower (store w) nome /\
        lower (store w) (o_cognome o) = lower (store w) (JS.join " " rest) in
      (forall before o after,
         operatori (store w) = (before ++ o :: after)%list ->
         matches o -> (forall o', In o' before -> ~ matches o') ->
         fst (getOperatorPhone (Some name) w) = Ret (o_telefono o)) /\
      ((forall o, In o (operatori (store w)) -> ~ matches o) ->
       fst (getOperatorPhone (Some name) w) = Ret None) /\
      (forall name' nome' rest',
         JS.split " " (JS.trim name') = nome' :: rest' ->
         (2 <= List.length (nome' :: rest'))%nat ->
         lower (store w) nome' = lower (store w) nome ->
         lower (store w) (JS.join " " rest')
         = lower (store w) (JS.join " " rest) ->
         fst (getOperatorPhone (Some name') w)
         = fst (getOperatorPhone (Some name) w)))).
Proof.
  intros nameParts. split.
  - intros Hlen. unfold getOperatorPhone, try_catch. simpl.
    destruct (name =? "")%string; simpl; [reflexivity|].
    fold nameParts. apply Nat.ltb_lt in Hlen. rewrite Hlen. reflexivity.
  - intros Hlen.
    destruct nameParts as [|nome rest] eqn:Hparts; [simpl in Hlen; lia|].
    exists nome, rest. split; [reflexivity|].
    assert (Hne : name <> "").
    { intros ->. subst nameParts. simpl in Hparts. inversion Hparts; subst.
      simpl in Hlen. lia. }
    assert (Hrest : rest <> []).
    { intros ->. simpl in Hlen. lia. }
    destruct (getOperatorPhone_runs name nome rest w Hne Hparts Hrest)
      as (Hissued & Hstore & _ & Hphone).
    split; [exact Hissued|]. split; [exact Hstore|].
    intros Hok matches. specialize (Hphone Hok).
    assert (Hmatches : forall o,
              matches o <->
              same_name (store w) nome (JS.join " " rest) o = true).
    { intros o. symmetry. apply same_name_spec. }
    split; [|split].
    + intros before o after Htable Ho Hbefore.
      rewrite Hphone, Htable, find_first; [reflexivity| |].
      * intros x Hx. apply same_name_false. apply (Hbefore x Hx).
      * apply Hmatches. exact Ho.
    + intros Hnone. rewrite Hphone, find_nowhere; [reflexivity|].
      intros x Hx. apply same_name_false. apply (Hnone x Hx).
    + intros name' nome' rest' Hparts' Hlen' Hnome Hcognome.
      assert (Hne' : name' <> "").
      { intros ->. simpl in Hparts'. inversion Hparts'; subst.
        simpl in Hlen'. lia. }
      assert (Hrest' : rest' <> []).
      { intros ->. simpl in Hlen'. lia. }
      destruct (getOperatorPhone_runs name' nome' rest' w Hne' Hparts' Hrest')
        as (_ & _ & _ & Hphone').
      rewrite Hphone, (Hphone' Hok). unfold same_name.
      rewrite Hnome, Hcognome. reflexivity.
Qed.

Lemma getOperatorPhone_tokens_witness :
  getOperatorPhone (Some " Luca ") (request_world Sample.staff [])
  = (Ret None, request_world Sample.staff []) /\
  issued (snd (getOperatorPhone (Some "  luca DE SANTIS ")
                 (request_world Sample.staff [])))
  = [SelectOperatore "luca" "DE SANTIS"] /\
  fst (getOperatorPhone (Some "  luca DE SANTIS ")
         (request_world Sample.staff []))
  = Ret (Some "393331112222") /\
  fst (getOperatorPhone (Some "èlia ROSSI") (request_world Sample.staff []))
  = Ret (Some "39000") /\
  fst (getOperatorPhone (Some "Luca Rossi") (request_world Sample.staff []))
  = Ret None.
Proof.
  split; [|split; [|split; [|split]]].
  - apply (proj1 (getOperatorPhone_tokens " Luca "
                    (request_world Sample.staff []))).
    simpl. lia.
  - destruct (proj2 (getOperatorPhone_tokens "  luca DE SANTIS "
                       (request_world Sample.staff [])))
      as (nome & rest & Hparts & Hissued & _).
    + simpl. lia.
    + vm_compute in Hparts. inversion Hparts; subst. exact Hissued.
  - destruct (proj2 (getOperatorPhone_tokens "  luca DE SANTIS "
                       (request_world Sample.staff [])))
      as (nome & rest & Hparts & _ & _ & Hphone).
    + simpl. lia.
    + vm_compute in Hparts. inversion Hparts; subst.
      destruct (Hphone eq_refl) as (Hfirst & _).
      apply (Hfirst [] Sample.luca [Sample.elia] eq_refl).
      * split; vm_compute; reflexivity.
      * intros o' [].
  - destruct (proj2 (getOperatorPhone_tokens "èlia ROSSI"
                       (request_world Sample.staff [])))
      as (nome & rest & Hparts & _ & _ & Hphone).
    + simpl. lia.
    + vm_compute in Hparts. inversion Hparts; subst.
      destruct (Hphone eq_refl) as (Hfirst & _).
      apply (Hfirst [Sample.luca] Sample.elia [] eq_refl).
      * split; vm_compute; reflexivity.
      * intros o' [<- | []] [Hnome _]. vm_compute in Hnome. discriminate Hnome.
  - destruct (proj2 (getOperatorPhone_tokens "Luca Rossi"
                       (request_world Sample.staff [])))
      as (nome & rest & Hparts & _ & _ & Hphone).
    + simpl. lia.
    + vm_compute in Hparts. inversion Hparts; subst.
      destruct (Hphone eq_refl) as (_ & Hnone & _).
      apply Hnone.
      intros o [<- | [<- | []]] [Hnome Hcognome];
        [vm_compute in Hcognome; discriminate Hcognome
        |vm_compute in Hnome; discriminate Hnome].
Defined.

(** ** Date validation *)

Lemma isoDate_addDays (t k : Z) : isoDate (addDays t k) = isoDate t + k.
Proof.
  unfold isoDate, addDays, msPerDay. rewrite Z.div_add by lia. reflexivity.
Qed.

Lemma localDate_addDays (h : Host) (t k : Z) :
  localDate h (addDays t k) = localDate h t + k.
Proof.
  unfold localDate, addDays, msPerDay.
  replace (t + k * 86400000 + tzOffset h * msPerMinute)
    with (t + tzOffset h * msPerMinute + k * 86400000) by lia.
  rewrite Z.div_add by lia. reflexivity.
Qed.

(** On a host in UTC the local date is the ISO date. *)
Lemma localDate_utc (h : Host) (t : Z) :
  tzOffset h = 0 -> localDate h t = isoDate t.
Proof.
  unfold localDate, isoDate. intros ->. rewrite Z.add_0_r. reflexivity.
Qed.

(** Midnight UTC of a date falls on that date in every zone from UTC
    eastwards, up to a day ahead. *)
Lemma localDate_parse (h : Host) (d : Z) :
  0 <= tzOffset h < 1440 -> localDate h (parse d) = d.
Proof.
  unfold localDate, parse, msPerDay, msPerMinute. intros Htz.
  rewrite Z.add_comm, Z.div_add by lia.
  rewrite Z.div_small by lia. reflexivity.
Qed.

(** What the loop pushes: the accumulator first, then the days [i] to
    [i + n - 1] after today that are not a Sunday in local time. *)
Lemma availableDatesLoop_In (h : Host) (today : Z) (n : nat) :
  forall (i : Z) (acc : list SuggestedDate) (s : SuggestedDate),
    In s (availableDatesLoop h today i n acc) ->
    In s acc \/
    exists k, i <= k < i + Z.of_nat n /\
              getDay h (addDays today k) <> 0 /\
              s = suggested h (addDays today k).
Proof.
  induction n as [|n IH]; intros i acc s Hin; simpl in Hin.
  - left. exact Hin.
  - apply IH in Hin. destruct Hin as [Hin | (k & Hk & Hd & Hs)].
    + destruct (getDay h (addDays today i) =? 0) eqn:Hday; simpl in Hin.
      * left. exact Hin.
      * apply in_app_or in Hin. destruct Hin as [Hin | [Hin | []]].
        -- left. exact Hin.
        -- right. exists i. split; [lia|]. split; [|symmetry; exact Hin].
           apply Z.eqb_neq. exact Hday.
    + right. exists k. split; [lia|]. split; assumption.
Qed.

Lemma firstn_incl {A} (k : nat) (l : list A) (a : A) :
  In a (firstn k l) -> In a l.
Proof.
  revert l. induction k as [|k IH]; intros [|b l] Hin; simpl in *; try tauto.
  destruct Hin as [-> | Hin]; [left; reflexivity | right; apply IH; exact Hin].
Qed.

Lemma getSuggestedDates_In (h : Host) (s : SuggestedDate) :
  In s (getSuggestedDates h) ->
  exists k, 1 <= k <= 7 /\
            getDay h (addDays (now h) k) <> 0 /\
            s = suggested h (addDays (now h) k).
Proof.
  unfold getSuggestedDates, JS.slice_to. intros Hin.
  apply firstn_incl in Hin. apply availableDatesLoop_In in Hin.
  destruct Hin as [[] | (k & Hk & Hd & Hs)].
  exists k. split; [simpl in Hk; lia|]. split; assumption.
Qed.

Lemma getSuggestedDates_length (h : Host) :
  (List.length (getSuggestedDates h) <= 5)%nat.
Proof.
  unfold getSuggestedDates, JS.slice_to. apply firstn_le_length.
Qed.

(** The part of the past-date answer that holds on every host: a date up
    to today (the ISO date of the clock) is refused with [past_date] and
    at most 5 suggestions, each with an ISO date after today and a local
    day of the week other than Sunday. *)
Lemma validate_past_date (h : Host) (d : Z) (time_slot : option string) :
  d <= isoDate (now h) ->
  exists message,
    validate_appointment_date h (Some d) time_slot
      = json (Invalid "past_date" message (getSuggestedDates h)) /\
    (List.length (getSuggestedDates h) <= 5)%nat /\
    forall s, In s (getSuggestedDates h) ->
              isoDate (now h) < sd_date s /\
              exists t, isoDate t = sd_date s /\ getDay h t <> 0.
Proof.
  intros Hd. unfold validate_appointment_date.
  assert (Hpast : (parse d <=? now h) = true).
  { apply Z.leb_le. unfold parse, isoDate, msPerDay in *.
    pose proof (Z.mul_div_le (now h) 86400000 ltac:(lia)). nia. }
  rewrite Hpast. eexists. split; [reflexivity|].
  split; [apply getSuggestedDates_length|].
  intros s Hin. apply getSuggestedDates_In in Hin.
  destruct Hin as (k & Hk & Hday & ->). simpl.
  rewrite isoDate_addDays. split; [lia|].
  exists (addDays (now h) k). split; [apply isoDate_addDays | exact Hday].
Qed.

(** On a host whose local time is UTC the suggestions are as the
    specification says: after today and not a Sunday. *)
Lemma validate_past_date_utc (h : Host) (d : Z) (time_slot : option string) :
  tzOffset h = 0 ->
  d <= isoDate (now h) ->
  exists message suggested_dates,
    validate_appointment_date h (Some d) time_slot
      = json (Invalid "past_date" message suggested_dates) /\
    (List.length suggested_dates <= 5)%nat /\
    forall s, In s suggested_dates ->
              isoDate (now h) < sd_date s /\ weekday (sd_date s) <> 0.
Proof.
  intros Htz Hd.
  destruct (validate_past_date h d time_slot Hd) as (message & Hv & Hlen & Hs).
  exists message, (getSuggestedDates h). split; [exact Hv|]. split; [exact Hlen|].
  intros s Hin. destruct (Hs s Hin) as (Hafter & t & Ht & Hday).
  split; [exact Hafter|].
  unfold getDay in Hday. rewrite localDate_utc in Hday by exact Htz.
  rewrite Ht in Hday. exact Hday.
Qed.

(** C4. On a host east of UTC, in the first hours after local midnight,
    the suggestions of a refused past date contain a Sunday: at 00:30 of
    Wednesday 24 July 2024 in Rome (22:30 UTC of the 23rd) the request for
    20 July is refused with [past_date] and 5 suggestions, the fourth of
    which carries the date 2024-07-28, a Sunday, under the local label of
    Monday the 29th; and the first carries 2024-07-24, the very day the
    message calls today. *)
Theorem validate_past_date_suggests_sunday :
  isoDate (now Sample.rome_host) = 19927 /\
  toLocaleDateString Sample.rome_host (now Sample.rome_host) = "24/7/2024" /\
  exists message s1 s2 s3 s4 s5,
    validate_appointment_date Sample.rome_host (Some 19925) None
      = json (Invalid "past_date" message [s1; s2; s3; s4; s5]) /\
    isoString (sd_date s4) = "2024-07-28" /\
    weekday (sd_date s4) = 0 /\
    formatted s4 = "29/7/2024" /\
    day_name s4 = "lunedì" /\
    isoString (sd_date s1) = "2024-07-24".
Proof.
  split; [reflexivity|]. split; [vm_compute; reflexivity|].
  do 6 eexists. split; [vm_compute; reflexivity|].
  repeat split; vm_compute; reflexivity.
Qed.

(** At that moment the handler also accepts an appointment for 24 July,
    the day its own messages call today. *)
Lemma validate_accepts_local_today :
  toLocaleDateString Sample.rome_host (now Sample.rome_host) = "24/7/2024" /\
  isoString 19928 = "2024-07-24" /\
  exists message slots,
    validate_appointment_date Sample.rome_host (Some 19928) None
      = json (Valid message slots).
Proof.
  split; [vm_compute; reflexivity|]. split; [vm_compute; reflexivity|].
  do 2 eexists. vm_compute. reflexivity.
Qed.

(** A date after today that is not a Sunday is accepted, with the slot
    catalog, on every host from UTC eastwards. *)
Lemma validate_future_weekday (h : Host) (d : Z) (time_slot : option string) :
  0 <= tzOffset h < 1440 ->
  isoDate (now h) < d ->
  weekday d <> 0 ->
  exists message,
    validate_appointment_date h (Some d) time_slot
      = json (Valid message
                ["08:00-12:00"; "09:00-12:00"; "13:00-17:00";
                 "14:00-17:00"; "14:00-18:00"]).
Proof.
  intros Htz Hd Hw. unfold validate_appointment_date.
  assert (Hfuture : (parse d <=? now h) = false).
  { apply Z.leb_gt. unfold parse, isoDate, msPerDay in *.
    pose proof (Z.mod_pos_bound (now h) 86400000 ltac:(lia)).
    pose proof (Z.div_mod (now h) 86400000 ltac:(lia)). nia. }
  rewrite Hfuture. unfold getDay. rewrite localDate_parse by exact Htz.
  apply Z.eqb_neq in Hw. rewrite Hw. eexists. reflexivity.
Qed.

(** C5. On a host west of UTC a working day is refused as a Sunday: at
    18:30 of 23 July 2024 in New York (22:30 UTC) the request for Monday
    29 July 2024, six days ahead, is answered [sunday], because midnight
    UTC of the 29th still is Sunday evening in local time. *)
Theorem validate_monday_refused_as_sunday :
  isoDate (now Sample.new_york_host) < 19933 /\
  isoString 19933 = "2024-07-29" /\
  weekday 19933 = 1 /\
  exists message suggested_dates,
    validate_appointment_date Sample.new_york_host (Some 19933) None
      = json (Invalid "sunday" message suggested_dates).
Proof.
  split; [vm_compute; reflexivity|].
  split; [vm_compute; reflexivity|].
  split; [reflexivity|].
  do 2 eexists. vm_compute. reflexivity.
Qed.

(** ** Search *)

Lemma left_join_In {A B} (on : A -> B -> bool) (l : list A) (t : list B)
    (a : A) (ob : option B) :
  In (a, ob) (SQL.left_join on l t) -> In a l.
Proof.
  unfold SQL.left_join. intros Hin. apply in_flat_map in Hin.
  destruct Hin as (a' & Ha' & Hin).
  destruct (filter (on a') t) as [|b bs].
  - destruct Hin as [Heq | []]. inversion Heq; subst. exact Ha'.
  - apply in_map_iff in Hin. destruct Hin as (b' & Heq & _).
    inversion Heq; subst. exact Ha'.
Qed.

(** A left join keeps every row of its left side. *)
Lemma left_join_total {A B} (on : A -> B -> bool) (l : list A) (t : list B)
    (a : A) :
  In a l -> exists ob, In (a, ob) (SQL.left_join on l t).
Proof.
  intros Ha. unfold SQL.left_join.
  destruct (filter (on a) t) as [|b bs] eqn:Hf.
  - exists None. apply in_flat_map. exists a. split; [exact Ha|].
    rewrite Hf. left. reflexivity.
  - exists (Some b). apply in_flat_map. exists a. split; [exact Ha|].
    rewrite Hf. left. reflexivity.
Qed.

Lemma search_rows_In (m : string) (s : Store) (r : SearchRow) :
  In r (search_rows m s) ->
  In (s_row r) (pianificazioni s) /\ matricola (s_row r) = m.
Proof.
  unfold search_rows. intros Hin. apply filter_In in Hin.
  destruct Hin as [Hin Hm]. apply String.eqb_eq in Hm. split; [|exact Hm].
  apply in_map_iff in Hin. destruct Hin as ([[p oc] oo] & <- & Hin). simpl.
  apply left_join_In in Hin. apply left_join_In in Hin. exact Hin.
Qed.

Lemma search_rows_total (m : string) (s : Store) (p : Pianificazione) :
  In p (pianificazioni s) -> matricola p = m ->
  exists r, In r (search_rows m s) /\ s_row r = p.
Proof.
  intros Hp Hm.
  destruct (left_join_total SQL.on_commessa _ (commesse s) p Hp) as (oc & Hc).
  destruct (left_join_total (fun x o => SQL.on_operatore (fst x) o) _
              (operatori s) (p, oc) Hc) as (oo & Ho).
  exists {| s_row := p; s_commessa := oc; s_operatore := oo |}.
  split; [|reflexivity].
  unfold search_rows. apply filter_In. split.
  - apply in_map_iff. exists (p, oc, oo). split; [reflexivity|exact Ho].
  - simpl. apply String.eqb_eq. exact Hm.
Qed.

Lemma insert_desc_In {A} (key : A -> Z) (a x : A) (l : list A) :
  In x (SQL.insert_desc key a l) <-> x = a \/ In x l.
Proof.
  induction l as [|b l IH]; simpl.
  - intuition.
  - destruct (key b <? key a); simpl; rewrite ?IH; intuition.
Qed.

Lemma order_by_desc_In {A} (key : A -> Z) (x : A) (l : list A) :
  In x (SQL.order_by_desc key l) <-> In x l.
Proof.
  induction l as [|a l IH]; simpl; [tauto|].
  rewrite insert_desc_In, IH. intuition.
Qed.

Lemma insert_desc_head {A} (key : A -> Z) (a : A) (l : list A) :
  head_is_max key l -> head_is_max key (SQL.insert_desc key a l).
Proof.
  destruct l as [|b l]; simpl; [intros _ x []|].
  intros Hmax. destruct (key b <? key a) eqn:Hlt; simpl.
  - apply Z.ltb_lt in Hlt. intros x [<- | Hx]; [lia|].
    specialize (Hmax x Hx). lia.
  - apply Z.ltb_ge in Hlt. intros x Hx. apply insert_desc_In in Hx.
    destruct Hx as [-> | Hx]; [exact Hlt | exact (Hmax x Hx)].
Qed.

Lemma order_by_desc_head {A} (key : A -> Z) (l : list A) :
  head_is_max key (SQL.order_by_desc key l).
Proof.
  induction l as [|a l IH]; simpl; [exact I|].
  apply insert_desc_head. exact IH.
Qed.

Lemma left_join_on {A B} (on : A -> B -> bool) (l : list A) (t : list B)
    (a : A) (b : B) :
  In (a, Some b) (SQL.left_join on l t) -> on a b = true.
Proof.
  unfold SQL.left_join. intros Hin. apply in_flat_map in Hin.
  destruct Hin as (a' & _ & Hin).
  destruct (filter (on a') t) as [|b0 bs] eqn:Hf.
  - destruct Hin as [Heq | []]. discriminate.
  - apply in_map_iff in Hin. destruct Hin as (b' & Heq & Hb').
    inversion Heq; subst.
    assert (Hb : In b (filter (on a) t)) by (rewrite Hf; exact Hb').
    apply filter_In in Hb. exact (proj2 Hb).
Qed.

Lemma left_join_right {A B} (on : A -> B -> bool) (l : list A) (t : list B)
    (a : A) (b : B) :
  In (a, Some b) (SQL.left_join on l t) -> In b t.
Proof.
  unfold SQL.left_join. intros Hin. apply in_flat_map in Hin.
  destruct Hin as (a' & _ & Hin).
  destruct (filter (on a') t) as [|b0 bs] eqn:Hf.
  - destruct Hin as [Heq | []]. discriminate.
  - apply in_map_iff in Hin. destruct Hin as (b' & Heq & Hb').
    inversion Heq; subst.
    assert (Hb : In b (filter (on a) t)) by (rewrite Hf; exact Hb').
    apply filter_In in Hb. exact (proj1 Hb).
Qed.

Lemma localDate_ofColumn (h : Host) (d : Z) : localDate h (ofColumn h d) = d.
Proof.
  unfold localDate, ofColumn, msPerDay.
  replace (d * 86400000 - tzOffset h * msPerMinute + tzOffset h * msPerMinute)
    with (d * 86400000) by lia.
  apply Z.div_mul. lia.
Qed.

Lemma toLocaleDateString_italian (h : Host) (t : Z) :
  toLocaleDateString h t = italian_date h (localDate h t).
Proof. reflexivity. Qed.

Lemma left_join_none {A B} (on : A -> B -> bool) (l : list A) (t : list B)
    (a : A) :
  In (a, None) (SQL.left_join on l t) -> forall b, In b t -> on a b = false.
Proof.
  unfold SQL.left_join. intros Hin b Hb. apply in_flat_map in Hin.
  destruct Hin as (a' & _ & Hin).
  destruct (filter (on a') t) as [|b0 bs] eqn:Hf.
  - destruct Hin as [Heq | []]. inversion Heq; subst.
    destruct (on a b) eqn:Hon; [|reflexivity].
    assert (Hfb : In b (filter (on a) t)) by (apply filter_In; split; assumption).
    rewrite Hf in Hfb. destruct Hfb.
  - apply in_map_iff in Hin. destruct Hin as (b' & Heq & _). discriminate.
Qed.

(** The date of a [DATE] column is printed as that calendar date on
    every host. *)
Lemma toLocaleDateString_ofColumn (h : Host) (d : Z) :
  toLocaleDateString h (ofColumn h d) = italian_date h d.
Proof. rewrite toLocaleDateString_italian, localDate_ofColumn. reflexivity. Qed.

(** The work order and the operator joined to a row of the search are
    those the row names, and there is none when the row names none that
    is stored. *)
Lemma search_rows_joins (m : string) (s : Store) (r : SearchRow) :
  In r (search_rows m s) ->
  match s_commessa r with
  | Some c => In c (commesse s) /\ commessa_id (s_row r) = Some (c_id c)
  | None => forall c, In c (commesse s) -> commessa_id (s_row r) <> Some (c_id c)
  end /\
  match s_operatore r with
  | Some o => In o (operatori s) /\ operatore_id (s_row r) = Some (o_id o)
  | None => forall o, In o (operatori s) -> operatore_id (s_row r) <> Some (o_id o)
  end.
Proof.
  unfold search_rows. intros Hin. apply filter_In in Hin.
  destruct Hin as [Hin _]. apply in_map_iff in Hin.
  destruct Hin as ([[p oc] oo] & <- & Hin). cbn [s_row s_commessa s_operatore fst snd].
  split.
  - pose proof (left_join_In _ _ _ _ _ Hin) as Hpc. cbn [fst] in Hpc.
    destruct oc as [c|].
    + split; [exact (left_join_right _ _ _ _ _ Hpc)|].
      apply left_join_on in Hpc. unfold SQL.on_commessa in Hpc.
      destruct (commessa_id p) as [k|]; [|discriminate].
      apply Z.eqb_eq in Hpc. subst k. reflexivity.
    + intros c Hc Heq.
      pose proof (left_join_none _ _ _ _ Hpc c Hc) as Hoff.
      unfold SQL.on_commessa in Hoff. rewrite Heq, Z.eqb_refl in Hoff.
      discriminate.
  - destruct oo as [o|].
    + split; [exact (left_join_right _ _ _ _ _ Hin)|].
      apply left_join_on in Hin. cbn [fst] in Hin.
      unfold SQL.on_operatore in Hin.
      destruct (operatore_id p) as [k|]; [|discriminate].
      apply Z.eqb_eq in Hin. subst k. reflexivity.
    + intros o Ho Heq.
      pose proof (left_join_none _ _ _ _ Hin o Ho) as Hoff. cbn [fst] in Hoff.
      unfold SQL.on_operatore in Hoff. rewrite Heq, Z.eqb_refl in Hoff.
      discriminate.
Qed.

(** Search never writes: whatever the request and the state of the
    store, the database after the request is the database before it. *)
Lemma search_appointment_reads (h : Host) (req : option string) (w : World) :
  store (snd (search_appointment h req w)) = store w.
Proof.
  unfold search_appointment, try_catch, bind, pool_query, reading, ret.
  destruct (JS.truthy req); simpl; [|reflexivity].
  destruct (faults w) as [|[|] fs]; simpl; try reflexivity;
    destruct (select_search _ _); reflexivity.
Qed.

(** C3. For a non-empty matricola that some stored appointment carries,
    search answers with exactly one appointment, and it is a stored row
    of that matricola whose scheduled date is the greatest among all
    stored rows of that matricola: the answer carries the id, name,
    address, town, matricola, slot and phone of that row, its date as the
    host prints it, the activity and the customer of the work order the
    row names and the name of the operator it names ("Da assegnare" when
    it names none that is stored), and the message is built from the same
    row; and the database is left as it was. *)
Theorem search_returns_latest (h : Host) (m : string) (w : World) :
  m <> "" ->
  hd false (faults w) = false ->
  (exists p, In p (pianificazioni (store w)) /\ matricola p = m) ->
  exists p commessa operatore view message,
    fst (search_appointment h (Some m) w)
      = Ret (json (Found view message)) /\
    In p (pianificazioni (store w)) /\
    matricola p = m /\
    (forall q, In q (pianificazioni (store w)) -> matricola q = m ->
               data_appuntamento q <= data_appuntamento p) /\
    v_id view = p_id p /\
    v_nome view = nome_utente p /\
    v_indirizzo view = indirizzo p /\
    v_comune view = comune p /\
    v_matricola view = m /\
    v_data view = italian_date h (data_appuntamento p) /\
    v_fascia_oraria view = fascia_oraria p /\
    v_telefono view = telefono p /\
    match commessa with
    | Some c => In c (commesse (store w)) /\ commessa_id p = Some (c_id c)
    | None => forall c, In c (commesse (store w)) ->
                        commessa_id p <> Some (c_id c)
    end /\
    v_tipo_attivita view = option_map tipo_attivita commessa /\
    v_committente view = option_map committente commessa /\
    match operatore with
    | Some o => In o (operatori (store w)) /\ operatore_id p = Some (o_id o)
    | None => forall o, In o (operatori (store w)) ->
                        operatore_id p <> Some (o_id o)
    end /\
    v_operatore view
    = match operatore with
      | Some o => if (o_nome o =? "")%string then "Da assegnare"
                  else o_nome o ++ " " ++ o_cognome o
      | None => "Da assegnare"
      end /\
    message
    = "Perfetto! Ho trovato il suo appuntamento per "
      ++ match commessa with Some c => tipo_attivita c | None => "null" end
      ++ " presso " ++ indirizzo p ++ ", " ++ comune p
      ++ ". L'appuntamento è programmato per "
      ++ italian_date h (data_appuntamento p)
      ++ " nella fascia oraria " ++ fascia_oraria p ++ "." /\
    store (snd (search_appointment h (Some m) w)) = store w.
Proof.
  intros Hne Hok (p0 & Hp0 & Hm0).
  assert (Hm : (m =? "")%string = false) by (apply String.eqb_neq; exact Hne).
  destruct (search_rows_total m (store w) p0 Hp0 Hm0) as (r0 & Hr0 & _).
  pose proof (order_by_desc_head (fun r => data_appuntamento (s_row r))
                (search_rows m (store w))) as Hmax.
  destruct (SQL.order_by_desc (fun r => data_appuntamento (s_row r))
              (search_rows m (store w))) as [|r rs] eqn:Hsorted.
  { apply (order_by_desc_In (fun r => data_appuntamento (s_row r))) in Hr0.
    rewrite Hsorted in Hr0. destruct Hr0. }
  assert (Hr : In r (search_rows m (store w))).
  { apply (order_by_desc_In (fun r => data_appuntamento (s_row r))).
    rewrite Hsorted. left. reflexivity. }
  destruct (search_rows_In m (store w) r Hr) as [Hstored Hmat].
  destruct (search_rows_joins m (store w) r Hr) as [Hcommessa Hoperatore].
  exists (s_row r), (s_commessa r), (s_operatore r),
         (appointment_view h r), (found_message h r).
  split.
  { unfold search_appointment, try_catch, bind. simpl. rewrite Hm. simpl.
    rewrite pool_query_ok by exact Hok. unfold reading, select_search. simpl.
    rewrite Hsorted. reflexivity. }
  split; [exact Hstored|]. split; [exact Hmat|].
  split.
  { intros q Hq Hqm.
    destruct (search_rows_total m (store w) q Hq Hqm) as (rq & Hrq & <-).
    apply (order_by_desc_In (fun r => data_appuntamento (s_row r))) in Hrq.
    rewrite Hsorted in Hrq. destruct Hrq as [<- | Hrq]; [lia|].
    exact (Hmax rq Hrq). }
  unfold appointment_view, found_message.
  cbn [v_id v_nome v_indirizzo v_comune v_matricola v_data v_fascia_oraria
       v_telefono v_tipo_attivita v_committente v_operatore].
  rewrite toLocaleDateString_ofColumn.
  repeat (split; [reflexivity|]).
  split; [exact Hmat|]. split; [reflexivity|].
  split; [reflexivity|]. split; [reflexivity|].
  split; [exact Hcommessa|]. split; [reflexivity|]. split; [reflexivity|].
  split; [exact Hoperatore|].
  split.
  { unfold operatore_nome, operatore_cognome, JS.truthy, interpolate.
    destruct (s_operatore r) as [o|]; [|reflexivity]. cbn [option_map].
    destruct (o_nome o =? "")%string; reflexivity. }
  split; [|apply search_appointment_reads].
  unfold s_tipo_attivita, interpolate.
  destruct (s_commessa r); reflexivity.
Qed.

Lemma search_returns_latest_witness :
  exists p commessa operatore view message,
    fst (search_appointment Sample.rome_host_dd_MM (Some "TEST123456")
           (request_world Sample.seeded []))
      = Ret (json (Found view message)) /\
    In p (pianificazioni Sample.seeded) /\
    matricola p = "TEST123456" /\
    (forall q, In q (pianificazioni Sample.seeded) ->
               matricola q = "TEST123456" ->
               data_appuntamento q <= data_appuntamento p) /\
    v_id view = p_id p /\
    v_nome view = nome_utente p /\
    v_indirizzo view = indirizzo p /\
    v_comune view = comune p /\
    v_matricola view = "TEST123456" /\
    v_data view
    = italian_date Sample.rome_host_dd_MM (data_appuntamento p) /\
    v_fascia_oraria view = fascia_oraria p /\
    v_telefono view = telefono p /\
    match commessa with
    | Some c => In c (commesse Sample.seeded) /\ commessa_id p = Some (c_id c)
    | None => forall c, In c (commesse Sample.seeded) ->
                        commessa_id p <> Some (c_id c)
    end /\
    v_tipo_attivita view = option_map tipo_attivita commessa /\
    v_committente view = option_map committente commessa /\
    match operatore with
    | Some o => In o (operatori Sample.seeded)
                /\ operatore_id p = Some (o_id o)
    | None => forall o, In o (operatori Sample.seeded) ->
                        operatore_id p <> Some (o_id o)
    end /\
    v_operatore view
    = match operatore with
      | Some o => if (o_nome o =? "")%string then "Da assegnare"
                  else o_nome o ++ " " ++ o_cognome o
      | None => "Da assegnare"
      end /\
    message
    = "Perfetto! Ho trovato il suo appuntamento per "
      ++ match commessa with Some c => tipo_attivita c | None => "null" end
      ++ " presso " ++ indirizzo p ++ ", " ++ comune p
      ++ ". L'appuntamento è programmato per "
      ++ italian_date Sample.rome_host_dd_MM (data_appuntamento p)
      ++ " nella fascia oraria " ++ fascia_oraria p ++ "." /\
    store (snd (search_appointment Sample.rome_host_dd_MM (Some "TEST123456")
                  (request_world Sample.seeded []))) = Sample.seeded.
Proof.
  apply (search_returns_latest Sample.rome_host_dd_MM "TEST123456"
           (request_world Sample.seeded [])).
  - discriminate.
  - reflexivity.
  - eexists. split; [left; reflexivity | reflexivity].
Defined.

(** ** Confirm and reschedule: what a request does *)

Lemma bind_run {A B} (m : M A) (k : A -> M B) (w w' : World) (a : A) :
  m w = (Ret a, w') -> bind m k w = k a w'.
Proof. unfold bind. intros ->. reflexivity. Qed.

Lemma try_catch_run {A} (m : M A) (k : string -> M A) (w w' : World) (a : A) :
  m w = (Ret a, w') -> try_catch m k w = (Ret a, w').
Proof. unfold try_catch. intros ->. reflexivity. Qed.

Lemma select_target_In (id : option Z) (m : option string) (s : Store)
    (r : TargetRow) :
  In r (select_target id m s) ->
  In (t_row r) (pianificazioni s) /\ SQL.targets id m (t_row r) = true.
Proof.
  unfold select_target. intros Hin. apply in_map_iff in Hin.
  destruct Hin as ([p oo] & <- & Hin). apply filter_In in Hin.
  destruct Hin as [Hin Ht]. simpl in *. split; [|exact Ht].
  apply left_join_In in Hin. exact Hin.
Qed.

(** The lookup resolves as soon as one stored row matches the request. *)
Lemma select_target_resolves (id : option Z) (m : option string) (s : Store)
    (p : Pianificazione) :
  In p (pianificazioni s) -> SQL.targets id m p = true ->
  exists appointment rest, select_target id m s = appointment :: rest.
Proof.
  intros Hp Ht.
  destruct (left_join_total SQL.on_operatore _ (operatori s) p Hp) as (oo & Ho).
  assert (Hin : In {| t_row := p; t_operatore := oo |} (select_target id m s)).
  { unfold select_target. apply in_map_iff. exists (p, oo).
    split; [reflexivity|]. apply filter_In. split; [exact Ho|exact Ht]. }
  destruct (select_target id m s) as [|a rest]; [destruct Hin|].
  exists a, rest. reflexivity.
Qed.

Lemma matched_resolves (id : option Z) (m : option string) (s : Store)
    (p : Pianificazione) :
  In p (pianificazioni s) -> SQL.targets id m p = true ->
  exists q rest, matched id m s = q :: rest.
Proof.
  intros Hp Ht.
  assert (Hin : In p (matched id m s)) by (apply filter_In; split; assumption).
  destruct (matched id m s) as [|q rest]; [destruct Hin|].
  exists q, rest. reflexivity.
Qed.

(** The notification never throws and touches neither the database nor
    the fault schedule nor the statement log. *)
Lemma notify_operator_run (gateway : Gateway) (appointment : TargetRow)
    (message : string) (w : World) :
  exists out,
    notify_operator gateway appointment message w
    = (Ret tt, {| store := store w; faults := faults w;
                  issued := issued w; outbox := out |}).
Proof.
  unfold notify_operator, bind, sendSMSToOperator, ret.
  destruct (JS.truthy (operatore_telefono appointment)).
  - eexists. reflexivity.
  - exists (outbox w). destruct w; reflexivity.
Qed.

(** The audit entry never throws and leaves the appointments alone. *)
Lemma call_log_run (ts : Z) (m : option string) (action det : string) (w : World) :
  exists s' iss,
    ignore_errors (pool_query (InsertCallLog m action det)
                              (insert_call_log ts m action det)) w
    = (Ret tt, {| store := s'; faults := tl (faults w);
                  issued := iss; outbox := outbox w |})
    /\ pianificazioni s' = pianificazioni (store w).
Proof.
  unfold ignore_errors, try_catch, bind, pool_query, insert_call_log, ret.
  destruct (faults w) as [|[|] fs]; simpl; do 2 eexists; split; reflexivity.
Qed.

Lemma hd_tl1 (l : list bool) : hd false (tl l) = nth 1 l false.
Proof. destruct l as [|a [|b l]]; reflexivity. Qed.

Lemma hd_tl2 (l : list bool) : hd false (tl (tl l)) = nth 2 l false.
Proof. destruct l as [|a [|b [|c l]]]; reflexivity. Qed.

Lemma hd_tl3 (l : list bool) : hd false (tl (tl (tl l))) = nth 3 l false.
Proof. destruct l as [|a [|b [|c [|d l]]]]; reflexivity. Qed.

Lemma hd_nth0 (l : list bool) : hd false l = nth 0 l false.
Proof. destruct l; reflexivity. Qed.

Lemma update_where_rows (cond : Pianificazione -> bool)
    (set : Pianificazione -> Pianificazione) (s : Store) :
  pianificazioni (snd (update_where cond set s))
  = map (fun p => if cond p then set p else p) (pianificazioni s).
Proof. reflexivity. Qed.

(** A confirmation whose two primary statements succeed: the response is
    built from the first row of the lookup, and every matched row is
    confirmed, whatever the side channels do. *)
Lemma confirm_appointment_run (h : Host) (gateway : Gateway)
    (id : option Z) (m : option string) (w : World) (p : Pianificazione) :
  nth 0 (faults w) false = false ->
  nth 2 (faults w) false = false ->
  In p (pianificazioni (store w)) -> SQL.targets id m p = true ->
  exists appointment rest w',
    select_target id m (store w) = appointment :: rest /\
    confirm_appointment h gateway id m w
      = (Ret (json (Success
                (confirm_message h (data_appuntamento (t_row appointment))
                                 (fascia_oraria (t_row appointment))))), w') /\
    pianificazioni (store w')
      = updated id m (set_confermato (now h)) (pianificazioni (store w)) /\
    faults w' = tl (tl (tl (tl (faults w)))).
Proof.
  intros H0 H2 Hp Ht.
  destruct (select_target_resolves id m (store w) p Hp Ht) as (a & rest & Hsel).
  destruct (matched_resolves id m (store w) p Hp Ht) as (q & qs & Hm).
  exists a, rest.
  pose (w1 := {| store := store w; faults := tl (faults w);
                 issued := SelectTarget id m :: issued w; outbox := outbox w |}).
  assert (E1 : pool_query (SelectTarget id m) (reading (select_target id m)) w
               = (Ret (a :: rest), w1)).
  { rewrite pool_query_ok by (rewrite hd_nth0; exact H0).
    unfold reading. simpl. rewrite Hsel. reflexivity. }
  pose (w2 := {| store := store w1; faults := tl (faults w1);
                 issued := AlterAddStato :: issued w1; outbox := outbox w1 |}).
  pose (w3 := {| store := snd (update_confirm (now h) id m (store w2));
                 faults := tl (faults w2);
                 issued := UpdateConfirm id m :: issued w2;
                 outbox := outbox w2 |}).
  assert (E3 : pool_query (UpdateConfirm id m) (update_confirm (now h) id m) w2
               = (Ret (set_confermato (now h) q
                         :: map (set_confermato (now h)) qs), w3)).
  { rewrite pool_query_ok by (simpl; rewrite hd_tl2; exact H2).
    unfold update_confirm, update_where. simpl.
    unfold matched in Hm. rewrite Hm. reflexivity. }
  destruct (notify_operator_run gateway a (confirm_sms h a) w3) as (out & E4).
  set (w4 := {| store := store w3; faults := faults w3;
                issued := issued w3; outbox := out |}) in E4.
  destruct (call_log_run (now h) m "conferma"
              "Appuntamento confermato telefonicamente - SMS inviato" w4)
    as (s' & iss & E5 & Hs').
  eexists. split; [exact Hsel|]. split; [|split].
  - unfold confirm_appointment. apply try_catch_run.
    rewrite (bind_run _ _ _ _ _ E1). cbv beta iota.
    rewrite (bind_run _ _ _ _ _ (ignore_errors_alter AlterAddStato w1)).
    fold w2. rewrite (bind_run _ _ _ _ _ E3). cbv beta iota.
    rewrite (bind_run _ _ _ _ _ E4).
    rewrite (bind_run _ _ _ _ _ E5). reflexivity.
  - simpl. rewrite Hs'. reflexivity.
  - reflexivity.
Qed.

Lemma availability_full (a : Z) : 5 <= a -> (a >=? 5) = true.
Proof. intros H. rewrite Z.geb_leb. apply Z.leb_le. exact H. Qed.

Lemma availability_free (a : Z) : a < 5 -> (a >=? 5) = false.
Proof. intros H. rewrite Z.geb_leb. apply Z.leb_gt. exact H. Qed.

(** A reschedule onto a full slot, once the target is resolved: refused,
    and nothing is written. *)
Lemma reschedule_appointment_full (h : Host) (gateway : Gateway)
    (id : option Z) (m : option string) (d : Z) (f : string)
    (reason : option string) (w : World) (p : Pianificazione) :
  nth 0 (faults w) false = false ->
  nth 1 (faults w) false = false ->
  In p (pianificazioni (store w)) -> SQL.targets id m p = true ->
  5 <= select_availability d f (store w) ->
  exists w',
    reschedule_appointment h gateway id m d f reason w
      = (Ret (slot_full d), w') /\
    store w' = store w.
Proof.
  intros H0 H1 Hp Ht Hfull.
  destruct (select_target_resolves id m (store w) p Hp Ht) as (a & rest & Hsel).
  pose (w1 := {| store := store w; faults := tl (faults w);
                 issued := SelectTarget id m :: issued w; outbox := outbox w |}).
  assert (E1 : pool_query (SelectTarget id m) (reading (select_target id m)) w
               = (Ret (a :: rest), w1)).
  { rewrite pool_query_ok by (rewrite hd_nth0; exact H0).
    unfold reading. simpl. rewrite Hsel. reflexivity. }
  pose (w2 := {| store := store w1; faults := tl (faults w1);
                 issued := SelectAvailability d f :: issued w1;
                 outbox := outbox w1 |}).
  assert (E2 : pool_query (SelectAvailability d f)
                 (reading (select_availability d f)) w1
               = (Ret (select_availability d f (store w)), w2)).
  { rewrite pool_query_ok by (simpl; rewrite hd_tl1; exact H1). reflexivity. }
  exists w2. split; [|reflexivity].
  unfold reschedule_appointment. apply try_catch_run.
  rewrite (bind_run _ _ _ _ _ E1). cbv beta iota.
  rewrite (bind_run _ _ _ _ _ E2). cbv beta.
  rewrite (availability_full _ Hfull). reflexivity.
Qed.

(** A reschedule onto a slot with room, whose three primary statements
    succeed: every matched row is moved, whatever the side channels do. *)
Lemma reschedule_appointment_run (h : Host) (gateway : Gateway)
    (id : option Z) (m : option string) (d : Z) (f : string)
    (reason : option string) (w : World) (p : Pianificazione) :
  nth 0 (faults w) false = false ->
  nth 1 (faults w) false = false ->
  nth 3 (faults w) false = false ->
  In p (pianificazioni (store w)) -> SQL.targets id m p = true ->
  select_availability d f (store w) < 5 ->
  exists w',
    reschedule_appointment h gateway id m d f reason w
      = (Ret (json (Success (reschedule_message h d f))), w') /\
    pianificazioni (store w')
      = updated id m
          (set_riprogrammato (now h) d f
             (JS.or_else reason "Riprogrammato su richiesta cliente"))
          (pianificazioni (store w)) /\
    faults w' = tl (tl (tl (tl (tl (faults w))))).
Proof.
  intros H0 H1 H3 Hp Ht Hfree.
  destruct (select_target_resolves id m (store w) p Hp Ht) as (a & rest & Hsel).
  destruct (matched_resolves id m (store w) p Hp Ht) as (q & qs & Hm).
  set (note := JS.or_else reason "Riprogrammato su richiesta cliente").
  pose (w1 := {| store := store w; faults := tl (faults w);
                 issued := SelectTarget id m :: issued w; outbox := outbox w |}).
  assert (E1 : pool_query (SelectTarget id m) (reading (select_target id m)) w
               = (Ret (a :: rest), w1)).
  { rewrite pool_query_ok by (rewrite hd_nth0; exact H0).
    unfold reading. simpl. rewrite Hsel. reflexivity. }
  pose (w2 := {| store := store w1; faults := tl (faults w1);
                 issued := SelectAvailability d f :: issued w1;
                 outbox := outbox w1 |}).
  assert (E2 : pool_query (SelectAvailability d f)
                 (reading (select_availability d f)) w1
               = (Ret (select_availability d f (store w)), w2)).
  { rewrite pool_query_ok by (simpl; rewrite hd_tl1; exact H1). reflexivity. }
  pose (w3 := {| store := store w2; faults := tl (faults w2);
                 issued := AlterAddNote :: issued w2; outbox := outbox w2 |}).
  pose (w4 := {| store := snd (update_reschedule (now h) d f note id m (store w3));
                 faults := tl (faults w3);
                 issued := UpdateReschedule d f note id m :: issued w3;
                 outbox := outbox w3 |}).
  assert (E4 : pool_query (UpdateReschedule d f note id m)
                 (update_reschedule (now h) d f note id m) w3
               = (Ret (set_riprogrammato (now h) d f note q
                         :: map (set_riprogrammato (now h) d f note) qs), w4)).
  { rewrite pool_query_ok by (simpl; rewrite hd_tl3; exact H3).
    unfold update_reschedule, update_where. simpl.
    unfold matched in Hm. rewrite Hm. reflexivity. }
  destruct (notify_operator_run gateway a (reschedule_sms h a d f reason) w4)
    as (out & E5).
  set (w5 := {| store := store w4; faults := faults w4;
                issued := issued w4; outbox := out |}) in E5.
  destruct (call_log_run (now h) m "riprogrammazione"
              ("Spostato a " ++ isoString d ++ " " ++ f ++ " - SMS inviato") w5)
    as (s' & iss & E6 & Hs').
  eexists. split; [|split].
  - unfold reschedule_appointment. apply try_catch_run.
    rewrite (bind_run _ _ _ _ _ E1). cbv beta iota.
    rewrite (bind_run _ _ _ _ _ E2). cbv beta.
    rewrite (availability_free _ Hfree). cbv zeta. fold note.
    rewrite (bind_run _ _ _ _ _ (ignore_errors_alter AlterAddNote w2)).
    fold w3. rewrite (bind_run _ _ _ _ _ E4). cbv beta iota.
    rewrite (bind_run _ _ _ _ _ E5).
    rewrite (bind_run _ _ _ _ _ E6). reflexivity.
  - simpl. rewrite Hs'. reflexivity.
  - reflexivity.
Qed.

(** The same for the handlers of complete_solution_code.js. *)
Lemma cs_confirm_appointment_run (h : Host)
    (id : option Z) (m : option string) (w : World) (p : Pianificazione) :
  nth 1 (faults w) false = false ->
  In p (pianificazioni (store w)) -> SQL.targets id m p = true ->
  exists q qs w',
    matched id m (store w) = q :: qs /\
    CompleteSolution.confirm_appointment h id m w
      = (Ret (json (Success
                (CompleteSolution.confirm_message h (data_appuntamento q)
                                                  (fascia_oraria q)))), w') /\
    pianificazioni (store w')
      = updated id m (set_confermato (now h)) (pianificazioni (store w)) /\
    faults w' = tl (tl (tl (faults w))).
Proof.
  intros H1 Hp Ht.
  destruct (matched_resolves id m (store w) p Hp Ht) as (q & qs & Hm).
  exists q, qs.
  pose (w1 := {| store := store w; faults := tl (faults w);
                 issued := AlterAddStato :: issued w; outbox := outbox w |}).
  pose (w2 := {| store := snd (update_confirm (now h) id m (store w1));
                 faults := tl (faults w1);
                 issued := UpdateConfirm id m :: issued w1;
                 outbox := outbox w1 |}).
  assert (E2 : pool_query (UpdateConfirm id m) (update_confirm (now h) id m) w1
               = (Ret (set_confermato (now h) q
                         :: map (set_confermato (now h)) qs), w2)).
  { rewrite pool_query_ok by (simpl; rewrite hd_tl1; exact H1).
    unfold update_confirm, update_where. simpl.
    unfold matched in Hm. rewrite Hm. reflexivity. }
  destruct (call_log_run (now h) m "conferma"
              "Appuntamento confermato telefonicamente" w2)
    as (s' & iss & E3 & Hs').
  eexists. split; [exact Hm|]. split; [|split].
  - unfold CompleteSolution.confirm_appointment. apply try_catch_run.
    rewrite (bind_run _ _ _ _ _ (ignore_errors_alter AlterAddStato w)).
    fold w1. rewrite (bind_run _ _ _ _ _ E2). cbv beta iota.
    rewrite (bind_run _ _ _ _ _ E3). reflexivity.
  - simpl. rewrite Hs'. reflexivity.
  - reflexivity.
Qed.

Lemma cs_reschedule_appointment_full (h : Host)
    (id : option Z) (m : option string) (d : Z) (f : string)
    (reason : option string) (w : World) :
  nth 0 (faults w) false = false ->
  5 <= select_availability d f (store w) ->
  exists w',
    CompleteSolution.reschedule_appointment h id m d f reason w
      = (Ret (slot_full d), w') /\
    store w' = store w.
Proof.
  intros H0 Hfull.
  pose (w1 := {| store := store w; faults := tl (faults w);
                 issued := SelectAvailability d f :: issued w;
                 outbox := outbox w |}).
  assert (E1 : pool_query (SelectAvailability d f)
                 (reading (select_availability d f)) w
               = (Ret (select_availability d f (store w)), w1)).
  { rewrite pool_query_ok by (rewrite hd_nth0; exact H0). reflexivity. }
  exists w1. split; [|reflexivity].
  unfold CompleteSolution.reschedule_appointment. apply try_catch_run.
  rewrite (bind_run _ _ _ _ _ E1). cbv beta.
  rewrite (availability_full _ Hfull). reflexivity.
Qed.

Lemma cs_reschedule_appointment_run (h : Host)
    (id : option Z) (m : option string) (d : Z) (f : string)
    (reason : option string) (w : World) (p : Pianificazione) :
  nth 0 (faults w) false = false ->
  nth 2 (faults w) false = false ->
  In p (pianificazioni (store w)) -> SQL.targets id m p = true ->
  select_availability d f (store w) < 5 ->
  exists w',
    CompleteSolution.reschedule_appointment h id m d f reason w
      = (Ret (json (Success (CompleteSolution.reschedule_message h d f))), w') /\
    pianificazioni (store w')
      = updated id m
          (set_riprogrammato (now h) d f
             (JS.or_else reason "Riprogrammato su richiesta cliente"))
          (pianificazioni (store w)) /\
    faults w' = tl (tl (tl (tl (faults w)))).
Proof.
  intros H0 H2 Hp Ht Hfree.
  destruct (matched_resolves id m (store w) p Hp Ht) as (q & qs & Hm).
  set (note := JS.or_else reason "Riprogrammato su richiesta cliente").
  pose (w1 := {| store := store w; faults := tl (faults w);
                 issued := SelectAvailability d f :: issued w;
                 outbox := outbox w |}).
  assert (E1 : pool_query (SelectAvailability d f)
                 (reading (select_availability d f)) w
               = (Ret (select_availability d f (store w)), w1)).
  { rewrite pool_query_ok by (rewrite hd_nth0; exact H0). reflexivity. }
  pose (w2 := {| store := store w1; faults := tl (faults w1);
                 issued := AlterAddNote :: issued w1; outbox := outbox w1 |}).
  pose (w3 := {| store := snd (update_reschedule (now h) d f note id m (store w2));
                 faults := tl (faults w2);
                 issued := UpdateReschedule d f note id m :: issued w2;
                 outbox := outbox w2 |}).
  assert (E3 : pool_query (UpdateReschedule d f note id m)
                 (update_reschedule (now h) d f note id m) w2
               = (Ret (set_riprogrammato (now h) d f note q
                         :: map (set_riprogrammato (now h) d f note) qs), w3)).
  { rewrite pool_query_ok by (simpl; rewrite hd_tl2; exact H2).
    unfold update_reschedule, update_where. simpl.
    unfold matched in Hm. rewrite Hm. reflexivity. }
  destruct (call_log_run (now h) m "riprogrammazione"
              ("Spostato a " ++ isoString d ++ " " ++ f) w3)
    as (s' & iss & E4 & Hs').
  eexists. split; [|split].
  - unfold CompleteSolution.reschedule_appointment. apply try_catch_run.
    rewrite (bind_run _ _ _ _ _ E1). cbv beta.
    rewrite (availability_free _ Hfree). cbv zeta. fold note.
    rewrite (bind_run _ _ _ _ _ (ignore_errors_alter AlterAddNote w1)).
    fold w2. rewrite (bind_run _ _ _ _ _ E3). cbv beta iota.
    rewrite (bind_run _ _ _ _ _ E4). reflexivity.
  - simpl. rewrite Hs'. reflexivity.
  - reflexivity.
Qed.

Lemma healthy_nth (w : World) (k : nat) : healthy w -> nth k (faults w) false = false.
Proof. unfold healthy. intros ->. destruct k; reflexivity. Qed.

(** The update keeps the identity of a row, hence whether it matches. *)
Lemma targets_set_confermato (id : option Z) (m : option string) (ts : Z)
    (p : Pianificazione) :
  SQL.targets id m (set_confermato ts p) = SQL.targets id m p.
Proof. reflexivity. Qed.

Lemma targets_set_riprogrammato (id : option Z) (m : option string) (ts d : Z)
    (f note : string) (p : Pianificazione) :
  SQL.targets id m (set_riprogrammato ts d f note p) = SQL.targets id m p.
Proof. reflexivity. Qed.

Lemma updated_In (id : option Z) (m : option string)
    (set : Pianificazione -> Pianificazione) (rows : list Pianificazione)
    (p : Pianificazione) :
  In p rows -> SQL.targets id m p = true -> In (set p) (updated id m set rows).
Proof.
  intros Hp Ht. unfold updated. apply in_map_iff. exists p.
  rewrite Ht. split; [reflexivity|exact Hp].
Qed.

(** A matching row of the updated table is the image of a matching row. *)
Lemma updated_inv (id : option Z) (m : option string)
    (set : Pianificazione -> Pianificazione) (rows : list Pianificazione)
    (p' : Pianificazione) :
  (forall q, SQL.targets id m (set q) = SQL.targets id m q) ->
  In p' (updated id m set rows) -> SQL.targets id m p' = true ->
  exists q, In q rows /\ SQL.targets id m q = true /\ p' = set q.
Proof.
  intros Hset Hin Ht. unfold updated in Hin. apply in_map_iff in Hin.
  destruct Hin as (q & Hq & Hin). exists q.
  destruct (SQL.targets id m q) eqn:Htq.
  - split; [exact Hin|]. split; [reflexivity|]. symmetry. exact Hq.
  - subst p'. rewrite Htq in Ht. discriminate.
Qed.

(** ** Capacity *)

(** C2. When exactly 5 appointments that are not cancelled hold date [d]
    and slot [f], a reschedule request onto [(d, f)] that resolves a target
    appointment is refused: the response is the [success: false] body with
    the two alternatives 08:00-12:00 and 13:00-17:00 on the same date [d],
    in this order, and the database, the target appointment with it, is
    left as it was.  Both handlers do so. *)
Theorem full_slot_is_refused (h : Host) (gateway : Gateway)
    (id : option Z) (m : option string) (d : Z) (f : string)
    (reason : option string) (w : World) (p : Pianificazione) :
  healthy w ->
  select_availability d f (store w) = 5 ->
  In p (pianificazioni (store w)) -> SQL.targets id m p = true ->
  forall answer,
    answer = reschedule_appointment h gateway id m d f reason w \/
    answer = CompleteSolution.reschedule_appointment h id m d f reason w ->
    (exists r error,
       fst answer = Ret r /\ success r = false /\
       r = json (CapacityExceeded error
                   [ {| alt_date := d; alt_time := "08:00-12:00" |};
                     {| alt_date := d; alt_time := "13:00-17:00" |} ])) /\
    store (snd answer) = store w /\
    In p (pianificazioni (store (snd answer))).
Proof.
  intros Hw Hfull Hp Ht answer [-> | ->].
  - destruct (reschedule_appointment_full h gateway id m d f reason w p
                (healthy_nth w 0 Hw) (healthy_nth w 1 Hw) Hp Ht
                ltac:(lia)) as (w' & -> & Hs).
    simpl. rewrite Hs. split; [|split; [reflexivity|exact Hp]].
    do 2 eexists. split; [reflexivity|]. split; reflexivity.
  - destruct (cs_reschedule_appointment_full h id m d f reason w
                (healthy_nth w 0 Hw) ltac:(lia)) as (w' & -> & Hs).
    simpl. rewrite Hs. split; [|split; [reflexivity|exact Hp]].
    do 2 eexists. split; [reflexivity|]. split; reflexivity.
Qed.

(** ** Reschedule *)

(** C6. A reschedule request that resolves a target appointment and passes
    the capacity check succeeds, and afterwards every stored appointment
    the request matches, the target among them, has the requested date,
    the requested slot, status [riprogrammato] and, as reschedule note,
    the supplied reason, or the text [Riprogrammato su richiesta cliente]
    when no reason (or an empty one) is supplied.  Both handlers do so. *)
Theorem reschedule_stores_request (h : Host) (gateway : Gateway)
    (id : option Z) (m : option string) (d : Z) (f : string)
    (reason : option string) (w : World) (p : Pianificazione) :
  healthy w ->
  In p (pianificazioni (store w)) -> SQL.targets id m p = true ->
  select_availability d f (store w) < 5 ->
  forall answer,
    answer = reschedule_appointment h gateway id m d f reason w \/
    answer = CompleteSolution.reschedule_appointment h id m d f reason w ->
    exists note,
      (reason = None -> note = "Riprogrammato su richiesta cliente") /\
      (reason = Some "" -> note = "Riprogrammato su richiesta cliente") /\
      (forall r, reason = Some r -> r <> "" -> note = r) /\
      (exists message, fst answer = Ret (json (Success message))) /\
      In (set_riprogrammato (now h) d f note p)
         (pianificazioni (store (snd answer))) /\
      forall p', In p' (pianificazioni (store (snd answer))) ->
                 SQL.targets id m p' = true ->
                 data_appuntamento p' = d /\ fascia_oraria p' = f /\
                 stato p' = "riprogrammato" /\
                 note_riprogrammazione p' = Some note.
Proof.
  intros Hw Hp Ht Hfree answer Hanswer.
  exists (JS.or_else reason "Riprogrammato su richiesta cliente").
  split; [intros ->; reflexivity|]. split; [intros ->; reflexivity|].
  split.
  { intros r -> Hr. simpl. apply String.eqb_neq in Hr. rewrite Hr. reflexivity. }
  assert (Hrows : (exists message, fst answer = Ret (json (Success message))) /\
                  pianificazioni (store (snd answer))
                  = updated id m
                      (set_riprogrammato (now h) d f
                         (JS.or_else reason "Riprogrammato su richiesta cliente"))
                      (pianificazioni (store w))).
  { destruct Hanswer as [-> | ->].
    - destruct (reschedule_appointment_run h gateway id m d f reason w p
                  (healthy_nth w 0 Hw) (healthy_nth w 1 Hw) (healthy_nth w 3 Hw)
                  Hp Ht Hfree) as (w' & -> & Hrows & _).
      split; [eexists; reflexivity | exact Hrows].
    - destruct (cs_reschedule_appointment_run h id m d f reason w p
                  (healthy_nth w 0 Hw) (healthy_nth w 2 Hw)
                  Hp Ht Hfree) as (w' & -> & Hrows & _).
      split; [eexists; reflexivity | exact Hrows]. }
  destruct Hrows as [Hok Hrows]. split; [exact Hok|]. rewrite Hrows. split.
  - apply updated_In; assumption.
  - intros p' Hp' Ht'.
    apply updated_inv in Hp'; [|intros q; reflexivity | exact Ht'].
    destruct Hp' as (q & _ & _ & ->). repeat split; reflexivity.
Qed.

Lemma full_slot_is_refused_witness :
  (exists r error,
     fst (reschedule_appointment Sample.utc_host Sample.gateway_up
            None (Some "TEST123456") Sample.d_2024_08_01 "09:00-12:00" None
            (request_world Sample.full_slot [])) = Ret r /\
     success r = false /\
     r = json (CapacityExceeded error
                 [ {| alt_date := Sample.d_2024_08_01; alt_time := "08:00-12:00" |};
                   {| alt_date := Sample.d_2024_08_01; alt_time := "13:00-17:00" |} ])) /\
  store (snd (reschedule_appointment Sample.utc_host Sample.gateway_up
                None (Some "TEST123456") Sample.d_2024_08_01 "09:00-12:00" None
                (request_world Sample.full_slot []))) = Sample.full_slot /\
  In (Sample.row 6 "TEST123456" Sample.d_2024_07_25 "09:00-12:00"
        "programmato" (Some 7))
     (pianificazioni
        (store (snd (reschedule_appointment Sample.utc_host Sample.gateway_up
                       None (Some "TEST123456") Sample.d_2024_08_01
                       "09:00-12:00" None
                       (request_world Sample.full_slot []))))).
Proof.
  apply (full_slot_is_refused Sample.utc_host Sample.gateway_up
           None (Some "TEST123456") Sample.d_2024_08_01 "09:00-12:00" None
           (request_world Sample.full_slot [])
           (Sample.row 6 "TEST123456" Sample.d_2024_07_25 "09:00-12:00"
              "programmato" (Some 7))).
  - reflexivity.
  - reflexivity.
  - simpl. tauto.
  - reflexivity.
  - left. reflexivity.
Defined.

Lemma reschedule_stores_request_witness :
  exists note,
    (@None string = None -> note = "Riprogrammato su richiesta cliente") /\
    (@None string = Some "" -> note = "Riprogrammato su richiesta cliente") /\
    (forall r, @None string = Some r -> r <> "" -> note = r) /\
    (exists message,
       fst (reschedule_appointment Sample.utc_host Sample.gateway_up
              (Some 1) None Sample.d_2024_08_01 "14:00-18:00" None
              (request_world Sample.seeded []))
       = Ret (json (Success message))) /\
    In (set_riprogrammato (now Sample.utc_host) Sample.d_2024_08_01
          "14:00-18:00" note
          (Sample.row 1 "TEST123456" Sample.d_2024_07_25 "09:00-12:00"
             "programmato" (Some 7)))
       (pianificazioni
          (store (snd (reschedule_appointment Sample.utc_host Sample.gateway_up
                         (Some 1) None Sample.d_2024_08_01 "14:00-18:00" None
                         (request_world Sample.seeded []))))) /\
    forall p',
      In p' (pianificazioni
               (store (snd (reschedule_appointment Sample.utc_host
                              Sample.gateway_up (Some 1) None
                              Sample.d_2024_08_01 "14:00-18:00" None
                              (request_world Sample.seeded []))))) ->
      SQL.targets (Some 1) None p' = true ->
      data_appuntamento p' = Sample.d_2024_08_01 /\
      fascia_oraria p' = "14:00-18:00" /\
      stato p' = "riprogrammato" /\
      note_riprogrammazione p' = Some note.
Proof.
  apply (reschedule_stores_request Sample.utc_host Sample.gateway_up
           (Some 1) None Sample.d_2024_08_01 "14:00-18:00" None
           (request_world Sample.seeded [])
           (Sample.row 1 "TEST123456" Sample.d_2024_07_25 "09:00-12:00"
              "programmato" (Some 7))).
  - reflexivity.
  - simpl. tauto.
  - reflexivity.
  - vm_compute. reflexivity.
  - left. reflexivity.
Defined.

(** ** Confirm *)

Lemma updated_stato_twice (id : option Z) (m : option string) (ts ts' : Z)
    (rows : list Pianificazione) :
  map stato (updated id m (set_confermato ts')
               (updated id m (set_confermato ts) rows))
  = map stato (updated id m (set_confermato ts) rows).
Proof.
  unfold updated. rewrite !map_map. apply map_ext. intros q.
  destruct (SQL.targets id m q) eqn:Hq.
  - rewrite targets_set_confermato, Hq. reflexivity.
  - rewrite Hq. reflexivity.
Qed.

(** C7. Confirming an appointment whose status already is [confermato]
    succeeds: the response is a success, the row is written again with
    status [confermato], its date and slot as they were; and confirming
    once more after that succeeds again and leaves the status of every
    stored appointment as the first confirmation left it.  Both handlers
    do so. *)
Theorem confirm_again_succeeds (h : Host) (gateway : Gateway)
    (id : option Z) (m : option string) (w : World) (p : Pianificazione) :
  healthy w ->
  In p (pianificazioni (store w)) -> SQL.targets id m p = true ->
  stato p = "confermato" ->
  forall confirm,
    confirm = confirm_appointment h gateway id m \/
    confirm = CompleteSolution.confirm_appointment h id m ->
    (exists message, fst (confirm w) = Ret (json (Success message))) /\
    In (set_confermato (now h) p) (pianificazioni (store (snd (confirm w)))) /\
    stato (set_confermato (now h) p) = stato p /\
    data_appuntamento (set_confermato (now h) p) = data_appuntamento p /\
    fascia_oraria (set_confermato (now h) p) = fascia_oraria p /\
    (exists message, fst (confirm (snd (confirm w))) = Ret (json (Success message))) /\
    map stato (pianificazioni (store (snd (confirm (snd (confirm w))))))
      = map stato (pianificazioni (store (snd (confirm w)))).
Proof.
  intros Hw Hp Ht Hst confirm Hconfirm.
  assert (Hstep : forall w0 p0,
             healthy w0 -> In p0 (pianificazioni (store w0)) ->
             SQL.targets id m p0 = true ->
             (exists message, fst (confirm w0) = Ret (json (Success message))) /\
             pianificazioni (store (snd (confirm w0)))
               = updated id m (set_confermato (now h)) (pianificazioni (store w0)) /\
             healthy (snd (confirm w0))).
  { intros w0 p0 Hw0 Hp0 Ht0. destruct Hconfirm as [-> | ->].
    - destruct (confirm_appointment_run h gateway id m w0 p0
                  (healthy_nth w0 0 Hw0) (healthy_nth w0 2 Hw0) Hp0 Ht0)
        as (a & rest & w' & _ & -> & Hrows & Hf).
      split; [eexists; reflexivity|]. split; [exact Hrows|].
      unfold healthy in *. simpl. rewrite Hf, Hw0. reflexivity.
    - destruct (cs_confirm_appointment_run h id m w0 p0
                  (healthy_nth w0 1 Hw0) Hp0 Ht0)
        as (q & qs & w' & _ & -> & Hrows & Hf).
      split; [eexists; reflexivity|]. split; [exact Hrows|].
      unfold healthy in *. simpl. rewrite Hf, Hw0. reflexivity. }
  destruct (Hstep w p Hw Hp Ht) as (Hok1 & Hrows1 & Hw1).
  assert (Hp1 : In (set_confermato (now h) p)
                   (pianificazioni (store (snd (confirm w))))).
  { rewrite Hrows1. apply updated_In; assumption. }
  destruct (Hstep (snd (confirm w)) (set_confermato (now h) p) Hw1 Hp1 Ht)
    as (Hok2 & Hrows2 & _).
  split; [exact Hok1|]. split; [exact Hp1|].
  split; [simpl; symmetry; exact Hst|].
  split; [reflexivity|]. split; [reflexivity|]. split; [exact Hok2|].
  rewrite Hrows2, Hrows1. apply updated_stato_twice.
Qed.

Lemma confirm_again_succeeds_witness :
  (exists message,
     fst (confirm_appointment Sample.utc_host Sample.gateway_up (Some 2) None
            (request_world Sample.seeded []))
     = Ret (json (Success message))) /\
  In (set_confermato (now Sample.utc_host) Sample.confirmed_row)
     (pianificazioni
        (store (snd (confirm_appointment Sample.utc_host Sample.gateway_up
                       (Some 2) None (request_world Sample.seeded []))))) /\
  stato (set_confermato (now Sample.utc_host) Sample.confirmed_row)
    = stato Sample.confirmed_row /\
  data_appuntamento (set_confermato (now Sample.utc_host) Sample.confirmed_row)
    = data_appuntamento Sample.confirmed_row /\
  fascia_oraria (set_confermato (now Sample.utc_host) Sample.confirmed_row)
    = fascia_oraria Sample.confirmed_row /\
  (exists message,
     fst (confirm_appointment Sample.utc_host Sample.gateway_up (Some 2) None
            (snd (confirm_appointment Sample.utc_host Sample.gateway_up
                    (Some 2) None (request_world Sample.seeded []))))
     = Ret (json (Success message))) /\
  map stato
    (pianificazioni
       (store (snd (confirm_appointment Sample.utc_host Sample.gateway_up
                      (Some 2) None
                      (snd (confirm_appointment Sample.utc_host
                              Sample.gateway_up (Some 2) None
                              (request_world Sample.seeded [])))))))
  = map stato
      (pianificazioni
         (store (snd (confirm_appointment Sample.utc_host Sample.gateway_up
                        (Some 2) None (request_world Sample.seeded []))))).
Proof.
  apply (confirm_again_succeeds Sample.utc_host Sample.gateway_up
           (Some 2) None (request_world Sample.seeded [])
           Sample.confirmed_row).
  - reflexivity.
  - simpl. tauto.
  - reflexivity.
  - reflexivity.
  - left. reflexivity.
Defined.

(** ** A program logic for requests *)

Lemma hoare_ret {A} (P : Store -> Prop) (Q : A -> Store -> Prop)
    (E : Store -> Prop) (a : A) :
  (forall s, P s -> Q a s) -> hoare P (ret a) Q E.
Proof. intros H w Hw. simpl. apply H. exact Hw. Qed.

Lemma hoare_bind {A B} (R : A -> Store -> Prop) (P : Store -> Prop)
    (m : M A) (k : A -> M B) (Q : B -> Store -> Prop) (E : Store -> Prop) :
  hoare P m R E -> (forall a, hoare (R a) (k a) Q E) ->
  hoare P (bind m k) Q E.
Proof.
  intros Hm Hk w Hw. unfold bind. specialize (Hm w Hw).
  destruct (m w) as [[a|e] w1]; [|exact Hm].
  apply (Hk a w1). exact Hm.
Qed.

Lemma hoare_try_catch {A} (E' : Store -> Prop) (P : Store -> Prop)
    (m : M A) (k : string -> M A) (Q : A -> Store -> Prop) (E : Store -> Prop) :
  hoare P m Q E' -> (forall e, hoare E' (k e) Q E) ->
  hoare P (try_catch m k) Q E.
Proof.
  intros Hm Hk w Hw. unfold try_catch. specialize (Hm w Hw).
  destruct (m w) as [[a|e] w1]; [exact Hm|].
  apply (Hk e w1). exact Hm.
Qed.

(** A statement either throws, leaving the database alone, or runs. *)
Lemma hoare_pool_query {A} (q : Stmt) (run : Store -> A * Store)
    (P : Store -> Prop) (Q : A -> Store -> Prop) (E : Store -> Prop) :
  (forall s, P s -> Q (fst (run s)) (snd (run s))) ->
  (forall s, P s -> E s) ->
  hoare P (pool_query q run) Q E.
Proof.
  intros H HE w Hw. unfold pool_query.
  destruct (faults w) as [|[|] fs]; simpl; try (apply HE; exact Hw);
    specialize (H _ Hw); destruct (run (store w)); exact H.
Qed.

(** A swallowed computation never throws. *)
Lemma hoare_ignore_errors {A} (m : M A) (P Q E : Store -> Prop) :
  hoare P m (fun _ => Q) Q -> hoare P (ignore_errors m) (fun _ => Q) E.
Proof.
  intros Hm. unfold ignore_errors.
  apply (hoare_try_catch Q).
  - apply (hoare_bind (fun _ => Q)); [exact Hm|].
    intros _. apply hoare_ret. auto.
  - intros _. apply hoare_ret. auto.
Qed.

Lemma hoare_notify_operator (gateway : Gateway) (appointment : TargetRow)
    (message : string) (P E : Store -> Prop) :
  hoare P (notify_operator gateway appointment message) (fun _ => P) E.
Proof.
  intros w Hw.
  destruct (notify_operator_run gateway appointment message w) as (out & ->).
  exact Hw.
Qed.

Lemma hoare_alter_table (q : Stmt) (P E : Store -> Prop) :
  hoare P (ignore_errors (pool_query q alter_table)) (fun _ => P) E.
Proof.
  apply hoare_ignore_errors. apply hoare_pool_query; auto.
Qed.

Lemma hoare_call_log (ts : Z) (m : option string) (action det : string)
    (rows : list Pianificazione) (E : Store -> Prop) :
  hoare (fun s => pianificazioni s = rows)
        (ignore_errors (pool_query (InsertCallLog m action det)
                                   (insert_call_log ts m action det)))
        (fun _ s => pianificazioni s = rows) E.
Proof.
  apply hoare_ignore_errors. apply hoare_pool_query; auto.
Qed.

Lemma hoare_run {A} (P : Store -> Prop) (m : M A) (Q : Store -> Prop) (w : World) :
  hoare P m (fun _ => Q) Q -> P (store w) -> Q (store (snd (m w))).
Proof.
  intros Hm Hw. specialize (Hm w Hw). destruct (m w) as [[a|e] w1]; exact Hm.
Qed.

(** ** The capacity bound *)

(** Whatever the store, the gateway and the faults do, a reschedule
    request leaves the appointments rescheduled in the sense above. *)
Lemma reschedule_appointment_rows (h : Host) (gateway : Gateway)
    (id : option Z) (m : option string) (d : Z) (f : string)
    (reason : option string) (w : World) :
  rescheduled h id m d f reason (pianificazioni (store w))
    (pianificazioni
       (store (snd (reschedule_appointment h gateway id m d f reason w)))).
Proof.
  set (rows := pianificazioni (store w)).
  set (Post := fun s => rescheduled h id m d f reason rows (pianificazioni s)).
  set (P0 := fun s => pianificazioni s = rows).
  set (P1 := fun s => occupancy d f rows < 5 /\
                      pianificazioni s
                      = updated id m
                          (set_riprogrammato (now h) d f
                             (JS.or_else reason "Riprogrammato su richiesta cliente"))
                          rows).
  assert (H0 : forall s, P0 s -> Post s) by (intros s Hs; left; exact Hs).
  assert (H1 : forall s, P1 s -> Post s) by (intros s Hs; right; exact Hs).
  apply (hoare_run P0 _ Post); [|reflexivity].
  unfold reschedule_appointment.
  apply (hoare_try_catch Post); [|intros e; apply hoare_ret; auto].
  apply (hoare_bind (fun _ => P0)); [apply hoare_pool_query; auto|].
  intros [|appointment rest]; [apply hoare_ret; auto|].
  apply (hoare_bind (fun a s => P0 s /\ a = occupancy d f rows)).
  { apply hoare_pool_query; [|auto]. intros s Hs. split; [exact Hs|].
    unfold reading, select_availability, occupancy. simpl. rewrite Hs.
    reflexivity. }
  intros availability.
  destruct (availability >=? 5) eqn:Hav.
  { apply hoare_ret. intros s [Hs _]. auto. }
  assert (Hfree : availability < 5)
    by (rewrite Z.geb_leb in Hav; apply Z.leb_gt in Hav; exact Hav).
  cbv zeta.
  assert (H0' : forall s, P0 s /\ availability = occupancy d f rows -> Post s)
    by (intros s [Hs _]; auto).
  apply (hoare_bind (fun _ s => P0 s /\ availability = occupancy d f rows));
    [apply hoare_alter_table|].
  intros _.
  apply (hoare_bind (fun _ => P1)).
  { apply hoare_pool_query; [|exact H0']. intros s [Hs Ha]. split; [lia|].
    unfold update_reschedule. rewrite update_where_rows, Hs. reflexivity. }
  intros [|r rs]; [apply hoare_ret; auto|].
  apply (hoare_bind (fun _ => P1)); [apply hoare_notify_operator|].
  intros _.
  apply (hoare_bind (fun _ => P1)).
  { intros w0 [Hfree0 Hw0].
    pose proof (hoare_call_log (now h) m "riprogrammazione"
                  ("Spostato a " ++ isoString d ++ " " ++ f ++ " - SMS inviato")
                  _ Post w0 Hw0) as Hlog.
    destruct (ignore_errors _ w0) as [[a|e] w1].
    - split; [exact Hfree0 | exact Hlog].
    - exact Hlog. }
  intros _. apply hoare_ret. auto.
Qed.

Lemma cs_reschedule_appointment_rows (h : Host)
    (id : option Z) (m : option string) (d : Z) (f : string)
    (reason : option string) (w : World) :
  rescheduled h id m d f reason (pianificazioni (store w))
    (pianificazioni
       (store (snd (CompleteSolution.reschedule_appointment
                      h id m d f reason w)))).
Proof.
  set (rows := pianificazioni (store w)).
  set (Post := fun s => rescheduled h id m d f reason rows (pianificazioni s)).
  set (P0 := fun s => pianificazioni s = rows).
  set (P1 := fun s => occupancy d f rows < 5 /\
                      pianificazioni s
                      = updated id m
                          (set_riprogrammato (now h) d f
                             (JS.or_else reason "Riprogrammato su richiesta cliente"))
                          rows).
  assert (H0 : forall s, P0 s -> Post s) by (intros s Hs; left; exact Hs).
  assert (H1 : forall s, P1 s -> Post s) by (intros s Hs; right; exact Hs).
  apply (hoare_run P0 _ Post); [|reflexivity].
  unfold CompleteSolution.reschedule_appointment.
  apply (hoare_try_catch Post); [|intros e; apply hoare_ret; auto].
  apply (hoare_bind (fun a s => P0 s /\ a = occupancy d f rows)).
  { apply hoare_pool_query; [|auto]. intros s Hs. split; [exact Hs|].
    unfold reading, select_availability, occupancy. simpl. rewrite Hs.
    reflexivity. }
  intros availability.
  destruct (availability >=? 5) eqn:Hav.
  { apply hoare_ret. intros s [Hs _]. auto. }
  assert (Hfree : availability < 5)
    by (rewrite Z.geb_leb in Hav; apply Z.leb_gt in Hav; exact Hav).
  cbv zeta.
  assert (H0' : forall s, P0 s /\ availability = occupancy d f rows -> Post s)
    by (intros s [Hs _]; auto).
  apply (hoare_bind (fun _ s => P0 s /\ availability = occupancy d f rows));
    [apply hoare_alter_table|].
  intros _.
  apply (hoare_bind (fun _ => P1)).
  { apply hoare_pool_query; [|exact H0']. intros s [Hs Ha]. split; [lia|].
    unfold update_reschedule. rewrite update_where_rows, Hs. reflexivity. }
  intros [|r rs]; [apply hoare_ret; auto|].
  apply (hoare_bind (fun _ => P1)).
  { intros w0 [Hfree0 Hw0].
    pose proof (hoare_call_log (now h) m "riprogrammazione"
                  ("Spostato a " ++ isoString d ++ " " ++ f)
                  _ Post w0 Hw0) as Hlog.
    destruct (ignore_errors _ w0) as [[a|e] w1].
    - split; [exact Hfree0 | exact Hlog].
    - exact Hlog. }
  intros _. apply hoare_ret. auto.
Qed.

(** Whatever the store, the gateway and the faults do, a confirm request
    either leaves the appointments as they were or confirms every matched
    row. *)
Lemma confirm_appointment_rows (h : Host) (gateway : Gateway)
    (id : option Z) (m : option string) (w : World) :
  confirmed h id m (pianificazioni (store w))
    (pianificazioni (store (snd (confirm_appointment h gateway id m w)))).
Proof.
  set (rows := pianificazioni (store w)).
  set (Post := fun s => confirmed h id m rows (pianificazioni s)).
  set (P0 := fun s => pianificazioni s = rows).
  set (P1 := fun s => pianificazioni s
                      = updated id m (set_confermato (now h)) rows).
  assert (H0 : forall s, P0 s -> Post s) by (intros s Hs; left; exact Hs).
  assert (H1 : forall s, P1 s -> Post s) by (intros s Hs; right; exact Hs).
  apply (hoare_run P0 _ Post); [|reflexivity].
  unfold confirm_appointment.
  apply (hoare_try_catch Post); [|intros e; apply hoare_ret; auto].
  apply (hoare_bind (fun _ => P0)); [apply hoare_pool_query; auto|].
  intros [|appointment rest]; [apply hoare_ret; auto|].
  apply (hoare_bind (fun _ => P0)); [apply hoare_alter_table|].
  intros _.
  apply (hoare_bind (fun _ => P1)).
  { apply hoare_pool_query; [|exact H0]. intros s Hs.
    unfold P1, update_confirm. rewrite update_where_rows, Hs. reflexivity. }
  intros [|r rs]; [apply hoare_ret; auto|].
  apply (hoare_bind (fun _ => P1)); [apply hoare_notify_operator|].
  intros _.
  apply (hoare_bind (fun _ => P1)).
  { intros w0 Hw0.
    pose proof (hoare_call_log (now h) m "conferma"
                  "Appuntamento confermato telefonicamente - SMS inviato"
                  _ Post w0 Hw0) as Hlog.
    destruct (ignore_errors _ w0) as [[a|e] w1]; exact Hlog. }
  intros _. apply hoare_ret. auto.
Qed.

Lemma cs_confirm_appointment_rows (h : Host)
    (id : option Z) (m : option string) (w : World) :
  confirmed h id m (pianificazioni (store w))
    (pianificazioni
       (store (snd (CompleteSolution.confirm_appointment h id m w)))).
Proof.
  set (rows := pianificazioni (store w)).
  set (Post := fun s => confirmed h id m rows (pianificazioni s)).
  set (P0 := fun s => pianificazioni s = rows).
  set (P1 := fun s => pianificazioni s
                      = updated id m (set_confermato (now h)) rows).
  assert (H0 : forall s, P0 s -> Post s) by (intros s Hs; left; exact Hs).
  assert (H1 : forall s, P1 s -> Post s) by (intros s Hs; right; exact Hs).
  apply (hoare_run P0 _ Post); [|reflexivity].
  unfold CompleteSolution.confirm_appointment.
  apply (hoare_try_catch Post); [|intros e; apply hoare_ret; auto].
  apply (hoare_bind (fun _ => P0)); [apply hoare_alter_table|].
  intros _.
  apply (hoare_bind (fun _ => P1)).
  { apply hoare_pool_query; [|exact H0]. intros s Hs.
    unfold P1, update_confirm. rewrite update_where_rows, Hs. reflexivity. }
  intros [|r rs]; [apply hoare_ret; auto|].
  apply (hoare_bind (fun _ => P1)).
  { intros w0 Hw0.
    pose proof (hoare_call_log (now h) m "conferma"
                  "Appuntamento confermato telefonicamente"
                  _ Post w0 Hw0) as Hlog.
    destruct (ignore_errors _ w0) as [[a|e] w1]; exact Hlog. }
  intros _. apply hoare_ret. auto.
Qed.

(** A moved row occupies no other date and slot than the new one. *)
Lemma occupies_moved_elsewhere (ts d d' : Z) (f f' note : string)
    (p : Pianificazione) :
  d' <> d \/ f' <> f ->
  occupies d' f' (set_riprogrammato ts d f note p) = false.
Proof.
  intros Hne. unfold occupies. simpl.
  destruct (d =? d') eqn:Hd; [|reflexivity].
  destruct (f =? f')%string eqn:Hf; [|reflexivity].
  apply Z.eqb_eq in Hd. apply String.eqb_eq in Hf. subst. destruct Hne; congruence.
Qed.

(** Moving rows onto [(d, f)] adds to no other date and slot. *)
Lemma occupancy_moved_elsewhere (id : option Z) (m : option string)
    (ts d d' : Z) (f f' note : string) (rows : list Pianificazione) :
  d' <> d \/ f' <> f ->
  occupancy d' f' (updated id m (set_riprogrammato ts d f note) rows)
  <= occupancy d' f' rows.
Proof.
  intros Hne. unfold occupancy, updated. apply inj_le.
  induction rows as [|p rows IH]; simpl; [lia|].
  destruct (SQL.targets id m p).
  - rewrite occupies_moved_elsewhere by exact Hne.
    destruct (occupies d' f' p); simpl;
      [apply Nat.le_le_succ_r; exact IH | exact IH].
  - destruct (occupies d' f' p); simpl;
      [apply le_n_S; exact IH | exact IH].
Qed.

(** Moving rows onto [(d, f)] adds at most the number of moved rows. *)
Lemma occupancy_moved_onto (id : option Z) (m : option string)
    (d : Z) (f : string) (set : Pianificazione -> Pianificazione)
    (rows : list Pianificazione) :
  occupancy d f (updated id m set rows)
  <= occupancy d f rows
     + Z.of_nat (List.length (filter (SQL.targets id m) rows)).
Proof.
  unfold occupancy, updated. rewrite <- Nat2Z.inj_add. apply inj_le.
  induction rows as [|p rows IH]; simpl; [lia|].
  set (n' := List.length (filter (occupies d f)
                (map (fun p0 => if SQL.targets id m p0 then set p0 else p0) rows)))
    in *.
  set (n := List.length (filter (occupies d f) rows)) in *.
  set (k := List.length (filter (SQL.targets id m) rows)) in *.
  destruct (SQL.targets id m p); simpl.
  - destruct (occupies d f (set p)), (occupies d f p); simpl;
      fold n' n k; lia.
  - destruct (occupies d f p); simpl; fold n' n k; lia.
Qed.

(** Confirming rows that are not cancelled changes no occupancy. *)
Lemma occupancy_confirmed (id : option Z) (m : option string) (ts d : Z)
    (f : string) (rows : list Pianificazione) :
  (forall q, In q rows -> SQL.targets id m q = true -> stato q <> "cancellato") ->
  occupancy d f (updated id m (set_confermato ts) rows) = occupancy d f rows.
Proof.
  intros Hlive. unfold occupancy, updated. f_equal.
  induction rows as [|p rows IH]; simpl; [reflexivity|].
  assert (IH' : List.length
                  (filter (occupies d f)
                     (map (fun p0 => if SQL.targets id m p0
                                     then set_confermato ts p0 else p0) rows))
                = List.length (filter (occupies d f) rows)).
  { apply IH. intros q Hq. apply Hlive. right. exact Hq. }
  destruct (SQL.targets id m p) eqn:Ht.
  - assert (Hocc : occupies d f (set_confermato ts p) = occupies d f p).
    { unfold occupies. simpl. f_equal.
      specialize (Hlive p (or_introl eq_refl) Ht).
      apply String.eqb_neq in Hlive. rewrite Hlive. reflexivity. }
    rewrite Hocc. destruct (occupies d f p); simpl; rewrite IH'; reflexivity.
  - destruct (occupies d f p); simpl; rewrite IH'; reflexivity.
Qed.

Lemma slot_bound_rows (s : Store) :
  slot_bound s <-> forall d f, occupancy d f (pianificazioni s) <= 5.
Proof. unfold slot_bound, select_availability, occupancy. tauto. Qed.

(** C1, as the code has it.  Requests applied one after the other, and
    whatever the store, the gateway and the faults do.  A reschedule
    request onto a date and slot that already hold 5 appointments or more
    that are not cancelled moves nothing, and on a store that answers it
    is refused with the capacity answer (by the handler that looks the
    appointment up first, when the request matches one).  A reschedule
    request keeps the bound of 5 appointments that are not cancelled on
    every date and slot whenever the requested date and slot are full, or
    it matches at most one stored appointment, or the appointments it
    matches fit in the room left on the requested date and slot.  A
    confirm request changes the id, the date and the slot of no
    appointment, and keeps the bound whenever none of the appointments it
    matches is cancelled.  Both handlers do so. *)
Theorem slot_bound_preserved (h : Host) (gateway : Gateway)
    (id : option Z) (m : option string) (d : Z) (f : string)
    (reason : option string) (w : World) :
  slot_bound (store w) ->
  (forall answer,
     answer = reschedule_appointment h gateway id m d f reason w \/
     answer = CompleteSolution.reschedule_appointment h id m d f reason w ->
     (5 <= select_availability d f (store w) ->
      pianificazioni (store (snd answer)) = pianificazioni (store w)) /\
     (5 <= select_availability d f (store w) \/
      (List.length (matched id m (store w)) <= 1)%nat \/
      select_availability d f (store w)
        + Z.of_nat (List.length (matched id m (store w))) <= 5 ->
      slot_bound (store (snd answer)))) /\
  (healthy w -> 5 <= select_availability d f (store w) ->
   (matched id m (store w) <> [] ->
    fst (reschedule_appointment h gateway id m d f reason w)
    = Ret (slot_full d)) /\
   fst (CompleteSolution.reschedule_appointment h id m d f reason w)
   = Ret (slot_full d)) /\
  (forall answer,
     answer = confirm_appointment h gateway id m w \/
     answer = CompleteSolution.confirm_appointment h id m w ->
     map placement (pianificazioni (store (snd answer)))
     = map placement (pianificazioni (store w)) /\
     ((forall q, In q (matched id m (store w)) -> stato q <> "cancellato") ->
      slot_bound (store (snd answer)))).
Proof.
  intros Hbound. rewrite slot_bound_rows in Hbound. split; [|split].
  - intros answer Hanswer.
    assert (Hrows : rescheduled h id m d f reason (pianificazioni (store w))
                      (pianificazioni (store (snd answer)))).
    { destruct Hanswer as [-> | ->];
        [apply reschedule_appointment_rows | apply cs_reschedule_appointment_rows]. }
    assert (Hfull : 5 <= select_availability d f (store w) ->
                    pianificazioni (store (snd answer))
                    = pianificazioni (store w)).
    { intros Hfive. destruct Hrows as [Hsame | [Hfree _]]; [exact Hsame|].
      unfold select_availability in Hfive. unfold occupancy in Hfree. lia. }
    split; [exact Hfull|].
    intros Hroom. apply slot_bound_rows. intros d' f'.
    destruct Hroom as [Hfive | Hroom]; [rewrite (Hfull Hfive); apply Hbound|].
    destruct Hrows as [-> | [Hfree ->]]; [apply Hbound|].
    destruct (Z.eq_dec d' d) as [-> | Hd].
    + destruct (string_dec f' f) as [-> | Hf].
      * pose proof (occupancy_moved_onto id m d f
                      (set_riprogrammato (now h) d f
                         (JS.or_else reason "Riprogrammato su richiesta cliente"))
                      (pianificazioni (store w))) as Hle.
        unfold matched, select_availability in Hroom.
        unfold occupancy in Hle, Hfree |- *. lia.
      * etransitivity; [apply occupancy_moved_elsewhere; right; exact Hf|].
        apply Hbound.
    + etransitivity; [apply occupancy_moved_elsewhere; left; exact Hd|].
      apply Hbound.
  - intros Hw Hfive. split.
    + intros Hne. unfold matched in Hne.
      destruct (filter (SQL.targets id m) (pianificazioni (store w)))
        as [|p ps] eqn:Hf; [destruct (Hne eq_refl)|].
      assert (Hp : In p (filter (SQL.targets id m) (pianificazioni (store w))))
        by (rewrite Hf; left; reflexivity).
      apply filter_In in Hp. destruct Hp as [Hp Ht].
      destruct (reschedule_appointment_full h gateway id m d f reason w p
                  (healthy_nth w 0 Hw) (healthy_nth w 1 Hw) Hp Ht Hfive)
        as (w' & -> & _).
      reflexivity.
    + destruct (cs_reschedule_appointment_full h id m d f reason w
                  (healthy_nth w 0 Hw) Hfive) as (w' & -> & _).
      reflexivity.
  - intros answer Hanswer.
    assert (Hrows : confirmed h id m (pianificazioni (store w))
                      (pianificazioni (store (snd answer)))).
    { destruct Hanswer as [-> | ->];
        [apply confirm_appointment_rows | apply cs_confirm_appointment_rows]. }
    split.
    + destruct Hrows as [-> | ->]; [reflexivity|].
      unfold updated. rewrite map_map. apply map_ext.
      intros q. destruct (SQL.targets id m q); reflexivity.
    + intros Hlive. apply slot_bound_rows. intros d' f'.
      destruct Hrows as [-> | ->]; [apply Hbound|].
      rewrite occupancy_confirmed; [apply Hbound|].
      intros q Hq Ht. apply Hlive. apply filter_In. split; assumption.
Qed.

Lemma crowded_slot_bound : slot_bound Sample.crowded.
Proof.
  intros d f.
  unfold select_availability, Sample.crowded, Sample.db.
  cbn [pianificazioni filter].
  unfold occupies, Sample.d_2024_08_01, Sample.d_2024_07_25.
  cbn [data_appuntamento fascia_oraria stato Sample.row].
  destruct (Z.eqb_spec 19936 d), (Z.eqb_spec 19929 d),
    ("09:00-12:00" =? f)%string; simpl; lia.
Qed.

Lemma full_with_cancelled_slot_bound : slot_bound Sample.full_with_cancelled.
Proof.
  intros d f.
  unfold select_availability, Sample.full_with_cancelled, Sample.db.
  cbn [pianificazioni filter].
  unfold occupies, Sample.d_2024_08_01.
  cbn [data_appuntamento fascia_oraria stato Sample.row].
  destruct (Z.eqb_spec 19936 d), ("09:00-12:00" =? f)%string; simpl; lia.
Qed.

Lemma slot_bound_preserved_witness :
  slot_bound
    (store (snd (reschedule_appointment Sample.utc_host Sample.gateway_up
                   (Some 5) None Sample.d_2024_08_01 "09:00-12:00" None
                   (request_world Sample.crowded [])))) /\
  (fst (reschedule_appointment Sample.utc_host Sample.gateway_up
          (Some 6) None Sample.d_2024_08_01 "09:00-12:00" None
          (request_world Sample.full_with_cancelled []))
   = Ret (slot_full Sample.d_2024_08_01) /\
   pianificazioni
     (store (snd (reschedule_appointment Sample.utc_host Sample.gateway_up
                    (Some 6) None Sample.d_2024_08_01 "09:00-12:00" None
                    (request_world Sample.full_with_cancelled []))))
   = pianificazioni Sample.full_with_cancelled) /\
  (map placement
     (pianificazioni
        (store (snd (confirm_appointment Sample.utc_host Sample.gateway_up
                       None (Some "TEST123456")
                       (request_world Sample.crowded [])))))
   = map placement (pianificazioni Sample.crowded) /\
   slot_bound
     (store (snd (confirm_appointment Sample.utc_host Sample.gateway_up
                    None (Some "TEST123456")
                    (request_world Sample.crowded []))))).
Proof.
  split; [|split].
  - apply (proj1 (slot_bound_preserved Sample.utc_host Sample.gateway_up
                    (Some 5) None Sample.d_2024_08_01 "09:00-12:00" None
                    (request_world Sample.crowded []) crowded_slot_bound)
             _ (or_introl eq_refl)).
    right. left. simpl. lia.
  - pose proof (slot_bound_preserved Sample.utc_host Sample.gateway_up
                  (Some 6) None Sample.d_2024_08_01 "09:00-12:00" None
                  (request_world Sample.full_with_cancelled [])
                  full_with_cancelled_slot_bound)
      as (Hmoves & Hrefused & _).
    split.
    + apply (proj1 (Hrefused eq_refl ltac:(vm_compute; discriminate))).
      vm_compute. discriminate.
    + apply (Hmoves _ (or_introl eq_refl)). vm_compute. discriminate.
  - pose proof (slot_bound_preserved Sample.utc_host Sample.gateway_up
                  None (Some "TEST123456") Sample.d_2024_08_01
                  "09:00-12:00" None
                  (request_world Sample.crowded []) crowded_slot_bound)
      as (_ & _ & Hconfirm).
    destruct (Hconfirm _ (or_introl eq_refl)) as [Hplace Hkeeps].
    split; [exact Hplace|]. apply Hkeeps.
    simpl. intros q [<- | [<- | []]]; discriminate.
Defined.

(** C1, as the specification states it, fails, in each of its parts.
    Reachable states: six requests to [/api/test-appointment] on the empty
    database leave six appointments on 25 July 2024, 09:00-12:00.
    Reschedule: with four appointments on 1 August 2024, 09:00-12:00, and
    two appointments of meter TEST123456 on another day, the bound holds;
    the reschedule of that meter onto 1 August, 09:00-12:00, passes the
    capacity check (4 is below 5), moves both rows, and leaves six
    appointments on that date and slot.  Confirm: with five appointments
    and a cancelled one on a date and slot the bound holds; confirming the
    cancelled one leaves six. *)
Lemma slot_bound_is_no_invariant :
  (select_availability Sample.d_2024_07_25 "09:00-12:00"
     (store Sample.after_six_test_appointments) = 6 /\
   ~ slot_bound (store Sample.after_six_test_appointments)) /\
  (slot_bound Sample.crowded /\
   select_availability Sample.d_2024_08_01 "09:00-12:00"
     (store (snd (reschedule_appointment Sample.utc_host Sample.gateway_up
                    None (Some "TEST123456") Sample.d_2024_08_01 "09:00-12:00"
                    None (request_world Sample.crowded [])))) = 6 /\
   ~ slot_bound
       (store (snd (reschedule_appointment Sample.utc_host Sample.gateway_up
                      None (Some "TEST123456") Sample.d_2024_08_01
                      "09:00-12:00" None (request_world Sample.crowded []))))) /\
  (slot_bound Sample.full_with_cancelled /\
   select_availability Sample.d_2024_08_01 "09:00-12:00"
     (store (snd (confirm_appointment Sample.utc_host Sample.gateway_up
                    (Some 6) None
                    (request_world Sample.full_with_cancelled [])))) = 6 /\
   ~ slot_bound
       (store (snd (confirm_appointment Sample.utc_host Sample.gateway_up
                      (Some 6) None
                      (request_world Sample.full_with_cancelled []))))).
Proof.
  split; [|split].
  - split; [vm_compute; reflexivity|].
    intros Hbound. specialize (Hbound Sample.d_2024_07_25 "09:00-12:00").
    vm_compute in Hbound. apply Hbound. reflexivity.
  - split; [exact crowded_slot_bound|]. split; [vm_compute; reflexivity|].
    intros Hbound. specialize (Hbound Sample.d_2024_08_01 "09:00-12:00").
    vm_compute in Hbound. apply Hbound. reflexivity.
  - split; [exact full_with_cancelled_slot_bound|].
    split; [vm_compute; reflexivity|].
    intros Hbound. specialize (Hbound Sample.d_2024_08_01 "09:00-12:00").
    vm_compute in Hbound. apply Hbound. reflexivity.
Qed.

(** ** Requests with both an id and a matricola *)






(** ** Side channels *)

(** C8. For a confirm or a reschedule request whose primary statements
    (the lookup, the capacity count, the update) succeed, the outcome does
    not depend on the side channels: whatever the SMS gateway answers or
    throws, and whether or not the schema statement and the audit-log
    insertion fail, the response is the same HTTP 200 success and the
    appointments are the updated ones.  Two runs from the same database
    that differ only in the side channels answer alike. *)
Theorem side_channels_never_fail_the_request (h : Host)
    (gateway gateway' : Gateway)
    (id : option Z) (m : option string) (d : Z) (f : string)
    (reason : option string) (w w' : World) (p : Pianificazione) :
  store w' = store w ->
  In p (pianificazioni (store w)) -> SQL.targets id m p = true ->
  (nth 0 (faults w) false = false -> nth 2 (faults w) false = false ->
   nth 0 (faults w') false = false -> nth 2 (faults w') false = false ->
   exists r,
     fst (confirm_appointment h gateway id m w) = Ret r /\
     fst (confirm_appointment h gateway' id m w') = Ret r /\
     success r = true /\ status r = 200 /\
     pianificazioni (store (snd (confirm_appointment h gateway id m w)))
       = updated id m (set_confermato (now h)) (pianificazioni (store w)) /\
     pianificazioni (store (snd (confirm_appointment h gateway' id m w')))
       = updated id m (set_confermato (now h)) (pianificazioni (store w))) /\
  (select_availability d f (store w) < 5 ->
   nth 0 (faults w) false = false -> nth 1 (faults w) false = false ->
   nth 3 (faults w) false = false ->
   nth 0 (faults w') false = false -> nth 1 (faults w') false = false ->
   nth 3 (faults w') false = false ->
   exists r,
     fst (reschedule_appointment h gateway id m d f reason w) = Ret r /\
     fst (reschedule_appointment h gateway' id m d f reason w') = Ret r /\
     success r = true /\ status r = 200 /\
     pianificazioni
       (store (snd (reschedule_appointment h gateway id m d f reason w)))
       = updated id m
           (set_riprogrammato (now h) d f
              (JS.or_else reason "Riprogrammato su richiesta cliente"))
           (pianificazioni (store w)) /\
     pianificazioni
       (store (snd (reschedule_appointment h gateway' id m d f reason w')))
       = updated id m
           (set_riprogrammato (now h) d f
              (JS.or_else reason "Riprogrammato su richiesta cliente"))
           (pianificazioni (store w))).
Proof.
  intros Hstore Hp Ht.
  assert (Hp' : In p (pianificazioni (store w'))) by (rewrite Hstore; exact Hp).
  split.
  - intros H0 H2 H0' H2'.
    destruct (confirm_appointment_run h gateway id m w p H0 H2 Hp Ht)
      as (a & rest & w1 & Hsel & E & Hrows & _).
    destruct (confirm_appointment_run h gateway' id m w' p H0' H2' Hp' Ht)
      as (a' & rest' & w1' & Hsel' & E' & Hrows' & _).
    rewrite Hstore, Hsel in Hsel'. inversion Hsel'; subst a' rest'.
    rewrite E, E'. eexists. split; [reflexivity|]. split; [reflexivity|].
    split; [reflexivity|]. split; [reflexivity|].
    split; [exact Hrows|]. simpl. rewrite Hrows', Hstore. reflexivity.
  - intros Hfree H0 H1 H3 H0' H1' H3'.
    assert (Hfree' : select_availability d f (store w') < 5)
      by (rewrite Hstore; exact Hfree).
    destruct (reschedule_appointment_run h gateway id m d f reason w p
                H0 H1 H3 Hp Ht Hfree) as (w1 & E & Hrows & _).
    destruct (reschedule_appointment_run h gateway' id m d f reason w' p
                H0' H1' H3' Hp' Ht Hfree') as (w1' & E' & Hrows' & _).
    rewrite E, E'. eexists. split; [reflexivity|]. split; [reflexivity|].
    split; [reflexivity|]. split; [reflexivity|].
    split; [exact Hrows|]. simpl. rewrite Hrows', Hstore. reflexivity.
Qed.

(** The side channels do fail in the first of the two runs compared
    below: the gateway is down, and the schema statement and the audit
    insertion throw, so that no audit entry is written. *)
Lemma failing_side_channels_leave_no_audit_entry :
  call_logs
    (store (snd (confirm_appointment Sample.utc_host Sample.gateway_down
                   (Some 1) None
                   (request_world Sample.seeded [false; true; false; true]))))
  = [] /\
  List.length
    (call_logs
       (store (snd (confirm_appointment Sample.utc_host Sample.gateway_up
                      (Some 1) None (request_world Sample.seeded [])))))
  = 1%nat.
Proof. split; vm_compute; reflexivity. Qed.

Lemma side_channels_never_fail_the_request_witness :
  (exists r,
     fst (confirm_appointment Sample.utc_host Sample.gateway_down (Some 1) None
            (request_world Sample.seeded [false; true; false; true])) = Ret r /\
     fst (confirm_appointment Sample.utc_host Sample.gateway_up (Some 1) None
            (request_world Sample.seeded [])) = Ret r /\
     success r = true /\ status r = 200 /\
     pianificazioni
       (store (snd (confirm_appointment Sample.utc_host Sample.gateway_down
                      (Some 1) None
                      (request_world Sample.seeded [false; true; false; true]))))
       = updated (Some 1) None (set_confermato (now Sample.utc_host))
           (pianificazioni Sample.seeded) /\
     pianificazioni
       (store (snd (confirm_appointment Sample.utc_host Sample.gateway_up
                      (Some 1) None (request_world Sample.seeded []))))
       = updated (Some 1) None (set_confermato (now Sample.utc_host))
           (pianificazioni Sample.seeded)) /\
  (exists r,
     fst (reschedule_appointment Sample.utc_host Sample.gateway_down
            (Some 1) None Sample.d_2024_08_01 "14:00-18:00" (Some "Impegno")
            (request_world Sample.seeded [false; false; true; false; true]))
       = Ret r /\
     fst (reschedule_appointment Sample.utc_host Sample.gateway_up
            (Some 1) None Sample.d_2024_08_01 "14:00-18:00" (Some "Impegno")
            (request_world Sample.seeded [])) = Ret r /\
     success r = true /\ status r = 200 /\
     pianificazioni
       (store (snd (reschedule_appointment Sample.utc_host Sample.gateway_down
                      (Some 1) None Sample.d_2024_08_01 "14:00-18:00"
                      (Some "Impegno")
                      (request_world Sample.seeded
                         [false; false; true; false; true]))))
       = updated (Some 1) None
           (set_riprogrammato (now Sample.utc_host) Sample.d_2024_08_01
              "14:00-18:00"
              (JS.or_else (Some "Impegno") "Riprogrammato su richiesta cliente"))
           (pianificazioni Sample.seeded) /\
     pianificazioni
       (store (snd (reschedule_appointment Sample.utc_host Sample.gateway_up
                      (Some 1) None Sample.d_2024_08_01 "14:00-18:00"
                      (Some "Impegno") (request_world Sample.seeded []))))
       = updated (Some 1) None
           (set_riprogrammato (now Sample.utc_host) Sample.d_2024_08_01
              "14:00-18:00"
              (JS.or_else (Some "Impegno") "Riprogrammato su richiesta cliente"))
           (pianificazioni Sample.seeded)).
Proof.
  split.
  - apply (proj1 (side_channels_never_fail_the_request
                    Sample.utc_host Sample.gateway_down Sample.gateway_up
                    (Some 1) None Sample.d_2024_08_01 "14:00-18:00"
                    (Some "Impegno")
                    (request_world Sample.seeded [false; true; false; true])
                    (request_world Sample.seeded [])
                    (Sample.row 1 "TEST123456" Sample.d_2024_07_25 "09:00-12:00"
                       "programmato" (Some 7))
                    eq_refl (or_introl eq_refl) eq_refl));
      reflexivity.
  - apply (proj2 (side_channels_never_fail_the_request
                    Sample.utc_host Sample.gateway_down Sample.gateway_up
                    (Some 1) None Sample.d_2024_08_01 "14:00-18:00"
                    (Some "Impegno")
                    (request_world Sample.seeded [false; false; true; false; true])
                    (request_world Sample.seeded [])
                    (Sample.row 1 "TEST123456" Sample.d_2024_07_25 "09:00-12:00"
                       "programmato" (Some 7))
                    eq_refl (or_introl eq_refl) eq_refl));
      reflexivity.
Defined.

(** * Further properties of the endpoints *)

(** ** Search: the other outcomes *)

Lemma select_search_nil (m : string) (s : Store) :
  select_search m s = [] <->
  forall p, In p (pianificazioni s) -> matricola p <> m.
Proof.
  unfold select_search. split.
  - intros Hnil p Hp Hm.
    destruct (search_rows_total m s p Hp Hm) as (r & Hr & _).
    apply (order_by_desc_In (fun r => data_appuntamento (s_row r))) in Hr.
    destruct (SQL.order_by_desc _ (search_rows m s)) as [|r0 rs];
      [destruct Hr | discriminate].
  - intros Hnone.
    destruct (SQL.order_by_desc (fun r => data_appuntamento (s_row r))
                (search_rows m s)) as [|r0 rs] eqn:Hsorted; [reflexivity|].
    assert (Hr0 : In r0 (search_rows m s)).
    { apply (order_by_desc_In (fun r => data_appuntamento (s_row r))).
      rewrite Hsorted. left. reflexivity. }
    apply search_rows_In in Hr0. destruct Hr0 as [Hp Hm].
    destruct (Hnone _ Hp Hm).
Qed.

(** Search answers 400 without asking the store when the matricola is
    missing or empty; 500 with the text of the error when the store
    throws; and, when the store answers, the 200 [found: false] body whose
    message embeds the matricola exactly when no stored appointment
    carries that matricola.  The database is never written. *)
Theorem search_outcomes (h : Host) (req : option string) (w : World) :
  (JS.truthy req = false ->
   search_appointment h req w
   = (Ret (status_json 400 (Failure "Matricola richiesta")), w)) /\
  (forall m, req = Some m -> m <> "" ->
     (forall fs, faults w = true :: fs ->
        fst (search_appointment h req w)
        = Ret (status_json 500
                 (FailureDetails "Errore interno del sistema. Riprovi tra poco."
                                 "store unavailable")) /\
        store (snd (search_appointment h req w)) = store w) /\
     (hd false (faults w) = false ->
        ((forall p, In p (pianificazioni (store w)) -> matricola p <> m) <->
         fst (search_appointment h req w)
         = Ret (json (NotFound
                  ("Non ho trovato alcun appuntamento per la matricola " ++ m
                   ++ ". Può verificare che sia corretta? La matricola si trova nella comunicazione che le abbiamo inviato.")))) /\
        store (snd (search_appointment h req w)) = store w)).
Proof.
  split.
  - intros Hfalsy. unfold search_appointment, try_catch. rewrite Hfalsy.
    reflexivity.
  - intros m -> Hne.
    assert (Hm : (m =? "")%string = false) by (apply String.eqb_neq; exact Hne).
    split.
    + intros fs Hf. unfold search_appointment, try_catch, bind, pool_query.
      simpl. rewrite Hm. simpl. rewrite Hf. split; reflexivity.
    + intros Hok. split; [|apply search_appointment_reads].
      assert (Hrun : fst (search_appointment h (Some m) w)
                     = match select_search m (store w) with
                       | [] => Ret (json (NotFound (not_found_message m)))
                       | appointment :: _ =>
                           Ret (json (Found (appointment_view h appointment)
                                            (found_message h appointment)))
                       end).
      { unfold search_appointment, try_catch, bind. simpl. rewrite Hm. simpl.
        rewrite pool_query_ok by exact Hok. unfold reading. simpl.
        destruct (select_search m (store w)); reflexivity. }
      rewrite Hrun. rewrite <- select_search_nil.
      destruct (select_search m (store w)); split; intros H;
        try reflexivity; discriminate.
Qed.

Lemma search_outcomes_witness :
  search_appointment Sample.utc_host (Some "") (request_world Sample.seeded [])
  = (Ret (status_json 400 (Failure "Matricola richiesta")),
     request_world Sample.seeded []) /\
  fst (search_appointment Sample.utc_host (Some "NOBODY")
         (request_world Sample.seeded [true]))
  = Ret (status_json 500
           (FailureDetails "Errore interno del sistema. Riprovi tra poco."
                           "store unavailable")) /\
  fst (search_appointment Sample.utc_host (Some "NOBODY")
         (request_world Sample.seeded []))
  = Ret (json (NotFound
           ("Non ho trovato alcun appuntamento per la matricola " ++ "NOBODY"
            ++ ". Può verificare che sia corretta? La matricola si trova nella comunicazione che le abbiamo inviato."))).
Proof.
  split; [|split].
  - apply (proj1 (search_outcomes Sample.utc_host (Some "")
                    (request_world Sample.seeded []))).
    reflexivity.
  - apply (proj1 (proj2 (search_outcomes Sample.utc_host (Some "NOBODY")
                           (request_world Sample.seeded [true]))
                    "NOBODY" eq_refl ltac:(discriminate)) [] eq_refl).
  - apply (proj1 (proj2 (proj2 (search_outcomes Sample.utc_host (Some "NOBODY")
                                  (request_world Sample.seeded []))
                           "NOBODY" eq_refl ltac:(discriminate)) eq_refl)).
    simpl. intros p [<- | [<- | [<- | []]]]; discriminate.
Defined.

(** ** The appointment list *)

Lemma insert_desc_sorted {A} (key : A -> Z) (a : A) (l : list A) :
  StronglySorted (descending key) l ->
  StronglySorted (descending key) (SQL.insert_desc key a l).
Proof.
  induction l as [|b l IH]; intros Hs; simpl.
  - constructor; constructor.
  - apply StronglySorted_inv in Hs. destruct Hs as [Hs Hb].
    destruct (key b <? key a) eqn:Hlt.
    + apply Z.ltb_lt in Hlt. constructor.
      * constructor; assumption.
      * constructor; [unfold descending; lia|].
        eapply Forall_impl; [|exact Hb]. unfold descending. intros c Hc. lia.
    + apply Z.ltb_ge in Hlt. constructor; [apply IH; exact Hs|].
      apply Forall_forall. intros c Hc. apply insert_desc_In in Hc.
      destruct Hc as [-> | Hc]; [exact Hlt|].
      rewrite Forall_forall in Hb. apply Hb. exact Hc.
Qed.

Lemma order_by_desc_sorted {A} (key : A -> Z) (l : list A) :
  StronglySorted (descending key) (SQL.order_by_desc key l).
Proof.
  induction l as [|a l IH]; simpl; [constructor|].
  apply insert_desc_sorted. exact IH.
Qed.

Lemma sorted_app_inv {A} (R : A -> A -> Prop) (l1 l2 : list A) :
  StronglySorted R (l1 ++ l2) ->
  StronglySorted R l1 /\ forall a b, In a l1 -> In b l2 -> R a b.
Proof.
  induction l1 as [|x l1 IH]; simpl; intros Hs.
  - split; [constructor|]. intros a b [].
  - apply StronglySorted_inv in Hs. destruct Hs as [Hs Hx].
    destruct (IH Hs) as [Hs1 Hcross]. split.
    + constructor; [exact Hs1|].
      apply Forall_forall. intros c Hc. rewrite Forall_forall in Hx.
      apply Hx. apply in_or_app. left. exact Hc.
    + intros a b [<- | Ha] Hb.
      * rewrite Forall_forall in Hx. apply Hx. apply in_or_app. right. exact Hb.
      * apply Hcross; assumption.
Qed.

(** The list answers with the 50 most recent appointments at most, most
    recent first, and their number: every listed row is a stored
    appointment, and a stored appointment that is not listed is dated no
    later than any listed one.  The database is not written; when the
    store throws the answer is 500 with the text of the error. *)
Theorem list_appointments_most_recent (w : World) :
  (hd false (faults w) = false ->
   exists rows,
     fst (list_appointments w)
     = Ret {| list_status := 200;
              list_body := Listed rows (Z.of_nat (List.length rows)) |} /\
     (List.length rows <= 50)%nat /\
     StronglySorted (descending (fun r => data_appuntamento (a_row r))) rows /\
     (forall r, In r rows -> In (a_row r) (pianificazioni (store w))) /\
     (forall p, In p (pianificazioni (store w)) ->
        (exists r, In r rows /\ a_row r = p) \/
        (forall r, In r rows ->
                   data_appuntamento p <= data_appuntamento (a_row r)))) /\
  (forall fs, faults w = true :: fs ->
     fst (list_appointments w)
     = Ret {| list_status := 500;
              list_body := ListFailure "store unavailable" |}) /\
  store (snd (list_appointments w)) = store w.
Proof.
  split; [|split].
  - intros Hok. exists (select_appointments (store w)).
    split; [|split; [|split; [|split]]].
    + unfold list_appointments, try_catch, bind, pool_query_reading, ret.
      destruct (faults w) as [|[|] fs]; simpl in *;
        try discriminate; reflexivity.
    + unfold select_appointments. apply firstn_le_length.
    + unfold select_appointments.
      pose proof (order_by_desc_sorted (fun r => data_appuntamento (a_row r))
                    (map (fun x => {| a_row := fst x; a_commessa := snd x |})
                         (SQL.left_join SQL.on_commessa
                            (pianificazioni (store w)) (commesse (store w)))))
        as Hsorted.
      rewrite <- (firstn_skipn 50) in Hsorted.
      apply sorted_app_inv in Hsorted. exact (proj1 Hsorted).
    + intros r Hr. unfold select_appointments in Hr.
      apply firstn_incl in Hr.
      apply (proj1 (order_by_desc_In _ _ _)) in Hr.
      apply in_map_iff in Hr. destruct Hr as ([p oc] & <- & Hin). simpl.
      apply left_join_In in Hin. exact Hin.
    + intros p Hp.
      destruct (left_join_total SQL.on_commessa _ (commesse (store w)) p Hp)
        as (oc & Hin).
      set (key := fun r => data_appuntamento (a_row r)).
      set (joined := map (fun x => {| a_row := fst x; a_commessa := snd x |})
                         (SQL.left_join SQL.on_commessa
                            (pianificazioni (store w)) (commesse (store w)))).
      assert (Hr : In {| a_row := p; a_commessa := oc |}
                      (SQL.order_by_desc key joined)).
      { apply order_by_desc_In. unfold joined. apply in_map_iff.
        exists (p, oc). split; [reflexivity|exact Hin]. }
      pose proof (order_by_desc_sorted key joined) as Hsorted.
      rewrite <- (firstn_skipn 50) in Hsorted, Hr.
      apply sorted_app_inv in Hsorted. destruct Hsorted as [_ Hcross].
      apply in_app_or in Hr. destruct Hr as [Hr | Hr].
      * left. exists {| a_row := p; a_commessa := oc |}.
        split; [exact Hr|reflexivity].
      * right. intros r Hin'. exact (Hcross _ _ Hin' Hr).
  - intros fs Hf. unfold list_appointments, try_catch, bind, pool_query_reading.
    rewrite Hf. reflexivity.
  - unfold list_appointments, try_catch, bind, pool_query_reading, ret.
    destruct (faults w) as [|[|] fs]; reflexivity.
Qed.

Lemma list_appointments_most_recent_witness :
  exists rows,
    fst (list_appointments (request_world Sample.seeded []))
    = Ret {| list_status := 200;
             list_body := Listed rows (Z.of_nat (List.length rows)) |} /\
    (List.length rows <= 50)%nat /\
    StronglySorted (descending (fun r => data_appuntamento (a_row r))) rows /\
    (forall r, In r rows -> In (a_row r) (pianificazioni Sample.seeded)) /\
    (forall p, In p (pianificazioni Sample.seeded) ->
       (exists r, In r rows /\ a_row r = p) \/
       (forall r, In r rows ->
                  data_appuntamento p <= data_appuntamento (a_row r))).
Proof.
  apply (proj1 (list_appointments_most_recent (request_world Sample.seeded []))).
  reflexivity.
Defined.

(** ** General information *)

Lemma own_property_none (o : list (string * string)) (key : string) :
  (forall text, ~ In (key, text) o) -> own_property o key = None.
Proof.
  induction o as [|[k v] o IH]; intros Hnone; simpl; [reflexivity|].
  destruct (k =? key)%string eqn:Hk.
  - apply String.eqb_eq in Hk. subst k. destruct (Hnone v). left. reflexivity.
  - apply IH. intros text Hin. apply (Hnone text). right. exact Hin.
Qed.

(** The information endpoint always answers 200 with [success: true].
    For one of its six topics [info] and [message] are the same text, the
    one of the topic; for a missing topic, or one that is neither a topic
    nor the name of a member every object inherits, they are the two
    fallback texts; for the name of an inherited member ([constructor],
    [toString], [__proto__], ...) they are that member, not a text. *)
Theorem get_info_answers (key : string) :
  (forall text, In (key, text) info ->
     get_info (Some key)
     = {| info_status := 200; info_success := true;
          info_info := Text text; info_message := Text text |}) /\
  (In key object_prototype ->
     get_info (Some key)
     = {| info_status := 200; info_success := true;
          info_info := Inherited key; info_message := Inherited key |}) /\
  ((forall text, ~ In (key, text) info) -> ~ In key object_prototype ->
     get_info (Some key)
     = {| info_status := 200; info_success := true;
          info_info :=
            Text "Informazione non disponibile. Può contattare il nostro ufficio per maggiori dettagli.";
          info_message :=
            Text "Per questa informazione specifica la invito a contattare direttamente il nostro ufficio tecnico." |}) /\
  get_info None
  = {| info_status := 200; info_success := true;
       info_info :=
         Text "Informazione non disponibile. Può contattare il nostro ufficio per maggiori dettagli.";
       info_message :=
         Text "Per questa informazione specifica la invito a contattare direttamente il nostro ufficio tecnico." |}.
Proof.
  split; [|split; [|split]].
  - intros text Hin. unfold info in Hin. simpl in Hin.
    repeat (destruct Hin as [Heq | Hin];
            [inversion Heq; subst; reflexivity|]).
    destruct Hin.
  - intros Hin. unfold object_prototype in Hin. simpl in Hin.
    repeat (destruct Hin as [<- | Hin]; [reflexivity|]).
    destruct Hin.
  - intros Hown Hproto. unfold get_info, get_property.
    rewrite (own_property_none info key Hown).
    assert (Hex : existsb (String.eqb key) object_prototype = false).
    { destruct (existsb (String.eqb key) object_prototype) eqn:Hex;
        [|reflexivity].
      apply existsb_exists in Hex. destruct Hex as (name & Hin & Heq).
      apply String.eqb_eq in Heq. subst name. destruct (Hproto Hin). }
    rewrite Hex. reflexivity.
  - reflexivity.
Qed.

Lemma get_info_answers_witness :
  get_info (Some "costi")
  = {| info_status := 200; info_success := true;
       info_info :=
         Text "L'intervento di sostituzione programmato è completamente gratuito e obbligatorio secondo normativa.";
       info_message :=
         Text "L'intervento di sostituzione programmato è completamente gratuito e obbligatorio secondo normativa." |} /\
  get_info (Some "toString")
  = {| info_status := 200; info_success := true;
       info_info := Inherited "toString";
       info_message := Inherited "toString" |} /\
  get_info (Some "orari")
  = {| info_status := 200; info_success := true;
       info_info :=
         Text "Informazione non disponibile. Può contattare il nostro ufficio per maggiori dettagli.";
       info_message :=
         Text "Per questa informazione specifica la invito a contattare direttamente il nostro ufficio tecnico." |}.
Proof.
  split; [|split].
  - apply (proj1 (get_info_answers "costi")). simpl. tauto.
  - apply (proj1 (proj2 (get_info_answers "toString"))). simpl. tauto.
  - apply (proj1 (proj2 (proj2 (get_info_answers "orari")))).
    + intros text Hin. simpl in Hin.
      repeat (destruct Hin as [Heq | Hin]; [discriminate|]). exact Hin.
    + intros Hin. simpl in Hin.
      repeat (destruct Hin as [Heq | Hin]; [discriminate|]). exact Hin.
Defined.

(** ** The offered dates *)

(** The loop as a filter: the days [i] to [i + n - 1] after today that are
    not a Sunday in local time, in order. *)
Lemma availableDatesLoop_filter (h : Host) (today : Z) (n : nat) :
  forall (i : Z) (acc : list SuggestedDate),
    availableDatesLoop h today i n acc
    = (acc ++ map (fun k => suggested h (addDays today k))
                  (filter (fun k => negb (getDay h (addDays today k) =? 0))
                          (zseq i n)))%list.
Proof.
  induction n as [|n IH]; intros i acc; simpl.
  - rewrite app_nil_r. reflexivity.
  - rewrite IH. destruct (getDay h (addDays today i) =? 0); simpl.
    + reflexivity.
    + rewrite <- app_assoc. reflexivity.
Qed.

Lemma getDay_addDays (h : Host) (t k : Z) :
  getDay h (addDays t k) = (getDay h t + k) mod 7.
Proof.
  unfold getDay, weekday. rewrite localDate_addDays.
  replace (localDate h t + k + 4) with (localDate h t + 4 + k) by lia.
  rewrite Zplus_mod_idemp_l. reflexivity.
Qed.

Lemma getDay_range (h : Host) (t : Z) : 0 <= getDay h t < 7.
Proof. unfold getDay, weekday. apply Z.mod_pos_bound. lia. Qed.

(** The days offered from a given day of the week. *)
Lemma offered_days (h : Host) (i : Z) (n : nat) :
  filter (fun k => negb (getDay h (addDays (now h) k) =? 0)) (zseq i n)
  = filter (fun k => negb ((getDay h (now h) + k) mod 7 =? 0)) (zseq i n).
Proof.
  apply filter_ext. intros k. rewrite getDay_addDays. reflexivity.
Qed.


(** The first ten days that are not a Sunday, counted from a day of the
    week [r]: exactly ten, ascending, within twelve days, none skipped. *)
Lemma first_offered_days (r : Z) :
  0 <= r < 7 ->
  let days := firstn 10 (offered r 1 30) in
  List.length days = 10%nat /\
  StronglySorted Z.lt days /\
  (forall k, In k days -> 1 <= k <= 12 /\ (r + k) mod 7 <> 0) /\
  (forall k k', 1 <= k <= k' -> In k' days -> (r + k) mod 7 <> 0 -> In k days).
Proof.
  intros Hr days. revert days.
  assert (r = 0 \/ r = 1 \/ r = 2 \/ r = 3 \/ r = 4 \/ r = 5 \/ r = 6)
    as [-> | [-> | [-> | [-> | [-> | [-> | ->]]]]]] by lia;
    intros days; vm_compute in days; subst days;
    (split; [reflexivity|]);
    (split; [repeat constructor|]);
    (split;
     [ intros k Hin; simpl in Hin;
       repeat (destruct Hin as [<- | Hin]; [split; [lia | discriminate]|]);
       destruct Hin
     | intros k k' Hk Hin Hoff;
       assert (Hk12 : k' <= 12)
         by (simpl in Hin;
             repeat (destruct Hin as [<- | Hin]; [lia|]); destruct Hin);
       assert (k = 1 \/ k = 2 \/ k = 3 \/ k = 4 \/ k = 5 \/ k = 6 \/ k = 7 \/
               k = 8 \/ k = 9 \/ k = 10 \/ k = 11 \/ k = 12)
         as Hcases by lia;
       repeat (destruct Hcases as [-> | Hcases]); try subst k;
       first [ simpl; tauto
             | exfalso; apply Hoff; reflexivity
             | exfalso; simpl in Hin;
               repeat (destruct Hin as [<- | Hin]; [lia|]); destruct Hin ] ]).
Qed.

(** Whatever the clock and the zone, the current-date endpoint offers
    exactly 10 dates: the 10 first local calendar days after today that
    are not a Sunday, in ascending order and none further than 12 days
    ahead, each with its local date as the host prints it and the
    Italian name of its day of the week; with them come the UTC date of
    the clock, the local date of today and the five time slots.  The ISO
    date of an offered day is the UTC date of the same wall-clock time
    on that day, and is not stated here. *)
Theorem get_current_date_offers_ten (h : Host) :
  let today := localDate h (now h) in
  exists message available days,
    get_current_date h
    = json (CurrentDate (isoDate (now h)) (italian_date h today) message
              available
              ["08:00-12:00"; "09:00-12:00"; "13:00-17:00";
               "14:00-17:00"; "14:00-18:00"]) /\
    List.length available = 10%nat /\
    map formatted available = map (fun k => italian_date h (today + k)) days /\
    map day_name available = map (fun k => giorno (weekday (today + k))) days /\
    StronglySorted Z.lt days /\
    (forall k, In k days -> 1 <= k <= 12 /\ weekday (today + k) <> 0) /\
    (forall k k', 1 <= k <= k' -> In k' days ->
       weekday (today + k) <> 0 -> In k days).
Proof.
  intros today.
  destruct (first_offered_days (getDay h (now h)) (getDay_range h (now h)))
    as (Hlen & Hsorted & Hin & Hall).
  assert (Hday : forall k, (getDay h (now h) + k) mod 7 = weekday (today + k)).
  { intros k. rewrite <- getDay_addDays. unfold getDay.
    rewrite localDate_addDays. reflexivity. }
  eexists.
  exists (map (fun k => suggested h (addDays (now h) k))
              (firstn 10 (offered (getDay h (now h)) 1 30))).
  exists (firstn 10 (offered (getDay h (now h)) 1 30)).
  split; [|split; [|split; [|split; [|split; [exact Hsorted|split]]]]].
  - unfold get_current_date, JS.slice_to.
    rewrite availableDatesLoop_filter, offered_days. cbn [app].
    rewrite firstn_map. unfold offered.
    rewrite toLocaleDateString_italian. reflexivity.
  - rewrite length_map. exact Hlen.
  - rewrite map_map. apply map_ext. intros k. unfold suggested.
    cbn [formatted]. rewrite toLocaleDateString_italian, localDate_addDays.
    reflexivity.
  - rewrite map_map. apply map_ext. intros k. unfold suggested.
    cbn [day_name]. unfold weekdayName, getDay. rewrite localDate_addDays.
    reflexivity.
  - intros k Hk. destruct (Hin k Hk) as [Hrange Hoff].
    split; [exact Hrange|]. rewrite <- Hday. exact Hoff.
  - intros k k' Hk Hk' Hoff. apply (Hall k k' Hk Hk').
    rewrite Hday. exact Hoff.
Qed.

(** The suggestions of a refused date are the five first dates that the
    current-date endpoint offers at the same moment: exactly five,
    whatever the clock and the zone. *)
Theorem getSuggestedDates_first_five (h : Host) :
  List.length (getSuggestedDates h) = 5%nat /\
  exists message available_dates,
    get_current_date h
    = json (CurrentDate (isoDate (now h)) (toLocaleDateString h (now h)) message
              available_dates
              ["08:00-12:00"; "09:00-12:00"; "13:00-17:00";
               "14:00-17:00"; "14:00-18:00"]) /\
    getSuggestedDates h = firstn 5 available_dates.
Proof.
  assert (Hprefix : firstn 5 (offered (getDay h (now h)) 1 7)
                    = firstn 5 (firstn 10 (offered (getDay h (now h)) 1 30))
                    /\ List.length (firstn 5 (offered (getDay h (now h)) 1 7))
                       = 5%nat).
  { pose proof (getDay_range h (now h)) as Hrange.
    remember (getDay h (now h)) as r eqn:Hr. clear Hr.
    assert (r = 0 \/ r = 1 \/ r = 2 \/ r = 3 \/ r = 4 \/ r = 5 \/ r = 6)
      as [-> | [-> | [-> | [-> | [-> | [-> | ->]]]]]] by lia;
      split; vm_compute; reflexivity. }
  destruct Hprefix as [Hprefix Hfive].
  assert (Hsuggested : getSuggestedDates h
                       = map (fun k => suggested h (addDays (now h) k))
                             (firstn 5 (offered (getDay h (now h)) 1 7))).
  { unfold getSuggestedDates, JS.slice_to.
    rewrite availableDatesLoop_filter, offered_days. cbn [app].
    rewrite firstn_map. unfold offered. reflexivity. }
  split.
  - rewrite Hsuggested, length_map. exact Hfive.
  - eexists.
    exists (map (fun k => suggested h (addDays (now h) k))
                (firstn 10 (offered (getDay h (now h)) 1 30))).
    split.
    + unfold get_current_date, JS.slice_to.
      rewrite availableDatesLoop_filter, offered_days. cbn [app].
      rewrite firstn_map. unfold offered. reflexivity.
    + rewrite Hsuggested, firstn_map, Hprefix. reflexivity.
Qed.

(** On a host from UTC eastwards, a Sunday after today is refused with
    the reason [sunday] and the five suggestions. *)
Theorem validate_refuses_sundays (h : Host) (d : Z) (time_slot : option string) :
  0 <= tzOffset h < 1440 ->
  isoDate (now h) < d ->
  weekday d = 0 ->
  validate_appointment_date h (Some d) time_slot
  = json (Invalid "sunday"
            "Non effettuiamo interventi di domenica. Le posso proporre il lunedì successivo o un altro giorno."
            (getSuggestedDates h)) /\
  List.length (getSuggestedDates h) = 5%nat.
Proof.
  intros Htz Hd Hw. split; [|apply getSuggestedDates_first_five].
  unfold validate_appointment_date.
  assert (Hfuture : (parse d <=? now h) = false).
  { apply Z.leb_gt. unfold parse, isoDate, msPerDay in *.
    pose proof (Z.mod_pos_bound (now h) 86400000 ltac:(lia)).
    pose proof (Z.div_mod (now h) 86400000 ltac:(lia)). nia. }
  rewrite Hfuture. unfold getDay. rewrite localDate_parse by exact Htz.
  rewrite Hw. reflexivity.
Qed.

Lemma validate_refuses_sundays_witness :
  validate_appointment_date Sample.rome_host (Some 19932) None
  = json (Invalid "sunday"
            "Non effettuiamo interventi di domenica. Le posso proporre il lunedì successivo o un altro giorno."
            (getSuggestedDates Sample.rome_host)) /\
  List.length (getSuggestedDates Sample.rome_host) = 5%nat.
Proof.
  apply (validate_refuses_sundays Sample.rome_host 19932 None).
  - simpl. lia.
  - vm_compute. reflexivity.
  - reflexivity.
Defined.

(** ** Dates in the answers *)

(** Midnight UTC of a date falls on the day before in every zone west of
    UTC. *)
Lemma localDate_parse_west (h : Host) (d : Z) :
  -1440 <= tzOffset h < 0 -> localDate h (parse d) = d - 1.
Proof.
  unfold localDate, parse, msPerDay, msPerMinute. intros Htz.
  replace (d * 86400000 + tzOffset h * 60000)
    with (tzOffset h * 60000 + 86400000 + (d - 1) * 86400000) by lia.
  rewrite Z.div_add by lia. rewrite Z.div_small by lia. reflexivity.
Qed.

(** The date that search and confirm show for a stored appointment is
    its calendar date on every host, printed as the host prints dates,
    whereas the date that a successful reschedule echoes is the requested
    date on a host from UTC eastwards and the day before it on a host
    west of UTC. *)
Theorem dates_in_messages (h : Host) (gateway : Gateway)
    (id : option Z) (m : option string) (d : Z) (f : string)
    (reason : option string) (w : World) (p : Pianificazione)
    (r : SearchRow) :
  v_data (appointment_view h r) = italian_date h (data_appuntamento (s_row r)) /\
  confirm_message h (data_appuntamento p) (fascia_oraria p)
  = "Perfetto! Il suo appuntamento per "
    ++ italian_date h (data_appuntamento p)
    ++ " nella fascia oraria " ++ fascia_oraria p
    ++ " è stato confermato. Il nostro operatore è stato notificato e si presenterà nell'orario concordato. Ha altre domande?" /\
  (healthy w ->
   In p (pianificazioni (store w)) -> SQL.targets id m p = true ->
   select_availability d f (store w) < 5 ->
   exists shown,
     fst (reschedule_appointment h gateway id m d f reason w)
     = Ret (json (Success
              ("Perfetto! Ho spostato il suo appuntamento al "
               ++ italian_date h shown
               ++ " nella fascia oraria " ++ f
               ++ ". Riceverà una nuova comunicazione con i dettagli aggiornati e il nostro operatore è stato notificato della modifica. Desidera altro?"))) /\
     (0 <= tzOffset h < 1440 -> shown = d) /\
     (-1440 <= tzOffset h < 0 -> shown = d - 1)).
Proof.
  split; [|split].
  - unfold appointment_view. cbn [v_data].
    rewrite toLocaleDateString_italian, localDate_ofColumn. reflexivity.
  - unfold confirm_message.
    rewrite toLocaleDateString_italian, localDate_ofColumn. reflexivity.
  - intros Hw Hp Ht Hfree.
    destruct (reschedule_appointment_run h gateway id m d f reason w p
                (healthy_nth w 0 Hw) (healthy_nth w 1 Hw) (healthy_nth w 3 Hw)
                Hp Ht Hfree) as (w' & -> & _).
    exists (localDate h (parse d)). split; [|split].
    + unfold reschedule_message. rewrite toLocaleDateString_italian.
      reflexivity.
    + apply localDate_parse.
    + apply localDate_parse_west.
Qed.

Lemma dates_in_messages_witness :
  exists shown,
    fst (reschedule_appointment Sample.new_york_host Sample.gateway_up
           (Some 1) None Sample.d_2024_08_01 "14:00-18:00" None
           (request_world Sample.seeded []))
    = Ret (json (Success
             ("Perfetto! Ho spostato il suo appuntamento al "
              ++ italian_date Sample.new_york_host shown
              ++ " nella fascia oraria " ++ "14:00-18:00"
              ++ ". Riceverà una nuova comunicazione con i dettagli aggiornati e il nostro operatore è stato notificato della modifica. Desidera altro?"))) /\
    (0 <= tzOffset Sample.new_york_host < 1440 -> shown = Sample.d_2024_08_01) /\
    (-1440 <= tzOffset Sample.new_york_host < 0 ->
     shown = Sample.d_2024_08_01 - 1).
Proof.
  apply (proj2 (proj2 (dates_in_messages Sample.new_york_host Sample.gateway_up
                         (Some 1) None Sample.d_2024_08_01 "14:00-18:00" None
                         (request_world Sample.seeded [])
                         (Sample.row 1 "TEST123456" Sample.d_2024_07_25
                            "09:00-12:00" "programmato" (Some 7))
                         {| s_row := Sample.confirmed_row;
                            s_commessa := None; s_operatore := None |}))).
  - reflexivity.
  - simpl. tauto.
  - reflexivity.
  - vm_compute. reflexivity.
Defined.

(** ** Test appointments and search *)

(** A row without work order and without operator is joined to none. *)
Lemma search_rows_unassigned (m : string) (s : Store) (r : SearchRow) :
  In r (search_rows m s) ->
  commessa_id (s_row r) = None -> operatore_id (s_row r) = None ->
  s_commessa r = None /\ s_operatore r = None.
Proof.
  unfold search_rows. intros Hin Hc Ho. apply filter_In in Hin.
  destruct Hin as [Hin _]. apply in_map_iff in Hin.
  destruct Hin as ([[p oc] oo] & <- & Hin). simpl in *. split.
  - destruct oc as [c|]; [|reflexivity].
    apply left_join_In in Hin. apply left_join_on in Hin.
    unfold SQL.on_commessa in Hin. rewrite Hc in Hin. discriminate.
  - destruct oo as [o|]; [|reflexivity].
    apply left_join_on in Hin. simpl in Hin.
    unfold SQL.on_operatore in Hin. rewrite Ho in Hin. discriminate.
Qed.

(** The row that search returns, when it returns one. *)
Lemma select_search_head (m : string) (s : Store) (r : SearchRow)
    (rest : list SearchRow) :
  select_search m s = r :: rest ->
  rest = [] /\ In r (search_rows m s) /\
  forall p, In p (pianificazioni s) -> matricola p = m ->
            data_appuntamento p <= data_appuntamento (s_row r).
Proof.
  unfold select_search. intros Hsel.
  pose proof (order_by_desc_head (fun r => data_appuntamento (s_row r))
                (search_rows m s)) as Hmax.
  destruct (SQL.order_by_desc (fun r => data_appuntamento (s_row r))
              (search_rows m s)) as [|r0 rs] eqn:Hsorted; [discriminate|].
  simpl in Hsel. inversion Hsel; subst r0 rest. clear Hsel.
  split; [reflexivity|]. split.
  - apply (proj1 (order_by_desc_In (fun r => data_appuntamento (s_row r)) r _)).
    rewrite Hsorted. left. reflexivity.
  - intros p Hp Hm.
    destruct (search_rows_total m s p Hp Hm) as (rp & Hrp & <-).
    apply (proj2 (order_by_desc_In (fun r => data_appuntamento (s_row r)) rp _))
      in Hrp.
    rewrite Hsorted in Hrp. destruct Hrp as [<- | Hrp]; [lia|].
    exact (Hmax rp Hrp).
Qed.

Lemma search_appointment_answer (h : Host) (m : string) (w : World) :
  m <> "" -> hd false (faults w) = false ->
  fst (search_appointment h (Some m) w)
  = match select_search m (store w) with
    | [] => Ret (json (NotFound (not_found_message m)))
    | appointment :: _ =>
        Ret (json (Found (appointment_view h appointment)
                         (found_message h appointment)))
    end.
Proof.
  intros Hne Hok.
  assert (Hm : (m =? "")%string = false) by (apply String.eqb_neq; exact Hne).
  unfold search_appointment, try_catch, bind. simpl. rewrite Hm. simpl.
  rewrite pool_query_ok by exact Hok. unfold reading. simpl.
  destruct (select_search m (store w)); reflexivity.
Qed.

Lemma test_appointment_run (w : World) :
  hd false (faults w) = false ->
  test_appointment w
  = (Ret (json (Created "Appuntamento di test creato"
                  (test_row (next_id (pianificazioni (store w)))))),
     {| store := with_pianificazioni (store w)
                   (pianificazioni (store w)
                    ++ [test_row (next_id (pianificazioni (store w)))]);
        faults := tl (faults w);
        issued := InsertTestAppointment :: issued w;
        outbox := outbox w |}).
Proof.
  intros Hok. unfold test_appointment.
  erewrite try_catch_run; [reflexivity|].
  erewrite bind_run; [|apply pool_query_ok; exact Hok].
  reflexivity.
Qed.

(** After a test appointment has been created, a search for TEST123456
    finds an appointment of that meter dated 25 July 2024 or later; when
    no appointment of that meter was stored before, it is the test
    appointment itself: Mario Rossi Test, Via Roma 123, Milano, 25 July
    2024 as the host prints it, 09:00-12:00, operator to be assigned,
    and the message
    names its activity, which it has none, as "null".  The insertion adds
    one row at the end of the table and keeps the rows that were there. *)
Theorem test_appointment_is_found (h : Host) (w : World) :
  nth 0 (faults w) false = false ->
  nth 1 (faults w) false = false ->
  pianificazioni (store (snd (test_appointment w)))
  = (pianificazioni (store w)
     ++ [test_row (next_id (pianificazioni (store w)))])%list /\
  exists r,
    fst (search_appointment h (Some "TEST123456") (snd (test_appointment w)))
    = Ret (json (Found (appointment_view h r) (found_message h r))) /\
    matricola (s_row r) = "TEST123456" /\
    19929 <= data_appuntamento (s_row r) /\
    ((forall q, In q (pianificazioni (store w)) -> matricola q <> "TEST123456") ->
     appointment_view h r
     = {| v_id := next_id (pianificazioni (store w));
          v_nome := "Mario Rossi Test";
          v_indirizzo := "Via Roma 123";
          v_comune := "Milano";
          v_matricola := "TEST123456";
          v_data := italian_date h 19929;
          v_fascia_oraria := "09:00-12:00";
          v_tipo_attivita := None;
          v_committente := None;
          v_operatore := "Da assegnare";
          v_telefono := "3331234567" |} /\
     found_message h r
     = "Perfetto! Ho trovato il suo appuntamento per null presso Via Roma 123, Milano. L'appuntamento è programmato per "
       ++ italian_date h 19929 ++ " nella fascia oraria 09:00-12:00.").
Proof.
  intros H0 H1.
  rewrite test_appointment_run by (rewrite hd_nth0; exact H0).
  cbn [snd store pianificazioni with_pianificazioni].
  split; [reflexivity|].
  set (rows := pianificazioni (store w)).
  set (p := test_row (next_id rows)).
  set (w1 := {| store := with_pianificazioni (store w) (rows ++ [p]);
                faults := tl (faults w);
                issued := InsertTestAppointment :: issued w;
                outbox := outbox w |}).
  assert (Hp : In p (pianificazioni (store w1)))
    by (simpl; apply in_or_app; right; left; reflexivity).
  destruct (search_rows_total "TEST123456" (store w1) p Hp eq_refl)
    as (rp & Hrp & _).
  destruct (select_search "TEST123456" (store w1)) as [|r rest] eqn:Hsel.
  { apply (proj2 (order_by_desc_In (fun r => data_appuntamento (s_row r)) rp _))
      in Hrp.
    unfold select_search in Hsel.
    destruct (SQL.order_by_desc _ (search_rows "TEST123456" (store w1)));
      [destruct Hrp | discriminate]. }
  destruct (select_search_head _ _ _ _ Hsel) as (_ & Hr & Hmax).
  exists r. split; [|split; [|split]].
  - rewrite search_appointment_answer;
      [|discriminate|simpl; rewrite hd_tl1; exact H1].
    rewrite Hsel. reflexivity.
  - apply (search_rows_In _ _ _ Hr).
  - exact (Hmax p Hp eq_refl).
  - intros Hfresh.
    pose proof (search_rows_In _ _ _ Hr) as [Hstored Hm].
    assert (Hrow : s_row r = p).
    { simpl in Hstored. apply in_app_or in Hstored.
      destruct Hstored as [Hold | [Heq | []]]; [|symmetry; exact Heq].
      destruct (Hfresh _ Hold Hm). }
    destruct (search_rows_unassigned _ _ _ Hr) as [Hc Ho];
      [rewrite Hrow; reflexivity | rewrite Hrow; reflexivity |].
    destruct r as [rr rc ro]. simpl in Hrow, Hc, Ho. subst rr rc ro.
    unfold appointment_view, found_message. cbn [s_row].
    rewrite toLocaleDateString_italian, localDate_ofColumn.
    split; reflexivity.
Qed.

Lemma test_appointment_is_found_witness :
  pianificazioni (store (snd (test_appointment (request_world Sample.empty []))))
  = (pianificazioni Sample.empty ++ [test_row (next_id [])])%list /\
  exists r,
    fst (search_appointment Sample.rome_host_dd_MM (Some "TEST123456")
           (snd (test_appointment (request_world Sample.empty []))))
    = Ret (json (Found (appointment_view Sample.rome_host_dd_MM r)
                       (found_message Sample.rome_host_dd_MM r))) /\
    matricola (s_row r) = "TEST123456" /\
    19929 <= data_appuntamento (s_row r) /\
    ((forall q, In q (pianificazioni Sample.empty) ->
                matricola q <> "TEST123456") ->
     appointment_view Sample.rome_host_dd_MM r
     = {| v_id := next_id [];
          v_nome := "Mario Rossi Test";
          v_indirizzo := "Via Roma 123";
          v_comune := "Milano";
          v_matricola := "TEST123456";
          v_data := "25/07/2024";
          v_fascia_oraria := "09:00-12:00";
          v_tipo_attivita := None;
          v_committente := None;
          v_operatore := "Da assegnare";
          v_telefono := "3331234567" |} /\
     found_message Sample.rome_host_dd_MM r
     = "Perfetto! Ho trovato il suo appuntamento per null presso Via Roma 123, Milano. L'appuntamento è programmato per 25/07/2024 nella fascia oraria 09:00-12:00.").
Proof.
  apply (test_appointment_is_found Sample.rome_host_dd_MM
           (request_world Sample.empty [])); reflexivity.
Defined.

(** ** Requests that match no appointment *)

Lemma matched_In (id : option Z) (m : option string) (s : Store) :
  matched id m s <> [] ->
  exists p, In p (pianificazioni s) /\ SQL.targets id m p = true.
Proof.
  unfold matched. intros Hne.
  destruct (filter (SQL.targets id m) (pianificazioni s)) as [|p ps] eqn:Hf;
    [destruct (Hne eq_refl)|].
  exists p. apply filter_In. rewrite Hf. left. reflexivity.
Qed.

Lemma select_target_none (id : option Z) (m : option string) (s : Store) :
  matched id m s = [] -> select_target id m s = [].
Proof.
  intros Hm. destruct (select_target id m s) as [|a rest] eqn:Hsel;
    [reflexivity|].
  assert (Ha : In a (select_target id m s)) by (rewrite Hsel; left; reflexivity).
  apply select_target_In in Ha. destruct Ha as [Hin Ht].
  assert (Hmatched : In (t_row a) (matched id m s))
    by (apply filter_In; split; assumption).
  rewrite Hm in Hmatched. destruct Hmatched.
Qed.

Lemma map_unmatched {A} (cond : A -> bool) (set : A -> A) (l : list A) :
  filter cond l = [] -> map (fun p => if cond p then set p else p) l = l.
Proof.
  induction l as [|a l IH]; simpl; [reflexivity|].
  destruct (cond a); [discriminate|].
  intros Hf. rewrite (IH Hf). reflexivity.
Qed.

(** An update whose condition selects no row returns no row and leaves
    the database as it was. *)
Lemma update_where_none (cond : Pianificazione -> bool)
    (set : Pianificazione -> Pianificazione) (s : Store) :
  filter cond (pianificazioni s) = [] -> update_where cond set s = ([], s).
Proof.
  unfold update_where. intros Hf. rewrite Hf, (map_unmatched _ _ _ Hf).
  destruct s; reflexivity.
Qed.

Lemma confirm_appointment_unmatched (h : Host) (gateway : Gateway)
    (id : option Z) (m : option string) (w : World) :
  hd false (faults w) = false -> matched id m (store w) = [] ->
  confirm_appointment h gateway id m w
  = (Ret not_found_404,
     {| store := store w; faults := tl (faults w);
        issued := SelectTarget id m :: issued w; outbox := outbox w |}).
Proof.
  intros Hok Hm. unfold confirm_appointment. apply try_catch_run.
  erewrite bind_run; [|apply pool_query_ok; exact Hok].
  unfold reading. cbn [fst snd]. rewrite (select_target_none _ _ _ Hm).
  reflexivity.
Qed.

Lemma reschedule_appointment_unmatched (h : Host) (gateway : Gateway)
    (id : option Z) (m : option string) (d : Z) (f : string)
    (reason : option string) (w : World) :
  hd false (faults w) = false -> matched id m (store w) = [] ->
  reschedule_appointment h gateway id m d f reason w
  = (Ret not_found_404,
     {| store := store w; faults := tl (faults w);
        issued := SelectTarget id m :: issued w; outbox := outbox w |}).
Proof.
  intros Hok Hm. unfold reschedule_appointment. apply try_catch_run.
  erewrite bind_run; [|apply pool_query_ok; exact Hok].
  unfold reading. cbn [fst snd]. rewrite (select_target_none _ _ _ Hm).
  reflexivity.
Qed.

Lemma cs_confirm_appointment_unmatched (h : Host)
    (id : option Z) (m : option string) (w : World) :
  nth 1 (faults w) false = false -> matched id m (store w) = [] ->
  CompleteSolution.confirm_appointment h id m w
  = (Ret not_found_404,
     {| store := store w; faults := tl (tl (faults w));
        issued := UpdateConfirm id m :: AlterAddStato :: issued w;
        outbox := outbox w |}).
Proof.
  intros H1 Hm. unfold CompleteSolution.confirm_appointment.
  apply try_catch_run.
  rewrite (bind_run _ _ _ _ _ (ignore_errors_alter AlterAddStato w)).
  erewrite bind_run;
    [|apply pool_query_ok; simpl; rewrite hd_tl1; exact H1].
  cbn [store]. unfold update_confirm.
  rewrite (update_where_none _ _ _ Hm). reflexivity.
Qed.

Lemma cs_reschedule_appointment_unmatched (h : Host)
    (id : option Z) (m : option string) (d : Z) (f : string)
    (reason : option string) (w : World) :
  nth 0 (faults w) false = false -> nth 2 (faults w) false = false ->
  matched id m (store w) = [] -> select_availability d f (store w) < 5 ->
  CompleteSolution.reschedule_appointment h id m d f reason w
  = (Ret not_found_404,
     {| store := store w; faults := tl (tl (tl (faults w)));
        issued := UpdateReschedule d f
                    (JS.or_else reason "Riprogrammato su richiesta cliente")
                    id m
                  :: AlterAddNote :: SelectAvailability d f :: issued w;
        outbox := outbox w |}).
Proof.
  intros H0 H2 Hm Hfree. unfold CompleteSolution.reschedule_appointment.
  apply try_catch_run.
  erewrite bind_run;
    [|apply pool_query_ok; rewrite hd_nth0; exact H0].
  unfold reading. cbn [fst snd]. rewrite (availability_free _ Hfree).
  cbv zeta.
  erewrite bind_run; [|apply ignore_errors_alter].
  erewrite bind_run;
    [|apply pool_query_ok; simpl; rewrite hd_tl2; exact H2].
  cbn [store]. unfold update_reschedule.
  rewrite (update_where_none _ _ _ Hm). reflexivity.
Qed.

Lemma reschedule_appointment_refused (h : Host) (gateway : Gateway)
    (id : option Z) (m : option string) (d : Z) (f : string)
    (reason : option string) (w : World) :
  nth 0 (faults w) false = false ->
  nth 1 (faults w) false = false ->
  matched id m (store w) <> [] ->
  5 <= select_availability d f (store w) ->
  reschedule_appointment h gateway id m d f reason w
  = (Ret (slot_full d),
     {| store := store w; faults := tl (tl (faults w));
        issued := SelectAvailability d f :: SelectTarget id m :: issued w;
        outbox := outbox w |}).
Proof.
  intros H0 H1 Hm Hfull. destruct (matched_In _ _ _ Hm) as (p & Hp & Ht).
  destruct (select_target_resolves id m (store w) p Hp Ht) as (a & rest & Hsel).
  unfold reschedule_appointment. apply try_catch_run.
  erewrite bind_run; [|apply pool_query_ok; rewrite hd_nth0; exact H0].
  unfold reading. cbn [fst snd]. rewrite Hsel.
  erewrite bind_run; [|apply pool_query_ok; simpl; rewrite hd_tl1; exact H1].
  cbn [fst snd store]. rewrite (availability_full _ Hfull). reflexivity.
Qed.

Lemma cs_reschedule_appointment_refused (h : Host)
    (id : option Z) (m : option string) (d : Z) (f : string)
    (reason : option string) (w : World) :
  nth 0 (faults w) false = false ->
  5 <= select_availability d f (store w) ->
  CompleteSolution.reschedule_appointment h id m d f reason w
  = (Ret (slot_full d),
     {| store := store w; faults := tl (faults w);
        issued := SelectAvailability d f :: issued w;
        outbox := outbox w |}).
Proof.
  intros H0 Hfull. unfold CompleteSolution.reschedule_appointment.
  apply try_catch_run.
  erewrite bind_run; [|apply pool_query_ok; rewrite hd_nth0; exact H0].
  unfold reading. cbn [fst snd]. rewrite (availability_full _ Hfull).
  reflexivity.
Qed.

Lemma same_rows_refl (s : Store) : same_rows s s.
Proof. unfold same_rows. repeat split. Qed.

Lemma not_found_is_no_success (msg : string) :
  Ret (json (Success msg)) <> Ret not_found_404.
Proof. discriminate. Qed.

Lemma not_found_is_no_refusal (d : Z) : Ret (slot_full d) <> Ret not_found_404.
Proof. discriminate. Qed.

(** On a store that answers, the 404 answer "Appuntamento non trovato"
    is given exactly to the requests that match no stored appointment
    (by id or by matricola; a request that carries neither matches
    none), and such a request changes no row of any table and hands no
    message to the gateway.  The handlers that look the appointment up
    first have then issued the lookup only; those of
    complete_solution_code.js have issued their ALTER TABLE ... ADD
    COLUMN IF NOT EXISTS and an update that matched nothing, so a column
    that was missing may have been added.  The handlers differ on a
    reschedule: those of complete_solution_code.js count the requested
    slot first, so an unmatched request onto a full slot is refused for
    capacity there and answered 404 by the handler that looks the
    appointment up first. *)
Theorem not_found_iff_unmatched (h : Host) (gateway : Gateway)
    (id : option Z) (m : option string) (d : Z) (f : string)
    (reason : option string) (w : World) :
  healthy w ->
  let confirm := confirm_appointment h gateway id m w in
  let reschedule := reschedule_appointment h gateway id m d f reason w in
  let confirm' := CompleteSolution.confirm_appointment h id m w in
  let reschedule' :=
    CompleteSolution.reschedule_appointment h id m d f reason w in
  (fst confirm = Ret not_found_404 <-> matched id m (store w) = []) /\
  (fst reschedule = Ret not_found_404 <-> matched id m (store w) = []) /\
  (fst confirm' = Ret not_found_404 <-> matched id m (store w) = []) /\
  (fst reschedule' = Ret not_found_404 <->
   matched id m (store w) = [] /\ select_availability d f (store w) < 5) /\
  (matched id m (store w) = [] ->
   (same_rows (store w) (store (snd confirm)) /\
    outbox (snd confirm) = outbox w /\
    issued (snd confirm) = SelectTarget id m :: issued w) /\
   (same_rows (store w) (store (snd reschedule)) /\
    outbox (snd reschedule) = outbox w /\
    issued (snd reschedule) = SelectTarget id m :: issued w) /\
   (same_rows (store w) (store (snd confirm')) /\
    outbox (snd confirm') = outbox w /\
    issued (snd confirm') = UpdateConfirm id m :: AlterAddStato :: issued w) /\
   (same_rows (store w) (store (snd reschedule')) /\
    outbox (snd reschedule') = outbox w /\
    (5 <= select_availability d f (store w) ->
     fst reschedule' = Ret (slot_full d) /\
     issued (snd reschedule') = SelectAvailability d f :: issued w) /\
    (select_availability d f (store w) < 5 ->
     issued (snd reschedule')
     = UpdateReschedule d f
         (JS.or_else reason "Riprogrammato su richiesta cliente") id m
       :: AlterAddNote :: SelectAvailability d f :: issued w))) /\
  (id = None -> m = None -> matched id m (store w) = []).
Proof.
  intros Hw confirm reschedule confirm' reschedule'.
  pose proof (healthy_nth w 0 Hw) as H0. pose proof (healthy_nth w 1 Hw) as H1.
  pose proof (healthy_nth w 2 Hw) as H2. pose proof (healthy_nth w 3 Hw) as H3.
  assert (Hhd : hd false (faults w) = false) by (rewrite hd_nth0; exact H0).
  assert (Hdec : matched id m (store w) = [] \/ matched id m (store w) <> []).
  { destruct (matched id m (store w)); [left; reflexivity|right; discriminate]. }
  assert (Hroom : select_availability d f (store w) < 5
                  \/ 5 <= select_availability d f (store w)) by lia.
  split; [|split; [|split; [|split; [|split]]]].
  - split.
    + intros Hnf. destruct Hdec as [Hm | Hm]; [exact Hm|].
      destruct (matched_In _ _ _ Hm) as (p & Hp & Ht).
      destruct (confirm_appointment_run h gateway id m w p H0 H2 Hp Ht)
        as (a & rest & w' & _ & Hrun & _).
      subst confirm. rewrite Hrun in Hnf. cbn [fst] in Hnf.
        first [ destruct (not_found_is_no_success _ Hnf)
              | destruct (not_found_is_no_refusal _ Hnf) ].
    + intros Hm. subst confirm.
      rewrite (confirm_appointment_unmatched h gateway id m w Hhd Hm).
      reflexivity.
  - split.
    + intros Hnf. destruct Hdec as [Hm | Hm]; [exact Hm|].
      destruct (matched_In _ _ _ Hm) as (p & Hp & Ht). subst reschedule.
      destruct Hroom as [Hfree | Hfull].
      * destruct (reschedule_appointment_run h gateway id m d f reason w p
                    H0 H1 H3 Hp Ht Hfree) as (w' & Hrun & _).
        rewrite Hrun in Hnf. cbn [fst] in Hnf.
        first [ destruct (not_found_is_no_success _ Hnf)
              | destruct (not_found_is_no_refusal _ Hnf) ].
      * destruct (reschedule_appointment_full h gateway id m d f reason w p
                    H0 H1 Hp Ht Hfull) as (w' & Hrun & _).
        rewrite Hrun in Hnf. cbn [fst] in Hnf.
        first [ destruct (not_found_is_no_success _ Hnf)
              | destruct (not_found_is_no_refusal _ Hnf) ].
    + intros Hm. subst reschedule.
      rewrite (reschedule_appointment_unmatched h gateway id m d f reason w
                 Hhd Hm).
      reflexivity.
  - split.
    + intros Hnf. destruct Hdec as [Hm | Hm]; [exact Hm|].
      destruct (matched_In _ _ _ Hm) as (p & Hp & Ht).
      destruct (cs_confirm_appointment_run h id m w p H1 Hp Ht)
        as (q & qs & w' & _ & Hrun & _).
      subst confirm'. rewrite Hrun in Hnf. cbn [fst] in Hnf.
        first [ destruct (not_found_is_no_success _ Hnf)
              | destruct (not_found_is_no_refusal _ Hnf) ].
    + intros Hm. subst confirm'.
      rewrite (cs_confirm_appointment_unmatched h id m w H1 Hm). reflexivity.
  - split.
    + intros Hnf. subst reschedule'. destruct Hroom as [Hfree | Hfull].
      * split; [|exact Hfree]. destruct Hdec as [Hm | Hm]; [exact Hm|].
        destruct (matched_In _ _ _ Hm) as (p & Hp & Ht).
        destruct (cs_reschedule_appointment_run h id m d f reason w p
                    H0 H2 Hp Ht Hfree) as (w' & Hrun & _).
        rewrite Hrun in Hnf. cbn [fst] in Hnf.
        first [ destruct (not_found_is_no_success _ Hnf)
              | destruct (not_found_is_no_refusal _ Hnf) ].
      * destruct (cs_reschedule_appointment_full h id m d f reason w
                    H0 Hfull) as (w' & Hrun & _).
        rewrite Hrun in Hnf. cbn [fst] in Hnf.
        first [ destruct (not_found_is_no_success _ Hnf)
              | destruct (not_found_is_no_refusal _ Hnf) ].
    + intros [Hm Hfree]. subst reschedule'.
      rewrite (cs_reschedule_appointment_unmatched h id m d f reason w
                 H0 H2 Hm Hfree).
      reflexivity.
  - intros Hm. subst confirm reschedule confirm' reschedule'.
    rewrite (confirm_appointment_unmatched h gateway id m w Hhd Hm).
    rewrite (reschedule_appointment_unmatched h gateway id m d f reason w
               Hhd Hm).
    rewrite (cs_confirm_appointment_unmatched h id m w H1 Hm).
    cbn [fst snd store outbox issued].
    do 3 (split; [split; [apply same_rows_refl|split; reflexivity]|]).
    destruct Hroom as [Hfree | Hfull].
    + rewrite (cs_reschedule_appointment_unmatched h id m d f reason w
                 H0 H2 Hm Hfree).
      cbn [fst snd store outbox issued].
      split; [apply same_rows_refl|]. split; [reflexivity|].
      split; [lia|]. intros _. reflexivity.
    + rewrite (cs_reschedule_appointment_refused h id m d f reason w
                 H0 Hfull).
      cbn [fst snd store outbox issued].
      split; [apply same_rows_refl|]. split; [reflexivity|].
      split; [intros _; split; reflexivity|lia].
  - intros -> ->. unfold matched.
    induction (pianificazioni (store w)) as [|p ps IH]; [reflexivity|].
    simpl. exact IH.
Qed.

Lemma not_found_iff_unmatched_witness :
  fst (reschedule_appointment Sample.utc_host Sample.gateway_up
         (Some 99) None Sample.d_2024_08_01 "09:00-12:00" None
         (request_world Sample.full_slot []))
  = Ret not_found_404 /\
  fst (CompleteSolution.reschedule_appointment Sample.utc_host
         (Some 99) None Sample.d_2024_08_01 "09:00-12:00" None
         (request_world Sample.full_slot []))
  = Ret (slot_full Sample.d_2024_08_01).
Proof.
  pose proof (not_found_iff_unmatched Sample.utc_host Sample.gateway_up
                (Some 99) None Sample.d_2024_08_01 "09:00-12:00" None
                (request_world Sample.full_slot []) eq_refl)
    as (_ & Hr & _ & _ & Hu & _).
  split.
  - apply (proj2 Hr). reflexivity.
  - apply Hu; [reflexivity|]. vm_compute. discriminate.
Defined.

(** ** No exception leaves a handler *)

Lemma hoare_answers {A} (m : M A) (Q : A -> Prop) :
  hoare (fun _ => True) m (fun a _ => Q a) (fun _ => False) ->
  forall w, exists a, fst (m w) = Ret a /\ Q a.
Proof.
  intros Hm w. specialize (Hm w I). destruct (m w) as [[a|e] w'].
  - exists a. split; [reflexivity|exact Hm].
  - destruct Hm.
Qed.

Lemma hoare_pool_query_reading {A} (f : Store -> A)
    (P : Store -> Prop) (Q : A -> Store -> Prop) (E : Store -> Prop) :
  (forall s, P s -> Q (f s) s) -> (forall s, P s -> E s) ->
  hoare P (pool_query_reading f) Q E.
Proof.
  intros H HE w Hw. unfold pool_query_reading.
  destruct (faults w) as [|[|] fs]; simpl; auto.
Qed.

Ltac answered :=
  apply hoare_ret; intros _ _;
  unfold not_found_404, slot_full, json, status_json;
  cbn [status list_status In]; auto 6.

Ltac statement :=
  first [ apply (hoare_alter_table _ (fun _ => True))
        | apply (hoare_notify_operator _ _ _ (fun _ => True))
        | apply (hoare_ignore_errors _ (fun _ => True) (fun _ => True));
          apply hoare_pool_query; auto
        | apply hoare_pool_query; auto
        | apply hoare_pool_query_reading; auto ].

Ltac step := apply (hoare_bind (fun _ _ => True)); [statement|].

Lemma search_appointment_answers (h : Host) (req : option string) :
  hoare (fun _ => True) (search_appointment h req)
        (fun r _ => In (status r) [200; 400; 500]) (fun _ => False).
Proof.
  unfold search_appointment. apply (hoare_try_catch (fun _ => True)).
  - destruct (negb (JS.truthy req)); [answered|].
    step. intros [|a rest]; answered.
  - intros e. answered.
Qed.

Lemma confirm_appointment_answers (h : Host) (gateway : Gateway)
    (id : option Z) (m : option string) :
  hoare (fun _ => True) (confirm_appointment h gateway id m)
        (fun r _ => In (status r) [200; 404; 500]) (fun _ => False).
Proof.
  unfold confirm_appointment. apply (hoare_try_catch (fun _ => True)).
  - step. intros [|a rest]; [answered|].
    step. intros _. step. intros [|q qs]; [answered|].
    step. intros _. step. intros _. answered.
  - intros e. answered.
Qed.

Lemma reschedule_appointment_answers (h : Host) (gateway : Gateway)
    (id : option Z) (m : option string) (d : Z) (f : string)
    (reason : option string) :
  hoare (fun _ => True) (reschedule_appointment h gateway id m d f reason)
        (fun r _ => In (status r) [200; 404; 500]) (fun _ => False).
Proof.
  unfold reschedule_appointment. apply (hoare_try_catch (fun _ => True)).
  - step. intros [|a rest]; [answered|].
    step. intros n. destruct (n >=? 5); [answered|]. cbv zeta.
    step. intros _. step. intros [|q qs]; [answered|].
    step. intros _. step. intros _. answered.
  - intros e. answered.
Qed.

Lemma cs_confirm_appointment_answers (h : Host)
    (id : option Z) (m : option string) :
  hoare (fun _ => True) (CompleteSolution.confirm_appointment h id m)
        (fun r _ => In (status r) [200; 404; 500]) (fun _ => False).
Proof.
  unfold CompleteSolution.confirm_appointment.
  apply (hoare_try_catch (fun _ => True)).
  - step. intros _. step. intros [|q qs]; [answered|].
    step. intros _. answered.
  - intros e. answered.
Qed.

Lemma cs_reschedule_appointment_answers (h : Host)
    (id : option Z) (m : option string) (d : Z) (f : string)
    (reason : option string) :
  hoare (fun _ => True)
        (CompleteSolution.reschedule_appointment h id m d f reason)
        (fun r _ => In (status r) [200; 404; 500]) (fun _ => False).
Proof.
  unfold CompleteSolution.reschedule_appointment.
  apply (hoare_try_catch (fun _ => True)).
  - step. intros n. destruct (n >=? 5); [answered|]. cbv zeta.
    step. intros _. step. intros [|q qs]; [answered|].
    step. intros _. answered.
  - intros e. answered.
Qed.

Lemma test_appointment_answers :
  hoare (fun _ => True) test_appointment
        (fun r _ => In (status r) [200; 500]) (fun _ => False).
Proof.
  unfold test_appointment. apply (hoare_try_catch (fun _ => True)).
  - step. intros [|a rest]; answered.
  - intros e. answered.
Qed.

Lemma list_appointments_answers :
  hoare (fun _ => True) list_appointments
        (fun r _ => In (list_status r) [200; 500]) (fun _ => False).
Proof.
  unfold list_appointments. apply (hoare_try_catch (fun _ => True)).
  - step. intros rows. answered.
  - intros e. answered.
Qed.

Lemma getOperatorPhone_answers (name : option string) :
  hoare (fun _ => True) (getOperatorPhone name)
        (fun _ _ => True) (fun _ => False).
Proof.
  unfold getOperatorPhone. apply (hoare_try_catch (fun _ => True)).
  - destruct (negb (JS.truthy name)); [apply hoare_ret; auto|].
    destruct (_ <? _)%nat; [apply hoare_ret; auto|].
    step. intros [|o rest]; apply hoare_ret; auto.
  - intros e. apply hoare_ret; auto.
Qed.

(** Whatever the store, the gateway and the fault schedule do, every
    handler answers: no exception leaves it.  Search answers 200, 400 or
    500; confirm and reschedule, in both variants, 200, 404 or 500; the
    test insertion and the appointment list 200 or 500; the operator
    phone lookup returns a phone or null. *)
Theorem handlers_always_answer (h : Host) (gateway : Gateway)
    (id : option Z) (m : option string) (d : Z) (f : string)
    (reason name : option string) (w : World) :
  (exists r, fst (search_appointment h m w) = Ret r
             /\ In (status r) [200; 400; 500]) /\
  (exists r, fst (confirm_appointment h gateway id m w) = Ret r
             /\ In (status r) [200; 404; 500]) /\
  (exists r, fst (reschedule_appointment h gateway id m d f reason w) = Ret r
             /\ In (status r) [200; 404; 500]) /\
  (exists r, fst (CompleteSolution.confirm_appointment h id m w) = Ret r
             /\ In (status r) [200; 404; 500]) /\
  (exists r, fst (CompleteSolution.reschedule_appointment h id m d f reason w)
             = Ret r
             /\ In (status r) [200; 404; 500]) /\
  (exists r, fst (test_appointment w) = Ret r /\ In (status r) [200; 500]) /\
  (exists r, fst (list_appointments w) = Ret r
             /\ In (list_status r) [200; 500]) /\
  (exists phone, fst (getOperatorPhone name w) = Ret phone).
Proof.
  repeat split.
  - apply (hoare_answers _ _ (search_appointment_answers h m)).
  - apply (hoare_answers _ _ (confirm_appointment_answers h gateway id m)).
  - apply (hoare_answers _ _
             (reschedule_appointment_answers h gateway id m d f reason)).
  - apply (hoare_answers _ _ (cs_confirm_appointment_answers h id m)).
  - apply (hoare_answers _ _
             (cs_reschedule_appointment_answers h id m d f reason)).
  - apply (hoare_answers _ _ test_appointment_answers).
  - apply (hoare_answers _ _ list_appointments_answers).
  - destruct (hoare_answers _ _ (getOperatorPhone_answers name) w)
      as (phone & Hphone & _).
    exists phone. exact Hphone.
Qed.

(** ** Store failures *)

Lemma pool_query_throw {A} (q : Stmt) (run : Store -> A * Store) (w : World) :
  hd false (faults w) = true ->
  pool_query q run w =
  (Throw "store unavailable",
   {| store := store w; faults := tl (faults w);
      issued := q :: issued w; outbox := outbox w |}).
Proof.
  unfold pool_query. intros Hf.
  destruct (faults w) as [|[|] fs]; simpl in *; try discriminate.
  reflexivity.
Qed.

Lemma bind_throw {A B} (m : M A) (k : A -> M B) (w w' : World) (e : string) :
  m w = (Throw e, w') -> bind m k w = (Throw e, w').
Proof. unfold bind. intros ->. reflexivity. Qed.

Lemma try_catch_throw {A} (m : M A) (k : string -> M A) (w w' : World)
    (e : string) :
  m w = (Throw e, w') -> try_catch m k w = k e w'.
Proof. unfold try_catch. intros ->. reflexivity. Qed.

Lemma confirm_appointment_lookup_fails (h : Host) (gateway : Gateway)
    (id : option Z) (m : option string) (w : World) :
  nth 0 (faults w) false = true ->
  confirm_appointment h gateway id m w
  = (Ret (status_json 500
            (Failure "Errore durante la conferma. Riprovi tra poco.")),
     {| store := store w; faults := tl (faults w);
        issued := SelectTarget id m :: issued w; outbox := outbox w |}).
Proof.
  intros H0. unfold confirm_appointment.
  erewrite try_catch_throw; [reflexivity|].
  apply bind_throw. apply pool_query_throw. rewrite hd_nth0. exact H0.
Qed.

Lemma confirm_appointment_update_fails (h : Host) (gateway : Gateway)
    (id : option Z) (m : option string) (w : World) :
  nth 0 (faults w) false = false ->
  nth 2 (faults w) false = true ->
  matched id m (store w) <> [] ->
  confirm_appointment h gateway id m w
  = (Ret (status_json 500
            (Failure "Errore durante la conferma. Riprovi tra poco.")),
     {| store := store w; faults := tl (tl (tl (faults w)));
        issued := UpdateConfirm id m :: AlterAddStato
                  :: SelectTarget id m :: issued w;
        outbox := outbox w |}).
Proof.
  intros H0 H2 Hm. destruct (matched_In _ _ _ Hm) as (p & Hp & Ht).
  destruct (select_target_resolves id m (store w) p Hp Ht) as (a & rest & Hsel).
  unfold confirm_appointment.
  erewrite try_catch_throw; [reflexivity|].
  erewrite bind_run; [|apply pool_query_ok; rewrite hd_nth0; exact H0].
  unfold reading. cbn [fst snd]. rewrite Hsel.
  erewrite bind_run; [|apply ignore_errors_alter].
  apply bind_throw. apply pool_query_throw. simpl. rewrite hd_tl2. exact H2.
Qed.

Lemma reschedule_appointment_lookup_fails (h : Host) (gateway : Gateway)
    (id : option Z) (m : option string) (d : Z) (f : string)
    (reason : option string) (w : World) :
  nth 0 (faults w) false = true ->
  reschedule_appointment h gateway id m d f reason w
  = (Ret (status_json 500
            (Failure "Errore durante la riprogrammazione. Riprovi tra poco.")),
     {| store := store w; faults := tl (faults w);
        issued := SelectTarget id m :: issued w; outbox := outbox w |}).
Proof.
  intros H0. unfold reschedule_appointment.
  erewrite try_catch_throw; [reflexivity|].
  apply bind_throw. apply pool_query_throw. rewrite hd_nth0. exact H0.
Qed.

Lemma reschedule_appointment_count_fails (h : Host) (gateway : Gateway)
    (id : option Z) (m : option string) (d : Z) (f : string)
    (reason : option string) (w : World) :
  nth 0 (faults w) false = false ->
  nth 1 (faults w) false = true ->
  matched id m (store w) <> [] ->
  reschedule_appointment h gateway id m d f reason w
  = (Ret (status_json 500
            (Failure "Errore durante la riprogrammazione. Riprovi tra poco.")),
     {| store := store w; faults := tl (tl (faults w));
        issued := SelectAvailability d f :: SelectTarget id m :: issued w;
        outbox := outbox w |}).
Proof.
  intros H0 H1 Hm. destruct (matched_In _ _ _ Hm) as (p & Hp & Ht).
  destruct (select_target_resolves id m (store w) p Hp Ht) as (a & rest & Hsel).
  unfold reschedule_appointment.
  erewrite try_catch_throw; [reflexivity|].
  erewrite bind_run; [|apply pool_query_ok; rewrite hd_nth0; exact H0].
  unfold reading. cbn [fst snd]. rewrite Hsel.
  apply bind_throw. apply pool_query_throw. simpl. rewrite hd_tl1. exact H1.
Qed.

Lemma reschedule_appointment_update_fails (h : Host) (gateway : Gateway)
    (id : option Z) (m : option string) (d : Z) (f : string)
    (reason : option string) (w : World) :
  nth 0 (faults w) false = false ->
  nth 1 (faults w) false = false ->
  nth 3 (faults w) false = true ->
  matched id m (store w) <> [] ->
  select_availability d f (store w) < 5 ->
  reschedule_appointment h gateway id m d f reason w
  = (Ret (status_json 500
            (Failure "Errore durante la riprogrammazione. Riprovi tra poco.")),
     {| store := store w; faults := tl (tl (tl (tl (faults w))));
        issued := UpdateReschedule d f
                    (JS.or_else reason "Riprogrammato su richiesta cliente")
                    id m
                  :: AlterAddNote :: SelectAvailability d f
                  :: SelectTarget id m :: issued w;
        outbox := outbox w |}).
Proof.
  intros H0 H1 H3 Hm Hfree. destruct (matched_In _ _ _ Hm) as (p & Hp & Ht).
  destruct (select_target_resolves id m (store w) p Hp Ht) as (a & rest & Hsel).
  unfold reschedule_appointment.
  erewrite try_catch_throw; [reflexivity|].
  erewrite bind_run; [|apply pool_query_ok; rewrite hd_nth0; exact H0].
  unfold reading. cbn [fst snd]. rewrite Hsel.
  erewrite bind_run; [|apply pool_query_ok; simpl; rewrite hd_tl1; exact H1].
  cbn [fst snd store]. rewrite (availability_free _ Hfree). cbv zeta.
  erewrite bind_run; [|apply ignore_errors_alter].
  apply bind_throw. apply pool_query_throw. simpl. rewrite hd_tl3. exact H3.
Qed.

Lemma cs_confirm_appointment_update_fails (h : Host)
    (id : option Z) (m : option string) (w : World) :
  nth 1 (faults w) false = true ->
  CompleteSolution.confirm_appointment h id m w
  = (Ret (status_json 500
            (Failure "Errore durante la conferma. Riprovi tra poco.")),
     {| store := store w; faults := tl (tl (faults w));
        issued := UpdateConfirm id m :: AlterAddStato :: issued w;
        outbox := outbox w |}).
Proof.
  intros H1. unfold CompleteSolution.confirm_appointment.
  erewrite try_catch_throw; [reflexivity|].
  erewrite bind_run; [|apply ignore_errors_alter].
  apply bind_throw. apply pool_query_throw. simpl. rewrite hd_tl1. exact H1.
Qed.

Lemma cs_reschedule_appointment_count_fails (h : Host)
    (id : option Z) (m : option string) (d : Z) (f : string)
    (reason : option string) (w : World) :
  nth 0 (faults w) false = true ->
  CompleteSolution.reschedule_appointment h id m d f reason w
  = (Ret (status_json 500
            (Failure "Errore durante la riprogrammazione. Riprovi tra poco.")),
     {| store := store w; faults := tl (faults w);
        issued := SelectAvailability d f :: issued w;
        outbox := outbox w |}).
Proof.
  intros H0. unfold CompleteSolution.reschedule_appointment.
  erewrite try_catch_throw; [reflexivity|].
  apply bind_throw. apply pool_query_throw. rewrite hd_nth0. exact H0.
Qed.

Lemma cs_reschedule_appointment_update_fails (h : Host)
    (id : option Z) (m : option string) (d : Z) (f : string)
    (reason : option string) (w : World) :
  nth 0 (faults w) false = false ->
  nth 2 (faults w) false = true ->
  select_availability d f (store w) < 5 ->
  CompleteSolution.reschedule_appointment h id m d f reason w
  = (Ret (status_json 500
            (Failure "Errore durante la riprogrammazione. Riprovi tra poco.")),
     {| store := store w; faults := tl (tl (tl (faults w)));
        issued := UpdateReschedule d f
                    (JS.or_else reason "Riprogrammato su richiesta cliente")
                    id m
                  :: AlterAddNote :: SelectAvailability d f :: issued w;
        outbox := outbox w |}).
Proof.
  intros H0 H2 Hfree. unfold CompleteSolution.reschedule_appointment.
  erewrite try_catch_throw; [reflexivity|].
  erewrite bind_run; [|apply pool_query_ok; rewrite hd_nth0; exact H0].
  unfold reading. cbn [fst snd]. rewrite (availability_free _ Hfree). cbv zeta.
  erewrite bind_run; [|apply ignore_errors_alter].
  apply bind_throw. apply pool_query_throw. simpl. rewrite hd_tl2. exact H2.
Qed.

Lemma bit_cases (b : bool) : b = true \/ b = false.
Proof. destruct b; [left|right]; reflexivity. Qed.

Lemma matched_cases (id : option Z) (m : option string) (s : Store) :
  matched id m s = [] \/ matched id m s <> [].
Proof. destruct (matched id m s); [left; reflexivity|right; discriminate]. Qed.

Lemma room_cases (d : Z) (f : string) (s : Store) :
  select_availability d f s < 5 \/ 5 <= select_availability d f s.
Proof. lia. Qed.

Ltac absurd_answer H :=
  cbn [fst] in H; unfold not_found_404, slot_full, json, status_json in H;
  discriminate H.

Ltac absurd_bit :=
  match goal with
  | H1 : ?b = true, H2 : ?b = false |- _ => rewrite H1 in H2; discriminate H2
  end.

(** Confirm and reschedule answer 500 exactly when a statement they
    depend on throws: the lookup of the appointment, the count of the
    requested slot, or the update.  Failures of ALTER TABLE and of the
    audit insertion never produce it.  The positions are those of the
    statements a request issues, in order. *)
Theorem server_error_iff_store_failure (h : Host) (gateway : Gateway)
    (id : option Z) (m : option string) (d : Z) (f : string)
    (reason : option string) (w : World) :
  let fails k := nth k (faults w) false = true in
  let conferma :=
    Ret (status_json 500
           (Failure "Errore durante la conferma. Riprovi tra poco.")) in
  let riprogrammazione :=
    Ret (status_json 500
           (Failure "Errore durante la riprogrammazione. Riprovi tra poco.")) in
  (fst (confirm_appointment h gateway id m w) = conferma <->
   fails 0%nat \/ (matched id m (store w) <> [] /\ fails 2%nat)) /\
  (fst (reschedule_appointment h gateway id m d f reason w) = riprogrammazione
   <->
   fails 0%nat \/
   (matched id m (store w) <> [] /\
    (fails 1%nat \/ (select_availability d f (store w) < 5 /\ fails 3%nat)))) /\
  (fst (CompleteSolution.confirm_appointment h id m w) = conferma <->
   fails 1%nat) /\
  (fst (CompleteSolution.reschedule_appointment h id m d f reason w)
   = riprogrammazione
   <->
   fails 0%nat \/ (select_availability d f (store w) < 5 /\ fails 2%nat)).
Proof.
  intros fails conferma riprogrammazione. subst fails. cbv beta.
  destruct (bit_cases (nth 0 (faults w) false)) as [H0 | H0];
  destruct (bit_cases (nth 1 (faults w) false)) as [H1 | H1];
  destruct (bit_cases (nth 2 (faults w) false)) as [H2 | H2];
  destruct (bit_cases (nth 3 (faults w) false)) as [H3 | H3];
  destruct (matched_cases id m (store w)) as [Hm | Hm];
  destruct (room_cases d f (store w)) as [Hfree | Hfull];
  (split; [|split; [|split]]).
  all: split; intros H.
  all: try absurd_bit.
  all: try (subst conferma;
            first [ rewrite (confirm_appointment_lookup_fails _ _ _ _ _ H0)
                  | rewrite (confirm_appointment_update_fails _ _ _ _ _
                               H0 H2 Hm)
                  | rewrite (cs_confirm_appointment_update_fails _ _ _ _ H1) ];
            reflexivity).
  all: try (subst riprogrammazione;
            first [ rewrite (reschedule_appointment_lookup_fails _ _ _ _ _ _ _
                               _ H0)
                  | rewrite (reschedule_appointment_count_fails _ _ _ _ _ _ _
                               _ H0 H1 Hm)
                  | rewrite (reschedule_appointment_update_fails _ _ _ _ _ _ _
                               _ H0 H1 H3 Hm Hfree)
                  | rewrite (cs_reschedule_appointment_count_fails _ _ _ _ _
                               _ _ H0)
                  | rewrite (cs_reschedule_appointment_update_fails _ _ _ _ _
                               _ _ H0 H2 Hfree) ];
            reflexivity).
  all: try (left; assumption).
  all: try (right; split; [assumption|]; first [assumption | left; assumption
              | right; split; assumption]).
  all: try assumption.
  all: try (destruct H as [H | [H H']]; try absurd_bit;
            try (destruct (H Hm)); try lia;
            try (destruct H' as [H' | [H' H'']]; try absurd_bit; try lia);
            fail).
  all: exfalso.
  all: try (rewrite (confirm_appointment_unmatched h gateway id m w) in H
              by (try rewrite hd_nth0; assumption);
            absurd_answer H).
  all: try (rewrite (reschedule_appointment_unmatched h gateway id m d f
                       reason w) in H
              by (try rewrite hd_nth0; assumption);
            absurd_answer H).
  all: try (rewrite (cs_confirm_appointment_unmatched h id m w H1 Hm) in H;
            absurd_answer H).
  all: try (rewrite (cs_reschedule_appointment_unmatched h id m d f reason w
                       H0 H2 Hm Hfree) in H;
            absurd_answer H).
  all: try (rewrite (reschedule_appointment_refused h gateway id m d f reason
                       w H0 H1 Hm Hfull) in H;
            absurd_answer H).
  all: try (rewrite (cs_reschedule_appointment_refused h id m d f reason w
                       H0 Hfull) in H;
            absurd_answer H).
  all: destruct (matched_In _ _ _ Hm) as (p & Hp & Ht).
  all: try (destruct (confirm_appointment_run h gateway id m w p H0 H2 Hp Ht)
              as (a & rest & w' & _ & Hrun & _);
            rewrite Hrun in H; absurd_answer H).
  all: try (destruct (reschedule_appointment_run h gateway id m d f reason w p
                        H0 H1 H3 Hp Ht Hfree) as (w' & Hrun & _);
            rewrite Hrun in H; absurd_answer H).
  all: try (destruct (cs_confirm_appointment_run h id m w p H1 Hp Ht)
              as (q & qs & w' & _ & Hrun & _);
            rewrite Hrun in H; absurd_answer H).
  all: try (destruct (cs_reschedule_appointment_run h id m d f reason w p
                        H0 H2 Hp Ht Hfree) as (w' & Hrun & _);
            rewrite Hrun in H; absurd_answer H).
Qed.

Ltac no_success Hr Hs :=
  cbn [fst] in Hr; inversion Hr; subst;
  unfold not_found_404, slot_full, json, status_json, success in Hs;
  cbn [body] in Hs; discriminate Hs.

(** A confirm or reschedule request that is not answered with success
    (not found, slot full, or a server error) has changed no row of any
    table and handed no message to the gateway, whatever the store and
    its faults do: the update is the last statement that can make the
    request fail, and the operator is notified only after it.  The
    statement ALTER TABLE ... ADD COLUMN IF NOT EXISTS comes before the
    update, so such a request may have added a column that was missing;
    it writes no row. *)
Theorem unsuccessful_requests_change_nothing (h : Host) (gateway : Gateway)
    (id : option Z) (m : option string) (d : Z) (f : string)
    (reason : option string) (w : World) :
  (forall r, fst (confirm_appointment h gateway id m w) = Ret r ->
     success r = false ->
     same_rows (store w)
       (store (snd (confirm_appointment h gateway id m w))) /\
     outbox (snd (confirm_appointment h gateway id m w)) = outbox w) /\
  (forall r, fst (reschedule_appointment h gateway id m d f reason w) = Ret r ->
     success r = false ->
     same_rows (store w)
       (store (snd (reschedule_appointment h gateway id m d f reason w))) /\
     outbox (snd (reschedule_appointment h gateway id m d f reason w))
     = outbox w) /\
  (forall r, fst (CompleteSolution.confirm_appointment h id m w) = Ret r ->
     success r = false ->
     same_rows (store w)
       (store (snd (CompleteSolution.confirm_appointment h id m w))) /\
     outbox (snd (CompleteSolution.confirm_appointment h id m w)) = outbox w) /\
  (forall r,
     fst (CompleteSolution.reschedule_appointment h id m d f reason w) = Ret r ->
     success r = false ->
     same_rows (store w)
       (store (snd (CompleteSolution.reschedule_appointment h id m d f reason w))) /\
     outbox (snd (CompleteSolution.reschedule_appointment h id m d f reason w))
     = outbox w).
Proof.
  destruct (bit_cases (nth 0 (faults w) false)) as [H0 | H0];
  destruct (bit_cases (nth 1 (faults w) false)) as [H1 | H1];
  destruct (bit_cases (nth 2 (faults w) false)) as [H2 | H2];
  destruct (bit_cases (nth 3 (faults w) false)) as [H3 | H3];
  destruct (matched_cases id m (store w)) as [Hm | Hm];
  destruct (room_cases d f (store w)) as [Hfree | Hfull];
  (split; [|split; [|split]]).
  all: intros r Hr Hs.
  all: try (first
    [ rewrite (confirm_appointment_lookup_fails h gateway id m w H0)
    | rewrite (confirm_appointment_update_fails h gateway id m w H0 H2 Hm)
    | rewrite (confirm_appointment_unmatched h gateway id m w)
        by (try rewrite hd_nth0; assumption)
    | rewrite (reschedule_appointment_lookup_fails h gateway id m d f reason
                 w H0)
    | rewrite (reschedule_appointment_count_fails h gateway id m d f reason
                 w H0 H1 Hm)
    | rewrite (reschedule_appointment_update_fails h gateway id m d f reason
                 w H0 H1 H3 Hm Hfree)
    | rewrite (reschedule_appointment_unmatched h gateway id m d f reason w)
        by (try rewrite hd_nth0; assumption)
    | rewrite (reschedule_appointment_refused h gateway id m d f reason
                 w H0 H1 Hm Hfull)
    | rewrite (cs_confirm_appointment_update_fails h id m w H1)
    | rewrite (cs_confirm_appointment_unmatched h id m w H1 Hm)
    | rewrite (cs_reschedule_appointment_count_fails h id m d f reason w H0)
    | rewrite (cs_reschedule_appointment_update_fails h id m d f reason
                 w H0 H2 Hfree)
    | rewrite (cs_reschedule_appointment_unmatched h id m d f reason
                 w H0 H2 Hm Hfree)
    | rewrite (cs_reschedule_appointment_refused h id m d f reason
                 w H0 Hfull) ];
    split; [apply same_rows_refl|reflexivity]).
  all: exfalso; destruct (matched_In _ _ _ Hm) as (p & Hp & Ht).
  all: try (destruct (confirm_appointment_run h gateway id m w p H0 H2 Hp Ht)
              as (a & rest & w' & _ & Hrun & _);
            rewrite Hrun in Hr; no_success Hr Hs).
  all: try (destruct (reschedule_appointment_run h gateway id m d f reason w p
                        H0 H1 H3 Hp Ht Hfree) as (w' & Hrun & _);
            rewrite Hrun in Hr; no_success Hr Hs).
  all: try (destruct (cs_confirm_appointment_run h id m w p H1 Hp Ht)
              as (q & qs & w' & _ & Hrun & _);
            rewrite Hrun in Hr; no_success Hr Hs).
  all: try (destruct (cs_reschedule_appointment_run h id m d f reason w p
                        H0 H2 Hp Ht Hfree) as (w' & Hrun & _);
            rewrite Hrun in Hr; no_success Hr Hs).
Qed.

Lemma unsuccessful_requests_change_nothing_witness :
  fst (reschedule_appointment Sample.utc_host Sample.gateway_up
         (Some 6) None Sample.d_2024_08_01 "14:00-18:00" None
         (request_world Sample.full_slot [false; false; false; true]))
  = Ret (status_json 500
           (Failure "Errore durante la riprogrammazione. Riprovi tra poco.")) /\
  same_rows Sample.full_slot
    (store (snd (reschedule_appointment Sample.utc_host Sample.gateway_up
                   (Some 6) None Sample.d_2024_08_01 "14:00-18:00" None
                   (request_world Sample.full_slot
                      [false; false; false; true])))) /\
  outbox (snd (reschedule_appointment Sample.utc_host Sample.gateway_up
                 (Some 6) None Sample.d_2024_08_01 "14:00-18:00" None
                 (request_world Sample.full_slot [false; false; false; true])))
  = [].
Proof.
  split; [reflexivity|].
  apply (proj1 (proj2 (unsuccessful_requests_change_nothing
                         Sample.utc_host Sample.gateway_up (Some 6) None
                         Sample.d_2024_08_01 "14:00-18:00" None
                         (request_world Sample.full_slot
                            [false; false; false; true])))
           (status_json 500
              (Failure "Errore durante la riprogrammazione. Riprovi tra poco."))).
  - reflexivity.
  - reflexivity.
Defined.

(** ** What a successful request sends and records *)

(** The operator joined to a target row is the one the row names. *)
Lemma select_target_operator (id : option Z) (m : option string) (s : Store)
    (r : TargetRow) (o : Operatore) :
  In r (select_target id m s) -> t_operatore r = Some o ->
  In o (operatori s) /\ operatore_id (t_row r) = Some (o_id o).
Proof.
  unfold select_target. intros Hin Ho. apply in_map_iff in Hin.
  destruct Hin as ([p oo] & <- & Hin). apply filter_In in Hin.
  destruct Hin as [Hin _]. simpl in Ho. subst oo. simpl. split.
  - exact (left_join_right _ _ _ _ _ Hin).
  - apply left_join_on in Hin. unfold SQL.on_operatore in Hin.
    destruct (operatore_id p) as [k|]; [|discriminate].
    apply Z.eqb_eq in Hin. subst k. reflexivity.
Qed.

Lemma notify_operator_exact (gateway : Gateway) (appointment : TargetRow)
    (message : string) (w : World) :
  notify_operator gateway appointment message w
  = (Ret tt,
     {| store := store w; faults := faults w; issued := issued w;
        outbox := if JS.truthy (operatore_telefono appointment)
                  then {| msisdn := JS.or_else (operatore_telefono appointment) "";
                          text := message |} :: outbox w
                  else outbox w |}).
Proof.
  unfold notify_operator, bind, sendSMSToOperator, ret.
  destruct (JS.truthy (operatore_telefono appointment)); [reflexivity|].
  destruct w; reflexivity.
Qed.

Lemma call_log_exact (ts : Z) (m : option string) (action det : string)
    (w : World) :
  hd false (faults w) = false ->
  ignore_errors (pool_query (InsertCallLog m action det)
                            (insert_call_log ts m action det)) w
  = (Ret tt,
     {| store := with_call_logs (store w)
                   (call_logs (store w)
                    ++ [{| l_matricola := m; action_taken := action;
                           details := det; timestamp := ts |}]);
        faults := tl (faults w);
        issued := InsertCallLog m action det :: issued w;
        outbox := outbox w |}).
Proof.
  intros Hok. unfold ignore_errors. apply try_catch_run.
  erewrite bind_run; [|apply pool_query_ok; exact Hok]. reflexivity.
Qed.

Lemma select_target_matched (id : option Z) (m : option string) (s : Store)
    (a : TargetRow) (rest : list TargetRow) :
  select_target id m s = a :: rest ->
  exists q qs, matched id m s = q :: qs.
Proof.
  intros Hsel.
  assert (Ha : In a (select_target id m s)) by (rewrite Hsel; left; reflexivity).
  apply select_target_In in Ha. destruct Ha as [Hin Ht].
  exact (matched_resolves id m s (t_row a) Hin Ht).
Qed.

(** The outbox after a confirmation whose lookup and update succeed. *)
Lemma confirm_appointment_outbox (h : Host) (gateway : Gateway)
    (id : option Z) (m : option string) (w : World)
    (a : TargetRow) (rest : list TargetRow) :
  nth 0 (faults w) false = false ->
  nth 2 (faults w) false = false ->
  select_target id m (store w) = a :: rest ->
  outbox (snd (confirm_appointment h gateway id m w))
  = if JS.truthy (operatore_telefono a)
    then {| msisdn := JS.or_else (operatore_telefono a) "";
            text := confirm_sms h a |} :: outbox w
    else outbox w.
Proof.
  intros H0 H2 Hsel.
  destruct (select_target_matched _ _ _ _ _ Hsel) as (q & qs & Hm).
  pose (w3 := {| store := snd (update_confirm (now h) id m (store w));
                 faults := tl (tl (tl (faults w)));
                 issued := UpdateConfirm id m :: AlterAddStato
                           :: SelectTarget id m :: issued w;
                 outbox := outbox w |}).
  pose (w4 := {| store := store w3; faults := faults w3; issued := issued w3;
                 outbox := if JS.truthy (operatore_telefono a)
                           then {| msisdn := JS.or_else (operatore_telefono a) "";
                                   text := confirm_sms h a |} :: outbox w3
                           else outbox w3 |}).
  destruct (call_log_run (now h) m "conferma"
              "Appuntamento confermato telefonicamente - SMS inviato" w4)
    as (s' & iss & E5 & _).
  assert (Hrun : snd (confirm_appointment h gateway id m w)
                 = {| store := s'; faults := tl (faults w4);
                      issued := iss; outbox := outbox w4 |}).
  { unfold confirm_appointment. erewrite try_catch_run; [reflexivity|].
    erewrite bind_run; [|apply pool_query_ok; rewrite hd_nth0; exact H0].
    unfold reading. cbn [fst snd]. rewrite Hsel.
    erewrite bind_run; [|apply ignore_errors_alter].
    erewrite bind_run;
      [|apply pool_query_ok; simpl; rewrite hd_tl2; exact H2].
    cbn [store]. unfold update_confirm at 1, update_where at 1. cbn [fst].
    unfold matched in Hm. rewrite Hm. cbn [map].
    erewrite bind_run; [|apply notify_operator_exact].
    erewrite bind_run; [|exact E5]. reflexivity. }
  rewrite Hrun. reflexivity.
Qed.

(** The outbox after a reschedule whose lookup, count and update
    succeed. *)
Lemma reschedule_appointment_outbox (h : Host) (gateway : Gateway)
    (id : option Z) (m : option string) (d : Z) (f : string)
    (reason : option string) (w : World)
    (a : TargetRow) (rest : list TargetRow) :
  nth 0 (faults w) false = false ->
  nth 1 (faults w) false = false ->
  nth 3 (faults w) false = false ->
  select_target id m (store w) = a :: rest ->
  select_availability d f (store w) < 5 ->
  outbox (snd (reschedule_appointment h gateway id m d f reason w))
  = if JS.truthy (operatore_telefono a)
    then {| msisdn := JS.or_else (operatore_telefono a) "";
            text := reschedule_sms h a d f reason |} :: outbox w
    else outbox w.
Proof.
  intros H0 H1 H3 Hsel Hfree.
  destruct (select_target_matched _ _ _ _ _ Hsel) as (q & qs & Hm).
  set (note := JS.or_else reason "Riprogrammato su richiesta cliente").
  pose (w4 := {| store := snd (update_reschedule (now h) d f note id m (store w));
                 faults := tl (tl (tl (tl (faults w))));
                 issued := UpdateReschedule d f note id m :: AlterAddNote
                           :: SelectAvailability d f
                           :: SelectTarget id m :: issued w;
                 outbox := outbox w |}).
  pose (w5 := {| store := store w4; faults := faults w4; issued := issued w4;
                 outbox := if JS.truthy (operatore_telefono a)
                           then {| msisdn := JS.or_else (operatore_telefono a) "";
                                   text := reschedule_sms h a d f reason |}
                                :: outbox w4
                           else outbox w4 |}).
  destruct (call_log_run (now h) m "riprogrammazione"
              ("Spostato a " ++ isoString d ++ " " ++ f ++ " - SMS inviato") w5)
    as (s' & iss & E6 & _).
  assert (Hrun : snd (reschedule_appointment h gateway id m d f reason w)
                 = {| store := s'; faults := tl (faults w5);
                      issued := iss; outbox := outbox w5 |}).
  { unfold reschedule_appointment. erewrite try_catch_run; [reflexivity|].
    erewrite bind_run; [|apply pool_query_ok; rewrite hd_nth0; exact H0].
    unfold reading. cbn [fst snd]. rewrite Hsel.
    erewrite bind_run; [|apply pool_query_ok; simpl; rewrite hd_tl1; exact H1].
    cbn [fst snd store]. rewrite (availability_free _ Hfree). cbv zeta.
    erewrite bind_run; [|apply ignore_errors_alter].
    erewrite bind_run;
      [|apply pool_query_ok; simpl; rewrite hd_tl3; exact H3].
    cbn [store]. unfold update_reschedule at 1, update_where at 1. cbn [fst].
    unfold matched in Hm. rewrite Hm. cbn [map].
    erewrite bind_run; [|apply notify_operator_exact].
    erewrite bind_run; [|exact E6]. reflexivity. }
  rewrite Hrun. reflexivity.
Qed.

(** A successful confirm or reschedule hands the gateway exactly one
    message when the first row of the lookup has an operator with a
    phone, addressed to that phone, and none otherwise, whatever the
    gateway answers and however many rows were updated; the operator is
    the one the row names in [operatore_id]. *)
Theorem operator_is_texted (h : Host) (gateway : Gateway)
    (id : option Z) (m : option string) (d : Z) (f : string)
    (reason : option string) (w : World)
    (a : TargetRow) (rest : list TargetRow) :
  nth 0 (faults w) false = false ->
  select_target id m (store w) = a :: rest ->
  let sent text :=
    match operatore_telefono a with
    | Some phone =>
        if (phone =? "")%string then outbox w
        else {| msisdn := phone; text := text |} :: outbox w
    | None => outbox w
    end in
  (nth 2 (faults w) false = false ->
   outbox (snd (confirm_appointment h gateway id m w))
   = sent (confirm_sms h a)) /\
  (nth 1 (faults w) false = false -> nth 3 (faults w) false = false ->
   select_availability d f (store w) < 5 ->
   outbox (snd (reschedule_appointment h gateway id m d f reason w))
   = sent (reschedule_sms h a d f reason)) /\
  In (t_row a) (matched id m (store w)) /\
  (forall phone, operatore_telefono a = Some phone ->
   exists o, In o (operatori (store w))
             /\ operatore_id (t_row a) = Some (o_id o)
             /\ o_telefono o = Some phone).
Proof.
  intros H0 Hsel sent.
  assert (Ha : In a (select_target id m (store w)))
    by (rewrite Hsel; left; reflexivity).
  assert (Hsent : forall text,
            (if JS.truthy (operatore_telefono a)
             then {| msisdn := JS.or_else (operatore_telefono a) "";
                     text := text |} :: outbox w
             else outbox w) = sent text).
  { intros text. subst sent. cbv beta.
    destruct (operatore_telefono a) as [phone|]; [|reflexivity].
    unfold JS.truthy, JS.or_else.
    destruct (phone =? "")%string; reflexivity. }
  split; [|split; [|split]].
  - intros H2. rewrite <- Hsent.
    exact (confirm_appointment_outbox h gateway id m w a rest H0 H2 Hsel).
  - intros H1 H3 Hfree. rewrite <- Hsent.
    exact (reschedule_appointment_outbox h gateway id m d f reason w a rest
             H0 H1 H3 Hsel Hfree).
  - destruct (select_target_In _ _ _ _ Ha) as [Hin Ht].
    apply filter_In. split; assumption.
  - intros phone Hphone. unfold operatore_telefono in Hphone.
    destruct (t_operatore a) as [o|] eqn:Ho; [|discriminate].
    exists o.
    destruct (select_target_operator _ _ _ _ _ Ha Ho) as [Hin Hid].
    split; [exact Hin|]. split; [exact Hid|exact Hphone].
Qed.

Lemma operator_is_texted_witness :
  outbox (snd (confirm_appointment Sample.utc_host Sample.gateway_down
                 (Some 1) None (request_world Sample.seeded [])))
  = [ {| msisdn := "393331112222";
         text := confirm_sms Sample.utc_host
                   {| t_row := Sample.row 1 "TEST123456" Sample.d_2024_07_25
                                 "09:00-12:00" "programmato" (Some 7);
                      t_operatore := Some Sample.luca |} |} ].
Proof.
  apply (proj1 (operator_is_texted Sample.utc_host Sample.gateway_down
                  (Some 1) None 0 "" None (request_world Sample.seeded [])
                  {| t_row := Sample.row 1 "TEST123456" Sample.d_2024_07_25
                                "09:00-12:00" "programmato" (Some 7);
                     t_operatore := Some Sample.luca |} []
                  eq_refl eq_refl)).
  reflexivity.
Defined.

(** ** The audit trail *)

Lemma run_call_logs {A} (m : M A) (w w' : World) (a : A) (l : list CallLog) :
  m w = (Ret a, w') -> call_logs (store w') = l ->
  call_logs (store (snd (m w))) = l.
Proof. intros -> Hl. exact Hl. Qed.


Lemma confirm_appointment_audit (h : Host) (gateway : Gateway)
    (id : option Z) (m : option string) (w : World) :
  nth 0 (faults w) false = false ->
  nth 2 (faults w) false = false ->
  nth 3 (faults w) false = false ->
  matched id m (store w) <> [] ->
  call_logs (store (snd (confirm_appointment h gateway id m w)))
  = (call_logs (store w)
     ++ [{| l_matricola := m; action_taken := "conferma";
            details := "Appuntamento confermato telefonicamente - SMS inviato";
            timestamp := now h |}])%list.
Proof.
  intros H0 H2 H3 Hne. destruct (matched_In _ _ _ Hne) as (p & Hp & Ht).
  destruct (select_target_resolves id m (store w) p Hp Ht) as (a & rest & Hsel).
  destruct (matched_resolves id m (store w) p Hp Ht) as (q & qs & Hm).
  eapply run_call_logs.
  unfold confirm_appointment. apply try_catch_run.
  erewrite bind_run; [|apply pool_query_ok; rewrite hd_nth0; exact H0].
  unfold reading. cbn [fst snd]. rewrite Hsel.
  erewrite bind_run; [|apply ignore_errors_alter].
  erewrite bind_run;
    [|apply pool_query_ok; simpl; rewrite hd_tl2; exact H2].
  cbn [store]. unfold update_confirm at 1, update_where at 1. cbn [fst].
  unfold matched in Hm. rewrite Hm. cbn [map].
  erewrite bind_run; [|apply notify_operator_exact].
  erewrite bind_run;
    [|apply call_log_exact; simpl; rewrite hd_tl3; exact H3].
  reflexivity. reflexivity.
Qed.

Lemma reschedule_appointment_audit (h : Host) (gateway : Gateway)
    (id : option Z) (m : option string) (d : Z) (f : string)
    (reason : option string) (w : World) :
  nth 0 (faults w) false = false ->
  nth 1 (faults w) false = false ->
  nth 3 (faults w) false = false ->
  nth 4 (faults w) false = false ->
  matched id m (store w) <> [] ->
  select_availability d f (store w) < 5 ->
  call_logs (store (snd (reschedule_appointment h gateway id m d f reason w)))
  = (call_logs (store w)
     ++ [{| l_matricola := m; action_taken := "riprogrammazione";
            details := ("Spostato a " ++ isoString d ++ " " ++ f
                        ++ " - SMS inviato")%string;
            timestamp := now h |}])%list.
Proof.
  intros H0 H1 H3 H4 Hne Hfree. destruct (matched_In _ _ _ Hne) as (p & Hp & Ht).
  destruct (select_target_resolves id m (store w) p Hp Ht) as (a & rest & Hsel).
  destruct (matched_resolves id m (store w) p Hp Ht) as (q & qs & Hm).
  eapply run_call_logs.
  unfold reschedule_appointment. apply try_catch_run.
  erewrite bind_run; [|apply pool_query_ok; rewrite hd_nth0; exact H0].
  unfold reading. cbn [fst snd]. rewrite Hsel.
  erewrite bind_run; [|apply pool_query_ok; simpl; rewrite hd_tl1; exact H1].
  cbn [fst snd store]. rewrite (availability_free _ Hfree). cbv zeta.
  erewrite bind_run; [|apply ignore_errors_alter].
  erewrite bind_run;
    [|apply pool_query_ok; simpl; rewrite hd_tl3; exact H3].
  cbn [store]. unfold update_reschedule at 1, update_where at 1. cbn [fst].
  unfold matched in Hm. rewrite Hm. cbn [map].
  erewrite bind_run; [|apply notify_operator_exact].
  erewrite bind_run;
    [|apply call_log_exact; simpl;
      destruct (faults w) as [|b0 [|b1 [|b2 [|b3 [|b4 fs]]]]];
      try reflexivity; exact H4].
  reflexivity. reflexivity.
Qed.

Lemma cs_confirm_appointment_audit (h : Host)
    (id : option Z) (m : option string) (w : World) :
  nth 1 (faults w) false = false ->
  nth 2 (faults w) false = false ->
  matched id m (store w) <> [] ->
  call_logs (store (snd (CompleteSolution.confirm_appointment h id m w)))
  = (call_logs (store w)
     ++ [{| l_matricola := m; action_taken := "conferma";
            details := "Appuntamento confermato telefonicamente";
            timestamp := now h |}])%list.
Proof.
  intros H1 H2 Hne. destruct (matched_In _ _ _ Hne) as (p & Hp & Ht).
  destruct (matched_resolves id m (store w) p Hp Ht) as (q & qs & Hm).
  eapply run_call_logs.
  unfold CompleteSolution.confirm_appointment.
  apply try_catch_run.
  erewrite bind_run; [|apply ignore_errors_alter].
  erewrite bind_run;
    [|apply pool_query_ok; simpl; rewrite hd_tl1; exact H1].
  cbn [store]. unfold update_confirm at 1, update_where at 1. cbn [fst].
  unfold matched in Hm. rewrite Hm. cbn [map].
  erewrite bind_run;
    [|apply call_log_exact; simpl; rewrite hd_tl2; exact H2].
  reflexivity. reflexivity.
Qed.

Lemma cs_reschedule_appointment_audit (h : Host)
    (id : option Z) (m : option string) (d : Z) (f : string)
    (reason : option string) (w : World) :
  nth 0 (faults w) false = false ->
  nth 2 (faults w) false = false ->
  nth 3 (faults w) false = false ->
  matched id m (store w) <> [] ->
  select_availability d f (store w) < 5 ->
  call_logs
    (store (snd (CompleteSolution.reschedule_appointment h id m d f reason w)))
  = (call_logs (store w)
     ++ [{| l_matricola := m; action_taken := "riprogrammazione";
            details := ("Spostato a " ++ isoString d ++ " " ++ f)%string;
            timestamp := now h |}])%list.
Proof.
  intros H0 H2 H3 Hne Hfree. destruct (matched_In _ _ _ Hne) as (p & Hp & Ht).
  destruct (matched_resolves id m (store w) p Hp Ht) as (q & qs & Hm).
  eapply run_call_logs.
  unfold CompleteSolution.reschedule_appointment.
  apply try_catch_run.
  erewrite bind_run; [|apply pool_query_ok; rewrite hd_nth0; exact H0].
  unfold reading. cbn [fst snd]. rewrite (availability_free _ Hfree). cbv zeta.
  erewrite bind_run; [|apply ignore_errors_alter].
  erewrite bind_run;
    [|apply pool_query_ok; simpl; rewrite hd_tl2; exact H2].
  cbn [store]. unfold update_reschedule at 1, update_where at 1. cbn [fst].
  unfold matched in Hm. rewrite Hm. cbn [map].
  erewrite bind_run;
    [|apply call_log_exact; simpl; rewrite hd_tl3; exact H3].
  reflexivity. reflexivity.
Qed.

(** On a store that answers, a successful confirm or reschedule appends
    exactly one entry to the audit trail, after the entries that were
    there: the matricola as the request gave it (none when the request
    named the appointment by id only), the action, the time of the
    request, and a fixed text that says "SMS inviato" in the notifying
    handlers whether or not a message was sent.  The earlier entries are
    kept. *)
Theorem audit_entry_appended (h : Host) (gateway : Gateway)
    (id : option Z) (m : option string) (d : Z) (f : string)
    (reason : option string) (w : World) :
  healthy w -> matched id m (store w) <> [] ->
  let entry action det :=
    {| l_matricola := m; action_taken := action; details := det;
       timestamp := now h |} in
  call_logs (store (snd (confirm_appointment h gateway id m w)))
  = (call_logs (store w)
     ++ [entry "conferma"
           "Appuntamento confermato telefonicamente - SMS inviato"])%list /\
  call_logs (store (snd (CompleteSolution.confirm_appointment h id m w)))
  = (call_logs (store w)
     ++ [entry "conferma" "Appuntamento confermato telefonicamente"])%list /\
  (select_availability d f (store w) < 5 ->
   call_logs (store (snd (reschedule_appointment h gateway id m d f reason w)))
   = (call_logs (store w)
      ++ [entry "riprogrammazione"
            ("Spostato a " ++ isoString d ++ " " ++ f ++ " - SMS inviato")%string])%list
   /\
   call_logs
     (store (snd (CompleteSolution.reschedule_appointment h id m d f reason w)))
   = (call_logs (store w)
      ++ [entry "riprogrammazione"
            ("Spostato a " ++ isoString d ++ " " ++ f)%string])%list).
Proof.
  intros Hw Hne entry.
  pose proof (healthy_nth w 0 Hw) as H0. pose proof (healthy_nth w 1 Hw) as H1.
  pose proof (healthy_nth w 2 Hw) as H2. pose proof (healthy_nth w 3 Hw) as H3.
  pose proof (healthy_nth w 4 Hw) as H4.
  split; [|split].
  - exact (confirm_appointment_audit h gateway id m w H0 H2 H3 Hne).
  - exact (cs_confirm_appointment_audit h id m w H1 H2 Hne).
  - intros Hfree. split.
    + exact (reschedule_appointment_audit h gateway id m d f reason w
               H0 H1 H3 H4 Hne Hfree).
    + exact (cs_reschedule_appointment_audit h id m d f reason w
               H0 H2 H3 Hne Hfree).
Qed.

Lemma audit_entry_appended_witness :
  call_logs (store (snd (confirm_appointment Sample.utc_host Sample.gateway_down
                           (Some 2) None (request_world Sample.seeded []))))
  = [ {| l_matricola := None; action_taken := "conferma";
         details := "Appuntamento confermato telefonicamente - SMS inviato";
         timestamp := now Sample.utc_host |} ] /\
  outbox (snd (confirm_appointment Sample.utc_host Sample.gateway_down
                 (Some 2) None (request_world Sample.seeded [])))
  = [].
Proof.
  split.
  - apply (proj1 (audit_entry_appended Sample.utc_host Sample.gateway_down
                    (Some 2) None 0 "" None (request_world Sample.seeded [])
                    eq_refl ltac:(discriminate))).
  - reflexivity.
Defined.

(** ** The operator phone lookup *)

Lemma join_split (s : string) : JS.join " " (JS.split " " s) = s.
Proof.
  unfold JS.join. induction s as [|c s IH]; [reflexivity|].
  simpl JS.split. destruct (Ascii.eqb_spec c " ") as [-> | Hc].
  - destruct (JS.split " " s) as [|t ts] eqn:Hs.
    + simpl in IH. subst s. discriminate Hs.
    + change (String.concat " " ("" :: t :: ts))
        with (String " " (String.concat " " (t :: ts))).
      rewrite IH. reflexivity.
  - destruct (JS.split " " s) as [|t ts] eqn:Hs.
    + simpl in IH. subst s. discriminate Hs.
    + destruct ts as [|t' ts'].
      * simpl in IH. subst t. reflexivity.
      * change (String.concat " " (String c t :: t' :: ts'))
          with (String c (String.concat " " (t :: t' :: ts'))).
        rewrite IH. reflexivity.
Qed.

(** A text without a space is one token; a text is split at its first
    space. *)
Lemma split_at_first_space (nome cognome : string) :
  ~ In " "%char (list_ascii_of_string nome) ->
  JS.split " " nome = [nome] /\
  JS.split " " (nome ++ " " ++ cognome) = nome :: JS.split " " cognome.
Proof.
  induction nome as [|c nome IH]; intros Hno.
  - split; reflexivity.
  - simpl in Hno.
    assert (Hc : Ascii.eqb c " " = false).
    { apply Ascii.eqb_neq. intros ->. apply Hno. left. reflexivity. }
    destruct IH as [IH1 IH2].
    { intros Hin. apply Hno. right. exact Hin. }
    split.
    + simpl. rewrite Hc, IH1. reflexivity.
    + change (JS.split " " (String c nome ++ " " ++ cognome))
        with (if Ascii.eqb c " "
              then "" :: JS.split " " (nome ++ " " ++ cognome)
              else match JS.split " " (nome ++ " " ++ cognome) with
                   | t :: ts => String c t :: ts
                   | [] => [String c ""]
                   end).
      rewrite Hc, IH2. reflexivity.
Qed.

Lemma split_nonempty (s : string) : exists t ts, JS.split " " s = t :: ts.
Proof.
  destruct s as [|c s]; [exists "", []; reflexivity|].
  simpl. destruct (Ascii.eqb c " "); [eexists; eexists; reflexivity|].
  destruct (JS.split " " s); eexists; eexists; reflexivity.
Qed.

(** The operator lookup never throws and never writes: it returns a
    phone or null and leaves the database and the outbox as they were;
    when the store throws it returns null.  It splits the trimmed display
    name at its first space: a name without a space there issues no
    statement and resolves to null, and otherwise the operator is looked
    up by the text before the first space as first name and all the text
    after it as last name, each up to the case folding [LOWER] of the
    database, and the phone is that of the first operator of the table
    that matches, or null when none does. *)
Theorem getOperatorPhone_splits_at_first_space (name : option string)
    (w : World) :
  (exists phone, fst (getOperatorPhone name w) = Ret phone) /\
  store (snd (getOperatorPhone name w)) = store w /\
  outbox (snd (getOperatorPhone name w)) = outbox w /\
  (forall s, name = Some s ->
     ~ In " "%char (list_ascii_of_string (JS.trim s)) ->
     getOperatorPhone name w = (Ret None, w)) /\
  (forall s nome cognome, name = Some s ->
     JS.trim s = nome ++ " " ++ cognome ->
     ~ In " "%char (list_ascii_of_string nome) ->
     issued (snd (getOperatorPhone name w))
     = SelectOperatore nome cognome :: issued w /\
     (hd false (faults w) = true ->
      fst (getOperatorPhone name w) = Ret None) /\
     (hd false (faults w) = false ->
      let matches o :=
        lower (store w) (o_nome o) = lower (store w) nome /\
        lower (store w) (o_cognome o) = lower (store w) cognome in
      (forall before o after,
         operatori (store w) = (before ++ o :: after)%list ->
         matches o -> (forall o', In o' before -> ~ matches o') ->
         fst (getOperatorPhone name w) = Ret (o_telefono o)) /\
      ((forall o, In o (operatori (store w)) -> ~ matches o) ->
       fst (getOperatorPhone name w) = Ret None))).
Proof.
  assert (Hread : (exists phone, fst (getOperatorPhone name w) = Ret phone) /\
                  store (snd (getOperatorPhone name w)) = store w /\
                  outbox (snd (getOperatorPhone name w)) = outbox w).
  { unfold getOperatorPhone, try_catch.
    destruct (negb (JS.truthy name));
      [split; [exists None; reflexivity|split; reflexivity]|].
    destruct (_ <? _)%nat;
      [split; [exists None; reflexivity|split; reflexivity]|].
    unfold bind, pool_query, reading, ret.
    destruct (faults w) as [|[|] fs]; cbn [fst snd store outbox];
      try (split; [exists None; reflexivity|split; reflexivity]);
      destruct (select_operatore _ _ (store w)) as [|o os];
      cbn [fst snd store outbox];
      (split; [eexists; reflexivity|split; reflexivity]). }
  destruct Hread as (Hret & Hstore & Hout).
  split; [exact Hret|]. split; [exact Hstore|]. split; [exact Hout|].
  split.
  - intros s -> Hno.
    destruct (split_at_first_space (JS.trim s) "" Hno) as [Hone _].
    destruct (s =? "")%string eqn:Hs.
    + apply String.eqb_eq in Hs. subst s. reflexivity.
    + unfold getOperatorPhone, try_catch, JS.truthy, JS.or_else.
      rewrite Hs. cbn [negb]. rewrite Hone. reflexivity.
  - intros s nome cognome -> Htrim Hno.
    destruct (split_at_first_space nome cognome Hno) as [_ Hsplit].
    rewrite <- Htrim in Hsplit.
    destruct (split_nonempty cognome) as (t & ts & Hcog).
    rewrite Hcog in Hsplit.
    assert (Hne : s <> "").
    { intros ->. destruct nome; discriminate Htrim. }
    assert (Hjoin : JS.join " " (t :: ts) = cognome)
      by (rewrite <- Hcog; apply join_split).
    destruct (getOperatorPhone_runs s nome (t :: ts) w Hne Hsplit)
      as (Hissued & _ & Hfault & Hphone); [discriminate|].
    rewrite Hjoin in Hissued, Hphone.
    split; [exact Hissued|]. split; [exact Hfault|].
    intros Hok matches. specialize (Hphone Hok). split.
    + intros before o after Htable Ho Hbefore.
      rewrite Hphone, Htable, find_first; [reflexivity| |].
      * intros x Hx. apply same_name_false. apply (Hbefore x Hx).
      * apply same_name_spec. exact Ho.
    + intros Hnone. rewrite Hphone, find_nowhere; [reflexivity|].
      intros x Hx. apply same_name_false. apply (Hnone x Hx).
Qed.

Lemma getOperatorPhone_splits_at_first_space_witness :
  fst (getOperatorPhone (Some " èlia ROSSI ") (request_world Sample.staff []))
  = Ret (Some "39000").
Proof.
  destruct (getOperatorPhone_splits_at_first_space (Some " èlia ROSSI ")
              (request_world Sample.staff [])) as (_ & _ & _ & _ & H).
  destruct (H " èlia ROSSI " "èlia" "ROSSI" eq_refl eq_refl)
    as (_ & _ & Hphone).
  - simpl. intros Hin.
    repeat (destruct Hin as [Hin | Hin]; [discriminate Hin|]). destruct Hin.
  - destruct (Hphone eq_refl) as [Hfirst _].
    apply (Hfirst [Sample.luca] Sample.elia [] eq_refl).
    + split; vm_compute; reflexivity.
    + intros o' [<- | []] [Hnome _]. vm_compute in Hnome. discriminate Hnome.
Defined.

(** ** Reschedule, then search *)

Lemma healthy_tl (l : list bool) : l = [] -> tl l = [].
Proof. intros ->. reflexivity. Qed.

(** What a search finds once every row of a matricola carries one date
    and slot. *)
Lemma search_after_move (h : Host) (id : option Z) (mat : string)
    (d : Z) (f : string) (set : Pianificazione -> Pianificazione)
    (w w' : World) :
  mat <> "" -> faults w' = [] ->
  (forall q, matricola (set q) = matricola q
             /\ data_appuntamento (set q) = d /\ fascia_oraria (set q) = f) ->
  pianificazioni (store w')
  = updated id (Some mat) set (pianificazioni (store w)) ->
  (exists p, In p (pianificazioni (store w)) /\ matricola p = mat) ->
  exists r,
    fst (search_appointment h (Some mat) w')
    = Ret (json (Found (appointment_view h r) (found_message h r))) /\
    v_matricola (appointment_view h r) = mat /\
    v_data (appointment_view h r) = italian_date h d /\
    v_fascia_oraria (appointment_view h r) = f.
Proof.
  intros Hne Hw' Hset Hrows (p & Hp & Hmat).
  assert (Htargets : forall q, matricola q = mat ->
                               SQL.targets id (Some mat) q = true).
  { intros q Hq. unfold SQL.targets, SQL.eq_text. rewrite Hq.
    rewrite String.eqb_refl. apply orb_true_r. }
  assert (Hp' : In (set p) (pianificazioni (store w'))).
  { rewrite Hrows. apply updated_In; [exact Hp|]. apply Htargets. exact Hmat. }
  assert (Hmat' : matricola (set p) = mat).
  { rewrite (proj1 (Hset p)). exact Hmat. }
  destruct (search_rows_total mat (store w') (set p) Hp' Hmat')
    as (rp & Hrp & _).
  destruct (select_search mat (store w')) as [|r rest] eqn:Hsel.
  { apply (proj2 (order_by_desc_In (fun r => data_appuntamento (s_row r)) rp _))
      in Hrp.
    unfold select_search in Hsel.
    destruct (SQL.order_by_desc _ (search_rows mat (store w')));
      [destruct Hrp | discriminate]. }
  destruct (select_search_head _ _ _ _ Hsel) as (_ & Hr & _).
  destruct (search_rows_In _ _ _ Hr) as [Hstored Hm].
  exists r. split; [|split; [exact Hm|]].
  - rewrite search_appointment_answer;
      [|exact Hne|rewrite Hw'; reflexivity].
    rewrite Hsel. reflexivity.
  - rewrite Hrows in Hstored. unfold updated in Hstored.
    apply in_map_iff in Hstored. destruct Hstored as (q & Hq & _).
    destruct (SQL.targets id (Some mat) q) eqn:Htq.
    + destruct (Hset q) as (_ & Hd & Hf).
      unfold appointment_view. cbn [v_data v_fascia_oraria].
      rewrite toLocaleDateString_italian, localDate_ofColumn.
      rewrite <- Hq, Hd, Hf. split; reflexivity.
    + rewrite <- Hq in Hm. rewrite (Htargets q Hm) in Htq. discriminate.
Qed.

(** After a successful reschedule that names a matricola, a search for
    that matricola finds an appointment on the new date and in the new
    slot, on every host and with both handlers: the search shows the
    requested date even on a host whose reschedule message named the day
    before. *)
Theorem reschedule_then_search (h : Host) (gateway : Gateway)
    (id : option Z) (mat : string) (d : Z) (f : string)
    (reason : option string) (w : World) :
  healthy w -> mat <> "" ->
  (exists p, In p (pianificazioni (store w)) /\ matricola p = mat) ->
  select_availability d f (store w) < 5 ->
  let found w' :=
    exists r,
      fst (search_appointment h (Some mat) w')
      = Ret (json (Found (appointment_view h r) (found_message h r))) /\
      v_matricola (appointment_view h r) = mat /\
      v_data (appointment_view h r) = italian_date h d /\
      v_fascia_oraria (appointment_view h r) = f in
  found (snd (reschedule_appointment h gateway id (Some mat) d f reason w)) /\
  found (snd (CompleteSolution.reschedule_appointment h id (Some mat) d f
                reason w)).
Proof.
  intros Hw Hne Hex Hfree found. subst found. cbv beta.
  destruct Hex as (p & Hp & Hmat).
  assert (Ht : SQL.targets id (Some mat) p = true).
  { unfold SQL.targets, SQL.eq_text. rewrite Hmat, String.eqb_refl.
    apply orb_true_r. }
  assert (Hset : forall q,
            matricola (set_riprogrammato (now h) d f
                         (JS.or_else reason "Riprogrammato su richiesta cliente")
                         q) = matricola q
            /\ data_appuntamento
                 (set_riprogrammato (now h) d f
                    (JS.or_else reason "Riprogrammato su richiesta cliente") q)
               = d
            /\ fascia_oraria
                 (set_riprogrammato (now h) d f
                    (JS.or_else reason "Riprogrammato su richiesta cliente") q)
               = f).
  { intros q. repeat split. }
  split.
  - destruct (reschedule_appointment_run h gateway id (Some mat) d f reason w p
                (healthy_nth w 0 Hw) (healthy_nth w 1 Hw) (healthy_nth w 3 Hw)
                Hp Ht Hfree) as (w' & Hrun & Hrows & Hfaults).
    rewrite Hrun. cbn [snd].
    apply (search_after_move h id mat d f
             (set_riprogrammato (now h) d f
                (JS.or_else reason "Riprogrammato su richiesta cliente"))
             w w' Hne).
    + rewrite Hfaults. unfold healthy in Hw. rewrite Hw. reflexivity.
    + exact Hset.
    + exact Hrows.
    + exists p. split; assumption.
  - destruct (cs_reschedule_appointment_run h id (Some mat) d f reason w p
                (healthy_nth w 0 Hw) (healthy_nth w 2 Hw)
                Hp Ht Hfree) as (w' & Hrun & Hrows & Hfaults).
    rewrite Hrun. cbn [snd].
    apply (search_after_move h id mat d f
             (set_riprogrammato (now h) d f
                (JS.or_else reason "Riprogrammato su richiesta cliente"))
             w w' Hne).
    + rewrite Hfaults. unfold healthy in Hw. rewrite Hw. reflexivity.
    + exact Hset.
    + exact Hrows.
    + exists p. split; assumption.
Qed.

Lemma reschedule_then_search_witness :
  exists r,
    fst (search_appointment Sample.new_york_host (Some "TEST123456")
           (snd (reschedule_appointment Sample.new_york_host Sample.gateway_up
                   None (Some "TEST123456") Sample.d_2024_08_01 "14:00-18:00"
                   None (request_world Sample.seeded []))))
    = Ret (json (Found (appointment_view Sample.new_york_host r)
                       (found_message Sample.new_york_host r))) /\
    v_matricola (appointment_view Sample.new_york_host r) = "TEST123456" /\
    v_data (appointment_view Sample.new_york_host r)
    = italian_date Sample.new_york_host Sample.d_2024_08_01 /\
    v_fascia_oraria (appointment_view Sample.new_york_host r) = "14:00-18:00".
Proof.
  apply (proj1 (reschedule_then_search Sample.new_york_host Sample.gateway_up
                  None "TEST123456" Sample.d_2024_08_01 "14:00-18:00" None
                  (request_world Sample.seeded [])
                  eq_refl ltac:(discriminate)
                  (ex_intro _ Sample.confirmed_row
                     (conj (or_intror (or_introl eq_refl)) eq_refl))
                  ltac:(vm_compute; reflexivity))).
Defined.

(** ** The revision without the capacity check *)

(** After the matched rows have been moved onto a date and slot, the rows
    that hold it are the matched ones and the others that held it. *)
Lemma occupancy_after_move (id : option Z) (m : option string)
    (ts d : Z) (f note : string) (rows : list Pianificazione) :
  occupancy d f (updated id m (set_riprogrammato ts d f note) rows)
  = Z.of_nat (List.length
                (filter (fun p => SQL.targets id m p || occupies d f p) rows)).
Proof.
  unfold occupancy, updated. f_equal.
  induction rows as [|p rows IH]; [reflexivity|].
  cbn [map filter]. destruct (SQL.targets id m p) eqn:Ht.
  - assert (Hocc : occupies d f (set_riprogrammato ts d f note p) = true).
    { unfold occupies. cbn [data_appuntamento fascia_oraria stato
                            set_riprogrammato].
      rewrite Z.eqb_refl, String.eqb_refl. reflexivity. }
    rewrite Hocc. cbn [orb List.length]. rewrite IH. reflexivity.
  - cbn [orb]. destruct (occupies d f p); cbn [List.length]; rewrite IH;
      reflexivity.
Qed.

Lemma filter_length_le {A} (f g : A -> bool) (l : list A) :
  (forall a, f a = true -> g a = true) ->
  (List.length (filter f l) <= List.length (filter g l))%nat.
Proof.
  intros Hfg. induction l as [|a l IH]; [apply le_n|].
  cbn [filter]. destruct (f a) eqn:Hf.
  - rewrite (Hfg a Hf). cbn [List.length]. apply le_n_S. exact IH.
  - destruct (g a); cbn [List.length]; [apply Nat.le_le_succ_r|]; exact IH.
Qed.

Lemma filter_length_lt {A} (f g : A -> bool) (l : list A) (x : A) :
  (forall a, f a = true -> g a = true) ->
  In x l -> f x = false -> g x = true ->
  (S (List.length (filter f l)) <= List.length (filter g l))%nat.
Proof.
  intros Hfg. induction l as [|a l IH]; intros Hin Hf Hg; [destruct Hin|].
  cbn [filter]. destruct Hin as [-> | Hin].
  - rewrite Hf, Hg. cbn [List.length]. apply le_n_S.
    apply filter_length_le. exact Hfg.
  - specialize (IH Hin Hf Hg). destruct (f a) eqn:Hfa.
    + rewrite (Hfg a Hfa). cbn [List.length]. apply le_n_S. exact IH.
    + destruct (g a); cbn [List.length]; [apply Nat.le_le_succ_r|]; exact IH.
Qed.

Lemma uncapped_reschedule_run (h : Host) (gateway : Gateway)
    (id : option Z) (m : option string) (d : Z) (f : string)
    (reason : option string) (w : World) (p : Pianificazione) :
  nth 0 (faults w) false = false ->
  nth 2 (faults w) false = false ->
  In p (pianificazioni (store w)) -> SQL.targets id m p = true ->
  exists w',
    Uncapped.reschedule_appointment h gateway id m d f reason w
      = (Ret (json (Success (Uncapped.reschedule_message h d f))), w') /\
    pianificazioni (store w')
      = updated id m
          (set_riprogrammato (now h) d f
             (JS.or_else reason "Riprogrammato su richiesta cliente"))
          (pianificazioni (store w)).
Proof.
  intros H0 H2 Hp Ht.
  destruct (select_target_resolves id m (store w) p Hp Ht) as (a & rest & Hsel).
  destruct (matched_resolves id m (store w) p Hp Ht) as (q & qs & Hm).
  set (note := JS.or_else reason "Riprogrammato su richiesta cliente").
  pose (w3 := {| store := snd (update_reschedule (now h) d f note id m (store w));
                 faults := tl (tl (tl (faults w)));
                 issued := UpdateReschedule d f note id m :: AlterAddNote
                           :: SelectTarget id m :: issued w;
                 outbox := outbox w |}).
  destruct (notify_operator_run gateway a (reschedule_sms h a d f reason) w3)
    as (out & E4).
  set (w4 := {| store := store w3; faults := faults w3;
                issued := issued w3; outbox := out |}) in E4.
  destruct (call_log_run (now h) m "riprogrammazione"
              ("Spostato a " ++ isoString d ++ " " ++ f ++ " - SMS inviato") w4)
    as (s' & iss & E5 & Hs').
  eexists. split.
  - unfold Uncapped.reschedule_appointment. apply try_catch_run.
    erewrite bind_run; [|apply pool_query_ok; rewrite hd_nth0; exact H0].
    unfold reading. cbn [fst snd]. rewrite Hsel. cbv zeta.
    erewrite bind_run; [|apply ignore_errors_alter].
    erewrite bind_run;
      [|apply pool_query_ok; simpl; rewrite hd_tl2; exact H2].
    cbn [store]. fold note.
    unfold update_reschedule at 1, update_where at 1. cbn [fst].
    unfold matched in Hm. rewrite Hm. cbn [map].
    erewrite bind_run; [|exact E4].
    erewrite bind_run; [|exact E5]. reflexivity.
  - cbn [store]. rewrite Hs'. reflexivity.
Qed.

(** The revision of the reschedule handler that has no capacity check
    accepts every request that matches an appointment, however many
    appointments hold the requested date and slot: it answers success,
    moves every matched row, and the slot holds at least one appointment
    more than before when a matched row was not on it, so a slot already
    holding 5 holds 6 or more afterwards. *)
Theorem uncapped_reschedule_overbooks (h : Host) (gateway : Gateway)
    (id : option Z) (m : option string) (d : Z) (f : string)
    (reason : option string) (w : World) (p : Pianificazione) :
  healthy w ->
  In p (pianificazioni (store w)) -> SQL.targets id m p = true ->
  occupies d f p = false ->
  let after := Uncapped.reschedule_appointment h gateway id m d f reason w in
  fst after = Ret (json (Success (Uncapped.reschedule_message h d f))) /\
  pianificazioni (store (snd after))
  = updated id m
      (set_riprogrammato (now h) d f
         (JS.or_else reason "Riprogrammato su richiesta cliente"))
      (pianificazioni (store w)) /\
  select_availability d f (store w) + 1
  <= select_availability d f (store (snd after)).
Proof.
  intros Hw Hp Ht Hocc after. subst after.
  destruct (uncapped_reschedule_run h gateway id m d f reason w p
              (healthy_nth w 0 Hw) (healthy_nth w 2 Hw) Hp Ht)
    as (w' & Hrun & Hrows).
  rewrite Hrun. cbn [fst snd]. split; [reflexivity|]. split; [exact Hrows|].
  unfold select_availability. rewrite Hrows.
  pose proof (occupancy_after_move id m (now h) d f
                (JS.or_else reason "Riprogrammato su richiesta cliente")
                (pianificazioni (store w))) as Hafter.
  unfold occupancy in Hafter. rewrite Hafter.
  pose proof (filter_length_lt (occupies d f)
                (fun q => SQL.targets id m q || occupies d f q)
                (pianificazioni (store w)) p) as Hlt.
  assert (Hle : (S (List.length (filter (occupies d f)
                                   (pianificazioni (store w))))
                 <= List.length
                      (filter (fun q => SQL.targets id m q || occupies d f q)
                              (pianificazioni (store w))))%nat).
  { apply Hlt.
    - intros a Ha. rewrite Ha. apply orb_true_r.
    - exact Hp.
    - exact Hocc.
    - rewrite Ht. reflexivity. }
  apply Nat2Z.inj_le in Hle. rewrite Nat2Z.inj_succ in Hle.
  unfold Z.succ in Hle. exact Hle.
Qed.

Lemma uncapped_reschedule_overbooks_witness :
  select_availability Sample.d_2024_08_01 "09:00-12:00" Sample.full_slot = 5 /\
  fst (Uncapped.reschedule_appointment Sample.utc_host Sample.gateway_up
         (Some 6) None Sample.d_2024_08_01 "09:00-12:00" None
         (request_world Sample.full_slot []))
  = Ret (json (Success (Uncapped.reschedule_message Sample.utc_host
                          Sample.d_2024_08_01 "09:00-12:00"))) /\
  5 + 1
  <= select_availability Sample.d_2024_08_01 "09:00-12:00"
       (store (snd (Uncapped.reschedule_appointment Sample.utc_host
                      Sample.gateway_up (Some 6) None Sample.d_2024_08_01
                      "09:00-12:00" None (request_world Sample.full_slot [])))).
Proof.
  split; [reflexivity|].
  destruct (uncapped_reschedule_overbooks Sample.utc_host Sample.gateway_up
              (Some 6) None Sample.d_2024_08_01 "09:00-12:00" None
              (request_world Sample.full_slot [])
              (Sample.row 6 "TEST123456" Sample.d_2024_07_25 "09:00-12:00"
                 "programmato" (Some 7))
              eq_refl) as (Hok & _ & Hmore).
  - simpl. tauto.
  - reflexivity.
  - reflexivity.
  - split; [exact Hok|exact Hmore].
Defined.
